(** * SmartWater-AI front end: session, requests and view state

    A shallow embedding of the React screens of the repository
    (Login, Dashboard, Monitor, DistributionDashboard) as event-driven
    state machines.  Every handler of a screen becomes a function on a
    [world]: the component state held by [useState], the browser's
    [localStorage], the navigations performed, the HTTP requests sent so
    far and the requests still awaiting their response.  An [async]
    handler is split at its [await]: the part before it sends the request
    and registers what the part after it needs (the variables the closure
    captured); the part after it runs when the environment settles the
    request, with any outcome and in any order.

    Conventions of the model:
    - a handler runs in the closure of the latest render, so it reads the
      component state and [localStorage] as they are when the event
      arrives;
    - a request records what the code passes to axios (address, the
      headers it configures, body); the headers axios adds by itself and
      the console output are left out;
    - a response body is typed by the members the handlers read, each of
      them optional; reading a member of a missing object throws, which
      the handler's [catch] turns into its error message;
    - strings are byte strings, a character outside ASCII being its
      UTF-8 bytes. *)

From Stdlib Require Import ZArith String Ascii List Bool Lia.
From Stdlib Require Import Floats.SpecFloat.
From stdpp Require Import base option list strings gmap fin_maps.

Local Open Scope string_scope.
Local Open Scope list_scope.

(** ** JavaScript values used by the screens *)

Module Js.

(** Numbers are IEEE 754 binary64 values. *)
Definition prec : Z := 53.
Definition emax : Z := 1024.
Definition number : Type := spec_float.

Definition NaN : number := S754_nan.
Definition zero : number := S754_zero false.

Definition is_nan (x : number) : bool :=
  match x with S754_nan => true | _ => false end.

Definition is_zero (x : number) : bool :=
  match x with S754_zero _ => true | _ => false end.

(** [m * 10^e] rounded to the nearest binary64 value, ties to even; the
    value of a decimal literal. *)
Definition decimal (neg : bool) (m : N) (e : Z) : number :=
  match m with
  | N0 => S754_zero neg
  | Npos p =>
      if (0 <=? e)%Z
      then
        let x := binary_normalize prec emax (Z.pos p * 10 ^ e)%Z 0%Z false in
        if neg then SFopp x else x
      else
        let '(q, e', l) :=
          SFdiv_core_binary prec emax (Z.pos p) 0%Z (10 ^ (- e))%Z 0%Z in
        binary_round_aux prec emax neg q e' l
  end.

(** Scalars: what a form field, a table cell or a JSON member holds. *)
Inductive value :=
| VUndefined
| VNull
| VBool (b : bool)
| VNum (x : number)
| VStr (s : string).

(** ToBoolean *)
Definition truthy (v : value) : bool :=
  match v with
  | VUndefined | VNull => false
  | VBool b => b
  | VNum x => negb (is_nan x || is_zero x)
  | VStr s => negb (String.eqb s EmptyString)
  end.

(** A string-or-null, as [localStorage.getItem] returns it, in a
    condition ([!token]) and in a template literal ([`${token}`]). *)
Definition present (o : option string) : bool :=
  match o with
  | Some s => negb (String.eqb s EmptyString)
  | None => false
  end.

Definition interpolate (o : option string) : string :=
  match o with Some s => s | None => "null" end.

(** *** parseFloat *)

(** White space to trim (the ASCII part of it). *)
Definition is_white (c : ascii) : bool :=
  let n := nat_of_ascii c in
  ((9 <=? n) && (n <=? 13))%nat || (n =? 32)%nat.

Fixpoint trim_start (s : string) : string :=
  match s with
  | String c r => if is_white c then trim_start r else s
  | EmptyString => s
  end.

Definition digit_of (c : ascii) : option N :=
  let n := N_of_ascii c in
  if ((48 <=? n) && (n <=? 57))%N then Some (n - 48)%N else None.

(** Leading decimal digits of [s]: their value continuing from [acc],
    how many there are, and the rest of the string. *)
Fixpoint digits (s : string) (acc : N) (count : nat) : N * nat * string :=
  match s with
  | String c r =>
      match digit_of c with
      | Some d => digits r (10 * acc + d)%N (S count)
      | None => (acc, count, s)
      end
  | EmptyString => (acc, count, s)
  end.

(** An optional sign: whether it is a minus, and the rest. *)
Definition sign (s : string) : bool * string :=
  match s with
  | String "-" r => (true, r)
  | String "+" r => (false, r)
  | _ => (false, s)
  end.

(** ExponentPart, when one is there with at least one digit. *)
Definition exponent (s : string) : Z :=
  match s with
  | String c r =>
      if (Ascii.eqb c "e" || Ascii.eqb c "E")%bool then
        let '(neg, r') := sign r in
        let '(e, n, _) := digits r' 0%N 0%nat in
        match n with
        | O => 0%Z
        | S _ => if neg then (- Z.of_N e)%Z else Z.of_N e
        end
      else 0%Z
  | EmptyString => 0%Z
  end.

(** The longest prefix that is a StrDecimalLiteral, and its value. *)
Definition parseFloat (input : string) : number :=
  let '(neg, s) := sign (trim_start input) in
  if String.prefix "Infinity" s then S754_infinity neg
  else
    let '(int, n1, r1) := digits s 0%N 0%nat in
    match r1 with
    | String "." r2 =>
        let '(m, n2, r3) := digits r2 int 0%nat in
        match n1, n2 with
        | O, O => NaN
        | _, _ => decimal neg m (exponent r3 - Z.of_nat n2)
        end
    | _ =>
        match n1 with
        | O => NaN
        | S _ => decimal neg int (exponent r1)
        end
    end.

(** [parseFloat(v)] for a value: [v] is first turned into a string.
    Number.prototype.toString prints every number so that it reads back
    as itself, except that [-0] prints as [0]; the strings of
    [undefined], [null], [true] and [false] have no numeric prefix. *)
Definition parseFloat_value (v : value) : number :=
  match v with
  | VStr s => parseFloat s
  | VNum (S754_zero _) => zero
  | VNum x => x
  | VUndefined | VNull | VBool _ => NaN
  end.

(** [x || 0] on a number. *)
Definition or_zero (x : number) : number :=
  if truthy (VNum x) then x else zero.

(** A value that is a number other than NaN. *)
Definition numeric (v : value) : bool :=
  match v with
  | VNum x => negb (is_nan x)
  | _ => false
  end.

(** A prediction payload is well formed when every member besides the
    municipality code and the hub id is a number other than NaN. *)
Definition measurements_numeric (p : gmap string value) : Prop :=
  forall k v, p !! k = Some v ->
    k = "MC_Code" \/ k = "Hub_ID" \/ numeric v = true.

(** *** String methods *)

(** The lower-case form of an ASCII capital letter. *)
Definition lower (c : ascii) : ascii :=
  let n := nat_of_ascii c in
  if ((65 <=? n) && (n <=? 90))%nat then ascii_of_nat (n + 32) else c.

(** [s.toLowerCase()] on the ASCII letters; the other bytes are kept.
    No character outside ASCII turns into one of the letters of the
    names a screen compares the result with, so the comparison comes
    out the same. *)
Fixpoint toLowerCase (s : string) : string :=
  match s with
  | String c r => String (lower c) (toLowerCase r)
  | EmptyString => EmptyString
  end.

(** [s.includes(sub)] *)
Fixpoint includes (sub s : string) : bool :=
  String.prefix sub s
  || match s with
     | String _ r => includes sub r
     | EmptyString => false
     end.

(** [v || 0] *)
Definition or_nought (v : value) : value :=
  if truthy v then v else VNum zero.

End Js.

(** ** The browser environment of a screen *)

Module Http.

Inductive verb := GET | POST.

Inductive content :=
| Empty
| FormData (fields : list (string * string))
| Json (members : gmap string Js.value).

(** A request as the code hands it to axios: the full address, the
    headers the code configures and the body. *)
Record request := Request {
  method : verb;
  url : string;
  headers : list (string * string);
  data : content
}.

(** [err.response]: its [status] and its [data?.detail]. *)
Record failure := Failure {
  status : Z;
  detail : option string
}.

(** How a request settles.  [Fulfilled d]: the promise resolves and
    [res.data] is [d] ([None] for a null body).  [Rejected r]: axios
    throws; [r] is [err.response] ([None] when no response arrived). *)
Inductive outcome (B : Type) :=
| Fulfilled (d : option B)
| Rejected (r : option failure).
Arguments Fulfilled {B} d.
Arguments Rejected {B} r.

Definition API_BASE : string := "http://127.0.0.1:8000".

(** [err.response?.status === 401] *)
Definition unauthorized (r : option failure) : bool :=
  match r with
  | Some f => (status f =? 401)%Z
  | None => false
  end.

(** [err.response?.data?.detail || fallback] *)
Definition detail_or (r : option failure) (fallback : string) : string :=
  match r with
  | Some {| detail := Some d |} =>
      if String.eqb d EmptyString then fallback else d
  | _ => fallback
  end.

(** A request is well formed when its JSON body, if it has one, carries
    numeric measurements only. *)
Definition well_formed (rq : request) : Prop :=
  forall p, data rq = Json p -> Js.measurements_numeric p.

End Http.

Module Browser.
Import Http.

(** The world of one mounted screen.  [S] is the component state, [K]
    what a suspended handler keeps across its [await].  A request is
    identified by its position in [sent]. *)
Record world (S K : Type) := World {
  component : S;
  localStorage : gmap string string;
  mounted : bool;
  visited : list string;
  sent : list request;
  pending : list (nat * K)
}.
Arguments World {S K}.
Arguments component {S K}.
Arguments localStorage {S K}.
Arguments mounted {S K}.
Arguments visited {S K}.
Arguments sent {S K}.
Arguments pending {S K}.

Section World.
Context {S K : Type}.
Implicit Type w : world S K.

Definition open (init : S) (store : gmap string string) : world S K :=
  World init store true [] [] [].

(** [setX(...)] *)
Definition update (f : S -> S) w : world S K :=
  World (f (component w)) (localStorage w) (mounted w) (visited w) (sent w)
        (pending w).

Definition getItem (key : string) w : option string :=
  localStorage w !! key.

Definition setItem (key val : string) w : world S K :=
  World (component w) (<[key := val]> (localStorage w)) (mounted w)
        (visited w) (sent w) (pending w).

(** [localStorage.clear()] *)
Definition clear w : world S K :=
  World (component w) ∅ (mounted w) (visited w) (sent w) (pending w).

(** [navigate(route)]: the router leaves the screen. *)
Definition navigate (route : string) w : world S K :=
  World (component w) (localStorage w) false (visited w ++ [route]) (sent w)
        (pending w).

(** Issue a request and suspend on it. *)
Definition send (rq : request) (k : K) w : world S K :=
  World (component w) (localStorage w) (mounted w) (visited w)
        (sent w ++ [rq]) (pending w ++ [(length (sent w), k)]).

Fixpoint extract (id : nat) (l : list (nat * K))
    : option (K * list (nat * K)) :=
  match l with
  | [] => None
  | (i, k) :: r =>
      if (i =? id)%nat then Some (k, r)
      else match extract id r with
           | Some (k', r') => Some (k', (i, k) :: r')
           | None => None
           end
  end.

(** The suspended handler waiting for request [id], taken off the
    pending list. *)
Definition wake (id : nat) w : option (K * world S K) :=
  match extract id (pending w) with
  | Some (k, rest) =>
      Some (k, World (component w) (localStorage w) (mounted w) (visited w)
                     (sent w) rest)
  | None => None
  end.

End World.

(** [handleLogout], the same on every screen. *)
Definition handleLogout {S K} (w : world S K) : world S K :=
  navigate "/login" (clear w).

End Browser.

(** ** Response bodies of the backend

    A body is modelled at the shape the handlers read: every member a
    handler dereferences is optional, [None] standing for a member that
    is missing ([undefined]) or [null]. *)

Module Api.

(** A record of a table or chart, by member name. *)
Definition row : Type := gmap string Js.value.

(** [r.member] *)
Definition member (r : row) (name : string) : Js.value :=
  match r !! name with Some v => v | None => Js.VUndefined end.

Record hub := Hub {
  Hub_ID : string;
  Hub_Name : string
}.

#[global] Instance hub_eq_dec : EqDecision hub.
Proof. solve_decision. Defined.

(** An entry of [Trend_Summary], keyed by hub id. *)
Module Summary.
Record t := Make {
  Records : option (list row);
  figures : row
}.
End Summary.

(** An entry of [Yearly_Distribution_Trend], keyed by hub id. *)
Record yearly := Yearly {
  Records_Per_Year : option (list (string * row))
}.

Record body := Body {
  Hubs : option (list hub);
  Trend_Summary : option (gmap string Summary.t);
  Yearly_Trend_Summary : option (gmap string (list (string * row)));
  Yearly_Distribution_Trend : option (gmap string yearly);
  Records : option (list row);
  Latest_Records : option (list row);
  members : row
}.

(** [xs || []] on an optional array: an array, even an empty one, is
    truthy. *)
Definition or_empty {A} (xs : option (list A)) : list A :=
  match xs with Some l => l | None => [] end.

End Api.

(** ** Hub images

    [getHubImage] resolves an image with [require]; which modules the
    bundler can resolve is a parameter: the bundle maps the path of an
    image to what [require] returns for it, and [require] throws for a
    path the bundle does not hold. *)

Module Assets.

Definition bundle : Type := gmap string string.

Definition extensions : list string := ["jpg"; "jpeg"; "png"; "webp"; "avif"].

Definition path (hubCode ext : string) : string :=
  "../assets/hubs/" +:+ hubCode +:+ "." +:+ ext.

Definition fallback : string := "../assets/hubs/default.jpg".

(** The loop over the formats: it returns from the first [require] that
    does not throw. *)
Fixpoint first_format (assets : bundle) (hubCode : string)
    (exts : list string) : option string :=
  match exts with
  | [] => None
  | ext :: rest =>
      match assets !! path hubCode ext with
      | Some image => Some image
      | None => first_format assets hubCode rest
      end
  end.

Definition getHubImage (assets : bundle) (hubCode : string) : string :=
  match first_format assets hubCode extensions with
  | Some image => image
  | None =>
      match assets !! fallback with
      | Some image => image
      | None => ""
      end
  end.

End Assets.

(** ** Login *)

Module Login.
Import Http Browser.

Record municipal := Municipal {
  MC_Code : string;
  MC_Name : string
}.

Record body := Body {
  Municipals : option (list municipal);
  status : option string;
  token : option string;
  mc_code : option string;
  mc_name : option string
}.

Record state := State {
  username : string;
  password : string;
  mcList : list municipal;
  selectedMC : string;
  error : string;
  loading : bool
}.

Definition initial : state := State "" "" [] "" "" false.

Definition setUsername v s :=
  State v (password s) (mcList s) (selectedMC s) (error s) (loading s).
Definition setPassword v s :=
  State (username s) v (mcList s) (selectedMC s) (error s) (loading s).
Definition setMcList v s :=
  State (username s) (password s) v (selectedMC s) (error s) (loading s).
Definition setSelectedMC v s :=
  State (username s) (password s) (mcList s) v (error s) (loading s).
Definition setError v s :=
  State (username s) (password s) (mcList s) (selectedMC s) v (loading s).
Definition setLoading v s :=
  State (username s) (password s) (mcList s) (selectedMC s) (error s) v.

(** What a suspended handler holds: the municipal-list effect nothing,
    [handleLogin] the [username] of the render it was called in. *)
Inductive suspended :=
| AwaitMunicipals
| AwaitLogin (username : string).

Definition world : Type := Browser.world state suspended.

(** *** JSON.stringify of the stored user object *)

Definition quote : string := String (ascii_of_nat 34) EmptyString.

Definition hex (n : nat) : string :=
  match nth_error
          ["0"; "1"; "2"; "3"; "4"; "5"; "6"; "7"; "8"; "9"; "a"; "b"; "c";
           "d"; "e"; "f"] n
  with Some d => d | None => "" end.

Definition escape_char (c : ascii) : string :=
  let n := nat_of_ascii c in
  if (n =? 34)%nat then "\" +:+ quote
  else if (n =? 92)%nat then "\\"
  else if (n =? 8)%nat then "\b"
  else if (n =? 9)%nat then "\t"
  else if (n =? 10)%nat then "\n"
  else if (n =? 12)%nat then "\f"
  else if (n =? 13)%nat then "\r"
  else if (n <? 32)%nat then "\u00" +:+ hex (n / 16) +:+ hex (n mod 16)
  else String c EmptyString.

Fixpoint escape (s : string) : string :=
  match s with
  | String c r => escape_char c +:+ escape r
  | EmptyString => EmptyString
  end.

Definition json_string (s : string) : string := quote +:+ escape s +:+ quote.

(** [JSON.stringify] of an object whose members are strings or
    undefined: an undefined member is left out. *)
Definition stringify (o : list (string * option string)) : string :=
  "{" +:+
  String.concat ","
    (omap (fun '(k, v) =>
             match v with
             | Some s => Some (json_string k +:+ ":" +:+ json_string s)
             | None => None
             end) o)
  +:+ "}".

(** [String(x)] of a member that may be undefined, as [setItem] does. *)
Definition String_of (o : option string) : string :=
  match o with Some s => s | None => "undefined" end.

(** *** Handlers *)

(** The effect that fetches the municipal corporations on mount. *)
Definition mount (w : world) : world :=
  send (Request GET (API_BASE +:+ "/api/municipal-list") [] Empty)
       AwaitMunicipals w.

Definition handleLogin (w : world) : world :=
  let s := component w in
  let w := update (setLoading true ∘ setError "") w in
  send (Request POST (API_BASE +:+ "/api/login") []
          (FormData [("username", username s); ("password", password s);
                     ("mc_code", selectedMC s)]))
       (AwaitLogin (username s)) w.

(** The rest of a handler once its request has settled. *)
Definition resume (k : suspended) (o : outcome body) (w : world) : world :=
  match k with
  | AwaitMunicipals =>
      match o with
      | Fulfilled (Some b) =>
          match Municipals b with
          | Some l => update (setMcList l) w
          | None => w
          end
      | Fulfilled None | Rejected _ =>
          update (setError "⚠️ Failed to load municipal list.") w
      end
  | AwaitLogin username =>
      let w :=
        match o with
        | Fulfilled (Some b) =>
            if bool_decide (status b = Some "success") then
              let w := setItem "mc_code" (String_of (mc_code b)) w in
              let w := setItem "mc_name" (String_of (mc_name b)) w in
              let w :=
                setItem "user"
                  (stringify [("username", Some username);
                              ("mc_code", mc_code b);
                              ("mc_name", mc_name b)]) w in
              navigate "/dashboard" w
            else update (setError "Invalid credentials. Please check again.") w
        | Fulfilled None =>
            update (setError (detail_or None "Login failed. Try again.")) w
        | Rejected r =>
            update (setError (detail_or r "Login failed. Try again.")) w
        end in
      update (setLoading false) w
  end.

Inductive event :=
| TypeUsername (v : string)
| TypePassword (v : string)
| SelectMC (v : string)
| Submit
| BackHome
| Settle (id : nat) (o : outcome body).

(** Which events the page lets through: a handler is attached only while
    the screen is mounted, and the submit button is disabled while
    loading; a request can settle at any time. *)
Definition enabled (w : world) (e : event) : bool :=
  match e with
  | Settle _ _ => true
  | Submit => mounted w && negb (loading (component w))
  | _ => mounted w
  end.

(** One event: the handler it runs. *)
Definition step (w : world) (e : event) : world :=
  match e with
  | TypeUsername v => update (setUsername v) w
  | TypePassword v => update (setPassword v) w
  | SelectMC v => update (setSelectedMC v) w
  | Submit => handleLogin w
  | BackHome => navigate "/" w
  | Settle id o =>
      match wake id w with
      | Some (k, w') => resume k o w'
      | None => w
      end
  end.

Definition run (w : world) (es : list event) : world := fold_left step es w.

(** Every event of [es] is let through when its turn comes. *)
Fixpoint feasible (w : world) (es : list event) : bool :=
  match es with
  | [] => true
  | e :: r => enabled w e && feasible (step w e) r
  end.

(** The screen freshly mounted over a given [localStorage]. *)
Definition load (store : gmap string string) : world :=
  mount (open initial store).

(** *** Vocabulary of the properties *)

Definition awaits_login (k : suspended) : bool :=
  match k with AwaitLogin _ => true | AwaitMunicipals => false end.

(** How many login requests await their response. *)
Definition in_flight (w : world) : nat :=
  length (List.filter (fun p => awaits_login (snd p)) (pending w)).

(** The answer to the municipal-list request (request 0) among the
    events: the first one that arrives. *)
Fixpoint list_answer (es : list event) : option (outcome body) :=
  match es with
  | [] => None
  | Settle O o :: _ => Some o
  | _ :: r => list_answer r
  end.

(** The corporations the form offers after an answer to the list
    request, [l] being those it offered before. *)
Definition offered (o : option (outcome body)) (l : list municipal)
    : list municipal :=
  match o with
  | Some (Fulfilled (Some b)) =>
      match Municipals b with Some l' => l' | None => l end
  | _ => l
  end.

End Login.

(** ** Dashboard

    The Dashboard that reads the token and builds [axiosAuth] from it
    (the repository also keeps an earlier copy that reads the
    municipality code only). *)

Module Dashboard.
Import Http Browser Api.

Record state := State {
  hubs : list hub;
  error : string;
  loading : bool;
  trendType : option string;
  trendData : option (gmap string Summary.t);
  selectedHub : option hub;
  loadingTrend : bool
}.

Definition initial : state := State [] "" true None None None false.

Definition setHubs v s :=
  State v (error s) (loading s) (trendType s) (trendData s) (selectedHub s)
    (loadingTrend s).
Definition setError v s :=
  State (hubs s) v (loading s) (trendType s) (trendData s) (selectedHub s)
    (loadingTrend s).
Definition setLoading v s :=
  State (hubs s) (error s) v (trendType s) (trendData s) (selectedHub s)
    (loadingTrend s).
Definition setTrendType v s :=
  State (hubs s) (error s) (loading s) v (trendData s) (selectedHub s)
    (loadingTrend s).
Definition setTrendData v s :=
  State (hubs s) (error s) (loading s) (trendType s) v (selectedHub s)
    (loadingTrend s).
Definition setSelectedHub v s :=
  State (hubs s) (error s) (loading s) (trendType s) (trendData s) v
    (loadingTrend s).
Definition setLoadingTrend v s :=
  State (hubs s) (error s) (loading s) (trendType s) (trendData s)
    (selectedHub s) v.

Inductive suspended :=
| AwaitHubs
| AwaitTrend.

Definition world : Type := Browser.world state suspended.

(** The headers of [axiosAuth], built from the token of the render. *)
Definition axiosAuth (token : option string) : list (string * string) :=
  [("Authorization",
    if Js.present token then "Bearer " +:+ Js.interpolate token else "")].

(** The effect that fetches the hubs on mount. *)
Definition mount (w : world) : world :=
  let token := getItem "access_token" w in
  let mcCode := getItem "mc_code" w in
  if negb (Js.present token) || negb (Js.present mcCode)
  then navigate "/login" w
  else
    send (Request GET
            (API_BASE +:+ "/api/mc/" +:+ Js.interpolate mcCode +:+ "/hubs")
            (axiosAuth token) Empty)
         AwaitHubs w.

Definition fetchTrend (h : hub) (type : string) (w : world) : world :=
  let token := getItem "access_token" w in
  let mcCode := getItem "mc_code" w in
  if negb (Js.present token) then navigate "/login" w
  else
    let w :=
      update (setLoadingTrend true ∘ setSelectedHub (Some h)
              ∘ setTrendType (Some type) ∘ setTrendData None) w in
    let endpoint :=
      if String.eqb type "quality"
      then "/api/mc/" +:+ Js.interpolate mcCode +:+ "/trend?Hub_ID="
           +:+ Hub_ID h
      else "/api/mc/" +:+ Js.interpolate mcCode +:+ "/distribution-trend" in
    send (Request GET (API_BASE +:+ endpoint) (axiosAuth token) Empty)
         AwaitTrend w.

Definition resume (k : suspended) (o : outcome body) (w : world) : world :=
  match k with
  | AwaitHubs =>
      let w :=
        match o with
        | Fulfilled d => update (setHubs (or_empty (d ≫= Hubs))) w
        | Rejected r =>
            if unauthorized r then handleLogout w
            else update (setError "⚠️ Failed to load hubs.") w
        end in
      update (setLoading false) w
  | AwaitTrend =>
      let w :=
        match o with
        | Fulfilled (Some b) =>
            update (setTrendData
                      (Some (match Trend_Summary b with
                             | Some m => m
                             | None => ∅
                             end))) w
        | Fulfilled None =>
            update (setError "Failed to fetch trend data.") w
        | Rejected r =>
            let w := if unauthorized r then handleLogout w else w in
            update (setError "Failed to fetch trend data.") w
        end in
      update (setLoadingTrend false) w
  end.

Inductive event :=
| MonitorTrends (h : hub)
| DistributionTrends (h : hub)
| GoMonitor
| GoDistribution
| Logout
| Settle (id : nat) (o : outcome body).

(** Which events the page lets through: a handler is attached only while
    the screen is mounted, and a hub card shows its buttons once the hubs
    are loaded without error; a request can settle at any time. *)
Definition enabled (w : world) (e : event) : bool :=
  match e with
  | Settle _ _ => true
  | MonitorTrends h | DistributionTrends h =>
      mounted w && negb (loading (component w))
      && String.eqb (error (component w)) ""
      && bool_decide (h ∈ hubs (component w))
  | _ => mounted w
  end.

(** One event: the handler it runs. *)
Definition step (w : world) (e : event) : world :=
  match e with
  | MonitorTrends h => fetchTrend h "quality" w
  | DistributionTrends h => fetchTrend h "distribution" w
  | GoMonitor => navigate "/monitor" w
  | GoDistribution => navigate "/distribution" w
  | Logout => handleLogout w
  | Settle id o =>
      match wake id w with
      | Some (k, w') => resume k o w'
      | None => w
      end
  end.

Definition run (w : world) (es : list event) : world := fold_left step es w.

(** Every event of [es] is let through when its turn comes. *)
Fixpoint feasible (w : world) (es : list event) : bool :=
  match es with
  | [] => true
  | e :: r => enabled w e && feasible (step w e) r
  end.

Definition load (store : gmap string string) : world :=
  mount (open initial store).

(** *** What the screen shows *)

Record card := Card {
  image : string;
  title : string;
  caption : string
}.

Inductive listing :=
| NoHubs (message : string)
| Cards (cards : list card).

(** The trend section: its heading, whether the note on distribution
    data is there, and the three figures by title ([None] while the
    trend is loading; the percent sign after the efficiency is left
    out). *)
Record panel := Panel {
  heading : string;
  note : bool;
  figures : option (list (string * Js.value))
}.

Inductive view :=
| Spinner
| ErrorText (message : string)
| Content (hubs : listing) (trend : option panel).

(** [x ?? "—"] and [x ?? 0] *)
Definition nullish_dash (v : Js.value) : Js.value :=
  match v with
  | Js.VUndefined | Js.VNull => Js.VStr "—"
  | _ => v
  end.

Definition nullish_zero (v : Js.value) : Js.value :=
  match v with
  | Js.VUndefined | Js.VNull => Js.VNum Js.zero
  | _ => v
  end.

(** [trendData[selectedHub?.Hub_ID]?.name] *)
Definition figure (data : gmap string Summary.t) (selected : option hub)
    (name : string) : Js.value :=
  let key :=
    match selected with Some h => Hub_ID h | None => "undefined" end in
  match data !! key with
  | Some entry => member (Summary.figures entry) name
  | None => Js.VUndefined
  end.

(** A string-or-null as a child of an element: null renders nothing. *)
Definition child (o : option string) : string :=
  match o with Some s => s | None => "" end.

Definition render_panel (mcName : option string) (s : state)
    (data : gmap string Summary.t) : panel :=
  let quality := bool_decide (trendType s = Some "quality") in
  Panel
    (if quality
     then "💧 Water Quality Trend – "
          +:+ match selectedHub s with
              | Some h => Hub_Name h
              | None => "undefined"
              end
     else "⚙️ Distribution Efficiency Trend – " +:+ Js.interpolate mcName)
    (bool_decide (trendType s = Some "distribution"))
    (if loadingTrend s then None
     else
       Some
         (if quality
          then
            [("Average WQI",
              nullish_dash (figure data (selectedHub s) "Average_WQI"));
             ("Total Records",
              nullish_dash (figure data (selectedHub s) "Total_Records"));
             ("Anomalies",
              nullish_zero (figure data (selectedHub s) "Anomaly_Count"))]
          else
            [("Average Efficiency",
              nullish_dash (figure data (selectedHub s) "Average_Efficiency"));
             ("Total Records",
              nullish_dash (figure data (selectedHub s) "Total_Records"));
             ("Critical Risks",
              nullish_zero (figure data (selectedHub s) "Critical_Count"))])).

(** The part of the returned JSX below the header. *)
Definition render (assets : Assets.bundle) (mcName : option string)
    (s : state) : view :=
  if loading s then Spinner
  else if negb (String.eqb (error s) "") then ErrorText (error s)
  else
    Content
      (match hubs s with
       | [] => NoHubs ("No hubs available for " +:+ child mcName +:+ ".")
       | l =>
           Cards
             (map (fun h =>
                     Card (Assets.getHubImage assets (Hub_ID h)) (Hub_Name h)
                          ("ID: " +:+ Hub_ID h)) l)
       end)
      (render_panel mcName s <$> trendData s).

(** *** Vocabulary of the properties *)

(** The hub and the trend type a click asks for. *)
Definition asks (e : event) : option (hub * string) :=
  match e with
  | MonitorTrends h => Some (h, "quality")
  | DistributionTrends h => Some (h, "distribution")
  | _ => None
  end.

(** No response among the events is a 401. *)
Definition authorized (es : list event) : Prop :=
  forall id f, In (Settle id (Rejected (Some f))) es -> status f <> 401%Z.

(** The hub and the trend type asked for last in a sequence of
    events. *)
Definition asked (es : list event) : option (hub * string) :=
  fold_left
    (fun cur e => match asks e with Some a => Some a | None => cur end)
    es None.

(** [tracks a w]: while the Dashboard is mounted the token is in the
    storage; the hub and the trend type in the state are those of [a];
    and trend data, or a trend request under way, means that [a] is
    there. *)
Definition tracks (a : option (hub * string)) (w : world) : Prop :=
  (mounted w = true -> Js.present (getItem "access_token" w) = true)
  /\ selectedHub (component w) = fst <$> a
  /\ trendType (component w) = snd <$> a
  /\ ((trendData (component w) <> None
       \/ exists id, In (id, AwaitTrend) (pending w)) ->
      a <> None).

(** What holds of the Dashboard after events the page lets through: it
    tracks what was asked for last. *)
Definition follows (es : list event) (w : world) : Prop :=
  tracks (asked es) w.

End Dashboard.

(** ** The earlier Dashboard

    The copy of the Dashboard that reads the municipality code only and
    calls plain axios.  Its state, its events and its page are those of
    the Dashboard above. *)

Module DashboardLegacy.
Import Http Browser Api.
Import Dashboard.

Definition world : Type := Dashboard.world.

Definition get (path : string) : request :=
  Request GET (API_BASE +:+ path) [] Empty.

(** The effect that fetches the hubs on mount. *)
Definition mount (w : world) : world :=
  let mcCode := getItem "mc_code" w in
  if negb (Js.present mcCode) then navigate "/login" w
  else
    send (get ("/api/mc/" +:+ Js.interpolate mcCode +:+ "/hubs")) AwaitHubs w.

Definition fetchTrend (h : hub) (type : string) (w : world) : world :=
  let mcCode := getItem "mc_code" w in
  let w :=
    update (setLoadingTrend true ∘ setSelectedHub (Some h)
            ∘ setTrendType (Some type) ∘ setTrendData None) w in
  let endpoint :=
    if String.eqb type "quality"
    then "/api/mc/" +:+ Js.interpolate mcCode +:+ "/trend?Hub_ID="
         +:+ Hub_ID h
    else "/api/mc/" +:+ Js.interpolate mcCode +:+ "/distribution-trend" in
  send (get endpoint) AwaitTrend w.

Definition resume (k : suspended) (o : outcome body) (w : world) : world :=
  match k with
  | AwaitHubs =>
      let w :=
        match o with
        | Fulfilled d => update (setHubs (or_empty (d ≫= Hubs))) w
        | Rejected _ => update (setError "⚠️ Failed to load hubs.") w
        end in
      update (setLoading false) w
  | AwaitTrend =>
      let w :=
        match o with
        | Fulfilled (Some b) =>
            update (setTrendData
                      (Some (match Trend_Summary b with
                             | Some m => m
                             | None => ∅
                             end))) w
        | Fulfilled None | Rejected _ =>
            update (setError "Failed to fetch trend data."
                    ∘ setTrendData None) w
        end in
      update (setLoadingTrend false) w
  end.

(** One event: the handler it runs. *)
Definition step (w : world) (e : event) : world :=
  match e with
  | MonitorTrends h => fetchTrend h "quality" w
  | DistributionTrends h => fetchTrend h "distribution" w
  | GoMonitor => navigate "/monitor" w
  | GoDistribution => navigate "/distribution" w
  | Logout => handleLogout w
  | Settle id o =>
      match wake id w with
      | Some (k, w') => resume k o w'
      | None => w
      end
  end.

Definition run (w : world) (es : list event) : world := fold_left step es w.

Definition load (store : gmap string string) : world :=
  mount (open initial store).

(** [agree w l]: the Dashboard in world [w] and the earlier copy in
    world [l] are in the same state up to the headers of the requests
    they sent, and the earlier copy holds trend data only if the
    Dashboard holds the same. *)
Definition agree (w l : world) : Prop :=
  hubs (component l) = hubs (component w)
  /\ error (component l) = error (component w)
  /\ loading (component l) = loading (component w)
  /\ trendType (component l) = trendType (component w)
  /\ selectedHub (component l) = selectedHub (component w)
  /\ loadingTrend (component l) = loadingTrend (component w)
  /\ (trendData (component l) = None
      \/ trendData (component l) = trendData (component w))
  /\ localStorage l = localStorage w
  /\ mounted l = mounted w
  /\ visited l = visited w
  /\ pending l = pending w
  /\ map url (sent l) = map url (sent w).

End DashboardLegacy.

(** ** Monitor *)

Module Monitor.
Import Http Browser Api.

Record state := State {
  hubList : list hub;
  selectedHub : string;
  result : option body;
  trend : list row;
  yearlyTrend : list (string * row);
  anomalies : list row;
  records : list row;
  loading : bool;
  error : string;
  activeView : option string;
  formData : gmap string Js.value
}.

Definition literal (m : N) (e : Z) : Js.value := Js.VNum (Js.decimal false m e).

Definition initial : state :=
  State [] "" None [] [] [] [] false "" None
    (list_to_map
       [("Temperature_Min", literal 35 0); ("Temperature_Max", literal 40 0);
        ("pH_Min", literal 55 (-1)); ("pH_Max", literal 60 (-1));
        ("Conductivity_Min", literal 1500 0);
        ("Conductivity_Max", literal 2000 0);
        ("BOD_Min", literal 12 0); ("BOD_Max", literal 15 0);
        ("Faecal_Coliform_Min", literal 600 0);
        ("Faecal_Coliform_Max", literal 1000 0);
        ("Total_Coliform_Min", literal 600 0);
        ("Total_Coliform_Max", literal 1000 0);
        ("Nitrate_N_Min", literal 10 0); ("Nitrate_N_Max", literal 15 0)]).

Definition setHubList v s :=
  State v (selectedHub s) (result s) (trend s) (yearlyTrend s) (anomalies s)
    (records s) (loading s) (error s) (activeView s) (formData s).
Definition setSelectedHub v s :=
  State (hubList s) v (result s) (trend s) (yearlyTrend s) (anomalies s)
    (records s) (loading s) (error s) (activeView s) (formData s).
Definition setResult v s :=
  State (hubList s) (selectedHub s) v (trend s) (yearlyTrend s)
    (anomalies s) (records s) (loading s) (error s) (activeView s)
    (formData s).
Definition setTrend v s :=
  State (hubList s) (selectedHub s) (result s) v (yearlyTrend s)
    (anomalies s) (records s) (loading s) (error s) (activeView s)
    (formData s).
Definition setYearlyTrend v s :=
  State (hubList s) (selectedHub s) (result s) (trend s) v (anomalies s)
    (records s) (loading s) (error s) (activeView s) (formData s).
Definition setAnomalies v s :=
  State (hubList s) (selectedHub s) (result s) (trend s) (yearlyTrend s) v
    (records s) (loading s) (error s) (activeView s) (formData s).
Definition setRecords v s :=
  State (hubList s) (selectedHub s) (result s) (trend s) (yearlyTrend s)
    (anomalies s) v (loading s) (error s) (activeView s) (formData s).
Definition setLoading v s :=
  State (hubList s) (selectedHub s) (result s) (trend s) (yearlyTrend s)
    (anomalies s) (records s) v (error s) (activeView s) (formData s).
Definition setError v s :=
  State (hubList s) (selectedHub s) (result s) (trend s) (yearlyTrend s)
    (anomalies s) (records s) (loading s) v (activeView s) (formData s).
Definition setActiveView v s :=
  State (hubList s) (selectedHub s) (result s) (trend s) (yearlyTrend s)
    (anomalies s) (records s) (loading s) (error s) v (formData s).
Definition setFormData v s :=
  State (hubList s) (selectedHub s) (result s) (trend s) (yearlyTrend s)
    (anomalies s) (records s) (loading s) (error s) (activeView s) v.

(** What each suspended handler holds: the fetches by hub keep the
    [selectedHub] of the render they were called in. *)
Inductive suspended :=
| AwaitHubs
| AwaitPredict
| AwaitTrend (hub : string)
| AwaitYearly (hub : string)
| AwaitAnomalies
| AwaitRecords.

Definition world : Type := Browser.world state suspended.

(** [mcCode] of the current render. *)
Definition mcCode (w : world) : option string := getItem "mc_code" w.

Definition get (path : string) : request :=
  Request GET (API_BASE +:+ path) [] Empty.

(** The effect that fetches the hubs on mount. *)
Definition mount (w : world) : world :=
  if negb (Js.present (mcCode w)) then navigate "/login" w
  else
    send (get ("/api/mc/" +:+ Js.interpolate (mcCode w) +:+ "/hubs"))
         AwaitHubs w.

Definition handleChange (name value : string) (w : world) : world :=
  update (fun prev =>
            setFormData (<[name := Js.VStr value]> (formData prev)) prev) w.

(** [parseFloat(v) || 0] *)
Definition coerce (v : Js.value) : Js.value :=
  Js.VNum (Js.or_zero (Js.parseFloat_value v)).

(** The body of the prediction request; the spread measurements come
    last and win over an equal key. *)
Definition payload (mc : option string) (hub : string)
    (form : gmap string Js.value) : gmap string Js.value :=
  (coerce <$> form)
  ∪ <["MC_Code" := match mc with Some c => Js.VStr c | None => Js.VNull end]>
      (<["Hub_ID" := Js.VStr hub]> ∅).

Definition handlePredict (w : world) : world :=
  let w :=
    update (setActiveView (Some "predict") ∘ setRecords [] ∘ setAnomalies []
            ∘ setYearlyTrend [] ∘ setTrend [] ∘ setResult None
            ∘ setError "") w in
  let s := component w in
  if String.eqb (selectedHub s) ""
  then update (setError "Please select a Hub before prediction.") w
  else
    send (Request POST (API_BASE +:+ "/api/predict-quality") []
            (Json (payload (mcCode w) (selectedHub s) (formData s))))
         AwaitPredict (update (setLoading true) w).

Definition fetchTrend (w : world) : world :=
  let w :=
    update (setError "" ∘ setRecords [] ∘ setAnomalies []
            ∘ setYearlyTrend [] ∘ setResult None
            ∘ setActiveView (Some "trend")) w in
  let s := component w in
  if String.eqb (selectedHub s) ""
  then update (setError "Select a hub first.") w
  else
    send (get ("/api/mc/" +:+ Js.interpolate (mcCode w) +:+ "/trend?Hub_ID="
               +:+ selectedHub s))
         (AwaitTrend (selectedHub s)) w.

Definition fetchYearlyTrend (w : world) : world :=
  let w :=
    update (setError "" ∘ setRecords [] ∘ setAnomalies []
            ∘ setTrend [] ∘ setResult None
            ∘ setActiveView (Some "yearly")) w in
  let s := component w in
  if String.eqb (selectedHub s) ""
  then update (setError "Select a hub first.") w
  else
    send (get ("/api/mc/" +:+ Js.interpolate (mcCode w)
               +:+ "/yearly-trend?Hub_ID=" +:+ selectedHub s))
         (AwaitYearly (selectedHub s)) w.

Definition fetchAnomalies (w : world) : world :=
  let w :=
    update (setError "" ∘ setRecords [] ∘ setYearlyTrend []
            ∘ setTrend [] ∘ setResult None
            ∘ setActiveView (Some "anomalies")) w in
  let s := component w in
  if String.eqb (selectedHub s) ""
  then update (setError "Select a hub first.") w
  else
    send (get ("/api/mc/" +:+ Js.interpolate (mcCode w)
               +:+ "/anomalies?Hub_ID=" +:+ selectedHub s))
         AwaitAnomalies w.

Definition fetchRecords (w : world) : world :=
  let w :=
    update (setError "" ∘ setAnomalies [] ∘ setYearlyTrend []
            ∘ setTrend [] ∘ setResult None
            ∘ setActiveView (Some "records")) w in
  let s := component w in
  if String.eqb (selectedHub s) ""
  then update (setError "Select a hub first.") w
  else
    send (get ("/api/mc/" +:+ Js.interpolate (mcCode w)
               +:+ "/quality-records?Hub_ID=" +:+ selectedHub s))
         AwaitRecords w.

(** The value each fetch stores from a response, [None] when reading it
    throws (a member of a missing object is read). *)
Definition trend_of (hub : string) (d : option body) : option (list row) :=
  b ← d; m ← Trend_Summary b;
  Some (match m !! hub with
        | Some e => or_empty (Summary.Records e)
        | None => []
        end).

Definition yearly_of (hub : string) (d : option body)
    : option (list (string * row)) :=
  b ← d; m ← Yearly_Trend_Summary b;
  Some (match m !! hub with Some y => y | None => [] end).

Definition records_of (d : option body) : option (list row) :=
  b ← d; Some (or_empty (Records b)).

Definition resume (k : suspended) (o : outcome body) (w : world) : world :=
  match k, o with
  | AwaitHubs, Fulfilled d => update (setHubList (or_empty (d ≫= Hubs))) w
  | AwaitHubs, Rejected _ => update (setError "⚠️ Failed to load hubs.") w
  | AwaitPredict, Fulfilled d =>
      update (setLoading false ∘ setResult d) w
  | AwaitPredict, Rejected r =>
      update (setLoading false
              ∘ setError
                  (detail_or r "Prediction failed. Check backend logs.")) w
  | AwaitTrend hub, Fulfilled d =>
      match trend_of hub d with
      | Some l => update (setTrend l) w
      | None => update (setError "Trend data unavailable.") w
      end
  | AwaitTrend _, Rejected _ => update (setError "Trend data unavailable.") w
  | AwaitYearly hub, Fulfilled d =>
      match yearly_of hub d with
      | Some y => update (setYearlyTrend y) w
      | None => update (setError "Yearly trend unavailable.") w
      end
  | AwaitYearly _, Rejected _ =>
      update (setError "Yearly trend unavailable.") w
  | AwaitAnomalies, Fulfilled d =>
      match records_of d with
      | Some l => update (setAnomalies l) w
      | None => update (setError "No anomalies found.") w
      end
  | AwaitAnomalies, Rejected _ => update (setError "No anomalies found.") w
  | AwaitRecords, Fulfilled d =>
      match records_of d with
      | Some l => update (setRecords l) w
      | None => update (setError "No records found.") w
      end
  | AwaitRecords, Rejected _ => update (setError "No records found.") w
  end.

Inductive event :=
| SelectHub (v : string)
| Change (name value : string)
| Predict
| Trend
| Yearly
| Anomalies
| History
| GoDashboard
| GoDistribution
| Logout
| Settle (id : nat) (o : outcome body).

(** Which events the page lets through: a handler is attached only while
    the screen is mounted, and the predict button is disabled while
    loading; a request can settle at any time. *)
Definition enabled (w : world) (e : event) : bool :=
  match e with
  | Settle _ _ => true
  | Predict => mounted w && negb (loading (component w))
  | _ => mounted w
  end.

(** One event: the handler it runs. *)
Definition step (w : world) (e : event) : world :=
  match e with
  | SelectHub v => update (setSelectedHub v) w
  | Change name value => handleChange name value w
  | Predict => handlePredict w
  | Trend => fetchTrend w
  | Yearly => fetchYearlyTrend w
  | Anomalies => fetchAnomalies w
  | History => fetchRecords w
  | GoDashboard => navigate "/dashboard" w
  | GoDistribution => navigate "/distribution" w
  | Logout => handleLogout w
  | Settle id o =>
      match wake id w with
      | Some (k, w') => resume k o w'
      | None => w
      end
  end.

Definition run (w : world) (es : list event) : world := fold_left step es w.

(** Every event of [es] is let through when its turn comes. *)
Fixpoint feasible (w : world) (es : list event) : bool :=
  match es with
  | [] => true
  | e :: r => enabled w e && feasible (step w e) r
  end.

Definition load (store : gmap string string) : world :=
  mount (open initial store).

(** *** What the screen shows *)

Inductive section :=
| Prediction (result : body)
| TrendChart (data : list row)
| YearlyChart (bars : list (string * Js.value))
| AnomalyTable (rows : list (nat * list Js.value))
| HistoryTable (rows : list (nat * list Js.value)).

Definition cells (names : list string) (i : nat) (r : row)
    : nat * list Js.value :=
  (i, map (member r) names).

(** The members shown in the cells of the two tables. *)
Definition anomaly_columns : list string :=
  ["Created_At"; "Hub_ID"; "WQI"; "Anomaly_Status"].

Definition history_columns : list string :=
  ["Created_At"; "Hub_ID"; "WQI"; "Category"; "Anomaly_Status"].

Definition is_view (s : state) (name : string) : bool :=
  bool_decide (activeView s = Some name).

Definition nonempty {A} (l : list A) : bool :=
  match l with [] => false | _ => true end.

(** The result sections of the returned JSX, in source order. *)
Definition render (s : state) : list section :=
  (match result s with
   | Some r => if is_view s "predict" then [Prediction r] else []
   | None => []
   end)
  ++ (if is_view s "trend" && nonempty (trend s)
      then [TrendChart (trend s)] else [])
  ++ (if is_view s "yearly" && nonempty (yearlyTrend s)
      then [YearlyChart
              (map (fun '(year, d) => (year, member d "Average_WQI"))
                   (yearlyTrend s))]
      else [])
  ++ (if is_view s "anomalies" && nonempty (anomalies s)
      then [AnomalyTable
              (imap (cells anomaly_columns) (anomalies s))]
      else [])
  ++ (if is_view s "records" && nonempty (records s)
      then [HistoryTable
              (imap (cells history_columns) (take 10 (records s)))]
      else []).

(** [{error && <p className="error-text">{error}</p>}] *)
Definition banner (s : state) : option string :=
  if String.eqb (error s) "" then None else Some (error s).

(** The sections on screen: none once the router has left. *)
Definition shown (w : world) : list section :=
  if mounted w then render (component w) else [].

(** *** Vocabulary of the properties *)

(** The view a click selects. *)
Definition selects (e : event) : option string :=
  match e with
  | Predict => Some "predict"
  | Trend => Some "trend"
  | Yearly => Some "yearly"
  | Anomalies => Some "anomalies"
  | History => Some "records"
  | _ => None
  end.

(** The view selected last in a sequence of events. *)
Definition selected (es : list event) : option string :=
  fold_left
    (fun cur e => match selects e with Some v => Some v | None => cur end)
    es None.

Definition view_of (sec : section) : string :=
  match sec with
  | Prediction _ => "predict"
  | TrendChart _ => "trend"
  | YearlyChart _ => "yearly"
  | AnomalyTable _ => "anomalies"
  | HistoryTable _ => "records"
  end.

(** What every slot would show if its view were the active one. *)
Definition slots (s : state) : list section :=
  (match result s with Some r => [Prediction r] | None => [] end)
  ++ (if nonempty (trend s) then [TrendChart (trend s)] else [])
  ++ (if nonempty (yearlyTrend s)
      then [YearlyChart
              (map (fun '(year, d) => (year, member d "Average_WQI"))
                   (yearlyTrend s))]
      else [])
  ++ (if nonempty (anomalies s)
      then [AnomalyTable
              (imap (cells anomaly_columns) (anomalies s))]
      else [])
  ++ (if nonempty (records s)
      then [HistoryTable
              (imap (cells history_columns) (take 10 (records s)))]
      else []).

(** The views whose slot holds data. *)
Definition held (s : state) : list string := map view_of (slots s).

(** The view whose request a suspended handler awaits. *)
Definition serves (k : suspended) : option string :=
  match k with
  | AwaitHubs => None
  | AwaitPredict => Some "predict"
  | AwaitTrend _ => Some "trend"
  | AwaitYearly _ => Some "yearly"
  | AwaitAnomalies => Some "anomalies"
  | AwaitRecords => Some "records"
  end.

(** The path each handler requests, for a municipality and a hub. *)
Definition endpoint (k : suspended) (mc hub : string) : string :=
  match k with
  | AwaitHubs => "/api/mc/" +:+ mc +:+ "/hubs"
  | AwaitPredict => "/api/predict-quality"
  | AwaitTrend h => "/api/mc/" +:+ mc +:+ "/trend?Hub_ID=" +:+ h
  | AwaitYearly h => "/api/mc/" +:+ mc +:+ "/yearly-trend?Hub_ID=" +:+ h
  | AwaitAnomalies => "/api/mc/" +:+ mc +:+ "/anomalies?Hub_ID=" +:+ hub
  | AwaitRecords => "/api/mc/" +:+ mc +:+ "/quality-records?Hub_ID=" +:+ hub
  end.

(** [delivers k d sec]: the section [sec] shows what the handler
    suspended as [k] stores from the response body [d]. *)
Definition delivers (k : suspended) (d : option body) (sec : section) : Prop :=
  match k, sec with
  | AwaitPredict, Prediction r => d = Some r
  | AwaitTrend hub, TrendChart l => trend_of hub d = Some l
  | AwaitYearly hub, YearlyChart bars =>
      exists y, yearly_of hub d = Some y
        /\ bars = map (fun '(year, e) => (year, member e "Average_WQI")) y
  | AwaitAnomalies, AnomalyTable rows =>
      exists l, records_of d = Some l
        /\ rows = imap (cells anomaly_columns) l
  | AwaitRecords, HistoryTable rows =>
      exists l, records_of d = Some l
        /\ rows = imap (cells history_columns) (take 10 l)
  | _, _ => False
  end.

(** [origin es w sec]: among the events [es] a request of the view of
    [sec] was fulfilled with a body from which [sec] is made. *)
Definition origin (es : list event) (w : world) (sec : section) : Prop :=
  exists id d k mc hub rq,
    In (Settle id (Fulfilled d)) es
    /\ sent w !! id = Some rq
    /\ url rq = API_BASE +:+ endpoint k mc hub
    /\ serves k = Some (view_of sec)
    /\ delivers k d sec.

(** Request [id] is stale: a newer request has been issued since. *)
Definition stale (w : world) (id : nat) : bool :=
  (S id <? length (sent w))%nat.

(** What every world reached through the events [es] satisfies: the
    active view is the one selected last, every pending request was sent
    to the address of its handler, and every slot that holds data has
    its origin in a fulfilled request of its own view. *)
Definition invariant (es : list event) (w : world) : Prop :=
  activeView (component w) = selected es
  /\ (forall id k, In (id, k) (pending w) ->
        exists rq mc hub, sent w !! id = Some rq
                          /\ url rq = API_BASE +:+ endpoint k mc hub)
  /\ (forall sec, In sec (slots (component w)) -> origin es w sec).

(** *** The colour of the prediction card *)

(** [getWQIColor(category)]; [None] when [category?.toLowerCase()]
    throws, the category being a number or a boolean. *)
Definition getWQIColor (category : Js.value) : option string :=
  match category with
  | Js.VStr s =>
      let c := Js.toLowerCase s in
      Some (if String.eqb c "excellent" then "#00b894"
            else if String.eqb c "good" then "#74b9ff"
            else if String.eqb c "moderate" then "#fdcb6e"
            else if String.eqb c "poor" then "#e17055"
            else if String.eqb c "very poor" then "#d63031"
            else "#636e72")
  | Js.VUndefined | Js.VNull => Some "#636e72"
  | Js.VBool _ | Js.VNum _ => None
  end.

(** The colour of the final index of a prediction. *)
Definition index_colour (r : body) : option string :=
  getWQIColor (member (members r) "Category").

(** *** Further vocabulary *)

(** The response body [d] to the request of the click [e], made with
    [hub] selected, leaves nothing to show. *)
Definition answers_nothing (e : event) (hub : string) (d : option body)
    : Prop :=
  match e with
  | Predict => d = None
  | Trend => trend_of hub d = Some []
  | Yearly => yearly_of hub d = Some []
  | Anomalies | History => records_of d = Some []
  | _ => False
  end.

Definition awaits_prediction (k : suspended) : bool :=
  match k with AwaitPredict => true | _ => false end.

(** How many prediction requests await their response. *)
Definition in_flight (w : world) : nat :=
  length (List.filter (fun p => awaits_prediction (snd p)) (pending w)).

End Monitor.

(** ** DistributionDashboard *)

Module Distribution.
Import Http Browser Api.

Record state := State {
  hubList : list hub;
  selectedHub : string;
  formData : gmap string Js.value;
  result : option body;
  trend : list row;
  yearlyTrend : list (string * row);
  critical : list row;
  records : list row;
  error : string;
  loading : bool;
  activeView : option string
}.

Definition literal (m : N) (e : Z) : Js.value := Js.VNum (Js.decimal false m e).

Definition initial : state :=
  State [] ""
    (list_to_map
       [("Total_Demand_MLD", literal 150 0);
        ("Current_Supply_MLD", literal 120 0);
        ("Population", literal 800000 0)])
    None [] [] [] [] "" false None.

Definition setHubList v s :=
  State v (selectedHub s) (formData s) (result s) (trend s) (yearlyTrend s)
    (critical s) (records s) (error s) (loading s) (activeView s).
Definition setSelectedHub v s :=
  State (hubList s) v (formData s) (result s) (trend s) (yearlyTrend s)
    (critical s) (records s) (error s) (loading s) (activeView s).
Definition setFormData v s :=
  State (hubList s) (selectedHub s) v (result s) (trend s) (yearlyTrend s)
    (critical s) (records s) (error s) (loading s) (activeView s).
Definition setResult v s :=
  State (hubList s) (selectedHub s) (formData s) v (trend s) (yearlyTrend s)
    (critical s) (records s) (error s) (loading s) (activeView s).
Definition setTrend v s :=
  State (hubList s) (selectedHub s) (formData s) (result s) v
    (yearlyTrend s) (critical s) (records s) (error s) (loading s)
    (activeView s).
Definition setYearlyTrend v s :=
  State (hubList s) (selectedHub s) (formData s) (result s) (trend s) v
    (critical s) (records s) (error s) (loading s) (activeView s).
Definition setCritical v s :=
  State (hubList s) (selectedHub s) (formData s) (result s) (trend s)
    (yearlyTrend s) v (records s) (error s) (loading s) (activeView s).
Definition setRecords v s :=
  State (hubList s) (selectedHub s) (formData s) (result s) (trend s)
    (yearlyTrend s) (critical s) v (error s) (loading s) (activeView s).
Definition setError v s :=
  State (hubList s) (selectedHub s) (formData s) (result s) (trend s)
    (yearlyTrend s) (critical s) (records s) v (loading s) (activeView s).
Definition setLoading v s :=
  State (hubList s) (selectedHub s) (formData s) (result s) (trend s)
    (yearlyTrend s) (critical s) (records s) (error s) v (activeView s).
Definition setActiveView v s :=
  State (hubList s) (selectedHub s) (formData s) (result s) (trend s)
    (yearlyTrend s) (critical s) (records s) (error s) (loading s) v.

Inductive suspended :=
| AwaitHubs
| AwaitPredict
| AwaitTrend (hub : string)
| AwaitYearly (hub : string)
| AwaitCritical
| AwaitRecords.

Definition world : Type := Browser.world state suspended.

(** [mcCode] and [token] of the current render. *)
Definition mcCode (w : world) : option string := getItem "mc_code" w.
Definition token (w : world) : option string := getItem "access_token" w.

(** The headers of [axiosAuth]: the template literal is filled in
    whatever [token] is. *)
Definition axiosAuth (token : option string) : list (string * string) :=
  [("Authorization", "Bearer " +:+ Js.interpolate token)].

Definition get (w : world) (path : string) : request :=
  Request GET (API_BASE +:+ path) (axiosAuth (token w)) Empty.

(** The first effect of the component: redirect if the token is
    missing. *)
Definition redirect_effect (w : world) : world :=
  if negb (Js.present (token w)) || negb (Js.present (mcCode w))
  then navigate "/login" w else w.

(** The second effect: fetch the hubs. *)
Definition hubs_effect (w : world) : world :=
  if negb (Js.present (mcCode w)) then navigate "/login" w
  else
    send (get w ("/api/mc/" +:+ Js.interpolate (mcCode w) +:+ "/hubs"))
         AwaitHubs w.

(** The effect of the wrapper [ProtectedDistributionDashboard]. *)
Definition protect_effect (w : world) : world :=
  if negb (Js.present (token w)) then navigate "/login" w else w.

(** On mount the effects of the child run first, in source order, then
    the effect of the wrapper around it. *)
Definition mount (w : world) : world :=
  protect_effect (hubs_effect (redirect_effect w)).

Definition handleChange (name value : string) (w : world) : world :=
  update (fun prev =>
            setFormData
              (<[name := Js.VNum (Js.or_zero (Js.parseFloat value))]>
                 (formData prev)) prev) w.

Definition payload (mc : option string) (hub : string)
    (form : gmap string Js.value) : gmap string Js.value :=
  form
  ∪ <["MC_Code" := match mc with Some c => Js.VStr c | None => Js.VNull end]>
      (<["Hub_ID" := Js.VStr hub]> ∅).

Definition handlePredict (w : world) : world :=
  let w :=
    update (setActiveView (Some "predict") ∘ setRecords [] ∘ setCritical []
            ∘ setYearlyTrend [] ∘ setTrend [] ∘ setResult None
            ∘ setError "") w in
  let s := component w in
  if String.eqb (selectedHub s) ""
  then update (setError "Please select a Hub before prediction.") w
  else
    send (Request POST (API_BASE +:+ "/api/predict-distribution")
            (axiosAuth (token w))
            (Json (payload (mcCode w) (selectedHub s) (formData s))))
         AwaitPredict (update (setLoading true) w).

Definition fetchTrend (w : world) : world :=
  let w :=
    update (setError "" ∘ setRecords [] ∘ setCritical []
            ∘ setYearlyTrend [] ∘ setResult None
            ∘ setActiveView (Some "trend")) w in
  let s := component w in
  if String.eqb (selectedHub s) ""
  then update (setError "Select a hub first.") w
  else
    send (get w ("/api/mc/" +:+ Js.interpolate (mcCode w)
                 +:+ "/distribution-trend?hub_id=" +:+ selectedHub s))
         (AwaitTrend (selectedHub s)) w.

Definition fetchYearlyTrend (w : world) : world :=
  let w :=
    update (setError "" ∘ setRecords [] ∘ setCritical []
            ∘ setTrend [] ∘ setResult None
            ∘ setActiveView (Some "yearly")) w in
  let s := component w in
  if String.eqb (selectedHub s) ""
  then update (setError "Select a hub first.") w
  else
    send (get w ("/api/mc/" +:+ Js.interpolate (mcCode w)
                 +:+ "/yearly-distribution-trend?hub_id=" +:+ selectedHub s))
         (AwaitYearly (selectedHub s)) w.

Definition fetchCritical (w : world) : world :=
  let w :=
    update (setError "" ∘ setRecords [] ∘ setYearlyTrend []
            ∘ setTrend [] ∘ setResult None
            ∘ setActiveView (Some "critical")) w in
  send (get w ("/api/mc/" +:+ Js.interpolate (mcCode w)
               +:+ "/critical-summary"))
       AwaitCritical w.

(** [fetchRecords] reads the token again and calls plain axios with its
    own header. *)
Definition fetchRecords (w : world) : world :=
  let w :=
    update (setError "" ∘ setCritical [] ∘ setYearlyTrend []
            ∘ setTrend [] ∘ setResult None
            ∘ setActiveView (Some "records")) w in
  let token := getItem "access_token" w in
  if negb (Js.present token) then navigate "/login" w
  else
    send (Request GET
            (API_BASE +:+ "/api/mc/" +:+ Js.interpolate (mcCode w)
             +:+ "/distribution-latest")
            [("Authorization", "Bearer " +:+ Js.interpolate token)] Empty)
         AwaitRecords w.

Definition trend_of (hub : string) (d : option body) : option (list row) :=
  b ← d; m ← Trend_Summary b;
  Some (match m !! hub with
        | Some e => or_empty (Summary.Records e)
        | None => []
        end).

Definition yearly_of (hub : string) (d : option body)
    : option (list (string * row)) :=
  b ← d; m ← Yearly_Distribution_Trend b;
  Some (match m !! hub with
        | Some y => or_empty (Records_Per_Year y)
        | None => []
        end).

Definition critical_of (d : option body) : option (list row) :=
  b ← d; Some (or_empty (Records b)).

Definition latest_of (d : option body) : option (list row) :=
  b ← d; Some (or_empty (Latest_Records b)).

Definition resume (k : suspended) (o : outcome body) (w : world) : world :=
  match k, o with
  | AwaitHubs, Fulfilled d => update (setHubList (or_empty (d ≫= Hubs))) w
  | AwaitHubs, Rejected _ => update (setError "⚠️ Failed to load hubs.") w
  | AwaitPredict, Fulfilled d =>
      update (setLoading false ∘ setResult d) w
  | AwaitPredict, Rejected r =>
      update (setLoading false ∘ setError (detail_or r "Prediction failed."))
             w
  | AwaitTrend hub, Fulfilled d =>
      match trend_of hub d with
      | Some l => update (setTrend l) w
      | None => update (setError "Trend data unavailable.") w
      end
  | AwaitTrend _, Rejected _ => update (setError "Trend data unavailable.") w
  | AwaitYearly hub, Fulfilled d =>
      match yearly_of hub d with
      | Some y => update (setYearlyTrend y) w
      | None => update (setError "Yearly trend unavailable.") w
      end
  | AwaitYearly _, Rejected _ =>
      update (setError "Yearly trend unavailable.") w
  | AwaitCritical, Fulfilled d =>
      match critical_of d with
      | Some l => update (setCritical l) w
      | None => update (setError "No critical events found.") w
      end
  | AwaitCritical, Rejected _ =>
      update (setError "No critical events found.") w
  | AwaitRecords, Fulfilled d =>
      match latest_of d with
      | Some l => update (setRecords l) w
      | None => update (setError "No recent data available.") w
      end
  | AwaitRecords, Rejected _ =>
      update (setError "No recent data available.") w
  end.

Inductive event :=
| SelectHub (v : string)
| Change (name value : string)
| Predict
| Trend
| Yearly
| Critical
| History
| GoDashboard
| GoMonitor
| Logout
| Settle (id : nat) (o : outcome body).

(** Which events the page lets through: a handler is attached only while
    the screen is mounted, and the predict button is disabled while
    loading; a request can settle at any time. *)
Definition enabled (w : world) (e : event) : bool :=
  match e with
  | Settle _ _ => true
  | Predict => mounted w && negb (loading (component w))
  | _ => mounted w
  end.

(** One event: the handler it runs. *)
Definition step (w : world) (e : event) : world :=
  match e with
  | SelectHub v => update (setSelectedHub v) w
  | Change name value => handleChange name value w
  | Predict => handlePredict w
  | Trend => fetchTrend w
  | Yearly => fetchYearlyTrend w
  | Critical => fetchCritical w
  | History => fetchRecords w
  | GoDashboard => navigate "/dashboard" w
  | GoMonitor => navigate "/monitor" w
  | Logout => handleLogout w
  | Settle id o =>
      match wake id w with
      | Some (k, w') => resume k o w'
      | None => w
      end
  end.

Definition run (w : world) (es : list event) : world := fold_left step es w.

(** Every event of [es] is let through when its turn comes. *)
Fixpoint feasible (w : world) (es : list event) : bool :=
  match es with
  | [] => true
  | e :: r => enabled w e && feasible (step w e) r
  end.

(** The screen freshly mounted over a given [localStorage].  A redirect
    in one effect does not keep the later effects of the same commit
    from running. *)
Definition load (store : gmap string string) : world :=
  mount (open initial store).

(** *** What the screen shows *)

Inductive section :=
| Prediction (result : body)
| TrendChart (data : list row)
| YearlyChart (bars : list (string * Js.value))
| CriticalTable (rows : list (nat * list Js.value))
| RecordsTable (rows : list (nat * list Js.value)).

Definition is_view (s : state) (name : string) : bool :=
  bool_decide (activeView s = Some name).

Definition nonempty {A} (l : list A) : bool :=
  match l with [] => false | _ => true end.

Definition critical_cells (i : nat) (c : row) : nat * list Js.value :=
  (i, map (member c)
        ["Created_At"; "Hub_ID"; "Predicted_Supply_Efficiency";
         "Recommended_Action"]).

Definition record_cells (i : nat) (r : row) : nat * list Js.value :=
  (i, map (member r) ["Created_At"; "Hub_ID"; "Predicted_Supply_Efficiency"]
      ++ [Js.VStr (if Js.truthy (member r "Critical_Risk")
                   then "⚠️ Critical" else "✅ Stable")]).

Definition render (s : state) : list section :=
  (match result s with
   | Some r => if is_view s "predict" then [Prediction r] else []
   | None => []
   end)
  ++ (if is_view s "trend" && nonempty (trend s)
      then [TrendChart (trend s)] else [])
  ++ (if is_view s "yearly" && nonempty (yearlyTrend s)
      then [YearlyChart
              (map (fun '(year, d) => (year, member d "Average_Efficiency"))
                   (yearlyTrend s))]
      else [])
  ++ (if is_view s "critical" && nonempty (critical s)
      then [CriticalTable (imap critical_cells (critical s))] else [])
  ++ (if is_view s "records" && nonempty (records s)
      then [RecordsTable (imap record_cells (records s))] else []).

Definition banner (s : state) : option string :=
  if String.eqb (error s) "" then None else Some (error s).

Definition shown (w : world) : list section :=
  if mounted w then render (component w) else [].

(** *** Vocabulary of the properties *)

(** The view a click selects. *)
Definition selects (e : event) : option string :=
  match e with
  | Predict => Some "predict"
  | Trend => Some "trend"
  | Yearly => Some "yearly"
  | Critical => Some "critical"
  | History => Some "records"
  | _ => None
  end.

(** The view selected last in a sequence of events. *)
Definition selected (es : list event) : option string :=
  fold_left
    (fun cur e => match selects e with Some v => Some v | None => cur end)
    es None.

Definition view_of (sec : section) : string :=
  match sec with
  | Prediction _ => "predict"
  | TrendChart _ => "trend"
  | YearlyChart _ => "yearly"
  | CriticalTable _ => "critical"
  | RecordsTable _ => "records"
  end.

(** What every slot would show if its view were the active one. *)
Definition slots (s : state) : list section :=
  (match result s with Some r => [Prediction r] | None => [] end)
  ++ (if nonempty (trend s) then [TrendChart (trend s)] else [])
  ++ (if nonempty (yearlyTrend s)
      then [YearlyChart
              (map (fun '(year, d) => (year, member d "Average_Efficiency"))
                   (yearlyTrend s))]
      else [])
  ++ (if nonempty (critical s)
      then [CriticalTable (imap critical_cells (critical s))] else [])
  ++ (if nonempty (records s)
      then [RecordsTable (imap record_cells (records s))] else []).

(** The views whose slot holds data. *)
Definition held (s : state) : list string := map view_of (slots s).

(** The view whose request a suspended handler awaits. *)
Definition serves (k : suspended) : option string :=
  match k with
  | AwaitHubs => None
  | AwaitPredict => Some "predict"
  | AwaitTrend _ => Some "trend"
  | AwaitYearly _ => Some "yearly"
  | AwaitCritical => Some "critical"
  | AwaitRecords => Some "records"
  end.

(** The path each handler requests, for a municipality. *)
Definition endpoint (k : suspended) (mc : string) : string :=
  match k with
  | AwaitHubs => "/api/mc/" +:+ mc +:+ "/hubs"
  | AwaitPredict => "/api/predict-distribution"
  | AwaitTrend h => "/api/mc/" +:+ mc +:+ "/distribution-trend?hub_id=" +:+ h
  | AwaitYearly h =>
      "/api/mc/" +:+ mc +:+ "/yearly-distribution-trend?hub_id=" +:+ h
  | AwaitCritical => "/api/mc/" +:+ mc +:+ "/critical-summary"
  | AwaitRecords => "/api/mc/" +:+ mc +:+ "/distribution-latest"
  end.

(** [delivers k d sec]: the section [sec] shows what the handler
    suspended as [k] stores from the response body [d]. *)
Definition delivers (k : suspended) (d : option body) (sec : section) : Prop :=
  match k, sec with
  | AwaitPredict, Prediction r => d = Some r
  | AwaitTrend hub, TrendChart l => trend_of hub d = Some l
  | AwaitYearly hub, YearlyChart bars =>
      exists y, yearly_of hub d = Some y
        /\ bars = map (fun '(year, e) =>
                         (year, member e "Average_Efficiency")) y
  | AwaitCritical, CriticalTable rows =>
      exists l, critical_of d = Some l /\ rows = imap critical_cells l
  | AwaitRecords, RecordsTable rows =>
      exists l, latest_of d = Some l /\ rows = imap record_cells l
  | _, _ => False
  end.

(** [origin es w sec]: among the events [es] a request of the view of
    [sec] was fulfilled with a body from which [sec] is made. *)
Definition origin (es : list event) (w : world) (sec : section) : Prop :=
  exists id d k mc rq,
    In (Settle id (Fulfilled d)) es
    /\ sent w !! id = Some rq
    /\ url rq = API_BASE +:+ endpoint k mc
    /\ serves k = Some (view_of sec)
    /\ delivers k d sec.

(** Request [id] is stale: a newer request has been issued since. *)
Definition stale (w : world) (id : nat) : bool :=
  (S id <? length (sent w))%nat.

(** What every world reached through the events [es] satisfies: the
    active view is the one selected last, every pending request was sent
    to the address of its handler, and every slot that holds data has
    its origin in a fulfilled request of its own view. *)
Definition invariant (es : list event) (w : world) : Prop :=
  activeView (component w) = selected es
  /\ (forall id k, In (id, k) (pending w) ->
        exists rq mc, sent w !! id = Some rq
                          /\ url rq = API_BASE +:+ endpoint k mc)
  /\ (forall sec, In sec (slots (component w)) -> origin es w sec).

(** *** The colour and the class of the status card *)

(** [getStatusColor(status)]; [None] when [status?.includes] is no
    function, the status being a number or a boolean. *)
Definition getStatusColor (status : Js.value) : option string :=
  match status with
  | Js.VStr s =>
      Some (if Js.includes "Critical" s then "#d63031"
            else if Js.includes "Stable" s then "#00b894"
            else "#636e72")
  | Js.VUndefined | Js.VNull => Some "#636e72"
  | Js.VBool _ | Js.VNum _ => None
  end.

(** The class of the status card:
    [`trend-value ${status?.includes("Critical") ? "anomaly" : ""}`]. *)
Definition status_class (status : Js.value) : option string :=
  match status with
  | Js.VStr s =>
      Some ("trend-value "
            +:+ if Js.includes "Critical" s then "anomaly" else "")
  | Js.VUndefined | Js.VNull => Some "trend-value "
  | Js.VBool _ | Js.VNum _ => None
  end.

End Distribution.

(** ** Home

    The public landing page.  It fetches the state-wide figures with
    [fetch], and its header leads to the other screens. *)

Module Home.
Import Http Browser Api.

Record statistics := Statistics {
  totalCorporations : Js.value;
  totalPopulation : Js.value;
  avgWQI : Js.value
}.

Record state := State {
  stats : statistics;
  loading : bool;
  error : string
}.

Definition initial : state :=
  State (Statistics (Js.VNum Js.zero) (Js.VNum Js.zero) (Js.VNum Js.zero))
        true "".

Definition setStats v s := State v (loading s) (error s).
Definition setLoading v s := State (stats s) v (error s).
Definition setError v s := State (stats s) (loading s) v.

(** How the [fetch] of the overview and the [res.json()] after it end:
    [Ok data] when the response has [res.ok] and its body parses to
    [data] ([None] for null; a body that is no object reads as an object
    without members), [NotOk status] when the response lacks [res.ok],
    [Failed] when [fetch] or [res.json()] rejects. *)
Inductive answer :=
| Ok (data : option row)
| NotOk (status : Z)
| Failed.

Inductive suspended := AwaitOverview.

Definition world : Type := Browser.world state suspended.

(** The effect [fetchOverview] up to its first [await]. *)
Definition mount (w : world) : world :=
  send (Request GET (API_BASE +:+ "/api/public-overall-stats") [] Empty)
       AwaitOverview (update (setLoading true) w).

Definition resume (k : suspended) (a : answer) (w : world) : world :=
  let w :=
    match a with
    | Ok (Some data) =>
        update
          (setStats
             (Statistics
                (Js.or_nought (member data "Total_Municipal_Corporations"))
                (Js.or_nought (member data "Total_Population"))
                (Js.or_nought (member data "Average_WQI")))) w
    | Ok None | NotOk _ | Failed =>
        update
          (setError
             "⚠️ Unable to load public water statistics at the moment.") w
    end in
  update (setLoading false) w.

Inductive event :=
| Logo
| GoLogin
| GoMonitor
| GoDistribution
| Settle (id : nat) (a : answer).

(** One event: the handler it runs. *)
Definition step (w : world) (e : event) : world :=
  match e with
  | Logo => navigate "/" w
  | GoLogin => navigate "/login" w
  | GoMonitor => navigate "/monitor" w
  | GoDistribution => navigate "/distribution" w
  | Settle id a =>
      match wake id w with
      | Some (k, w') => resume k a w'
      | None => w
      end
  end.

Definition run (w : world) (es : list event) : world := fold_left step es w.

Definition load (store : gmap string string) : world :=
  mount (open initial store).

(** *** What the screen shows *)

(** The overview section: the population card shows the number in the
    format of the locale, or a dash ([None]) when it is falsy. *)
Inductive overview :=
| Fetching
| ErrorText (message : string)
| Figures (corporations : Js.value) (population : option Js.value)
          (average : Js.value).

Definition render (s : state) : overview :=
  if loading s then Fetching
  else if negb (String.eqb (error s) "") then ErrorText (error s)
  else
    Figures (totalCorporations (stats s))
            (if Js.truthy (totalPopulation (stats s))
             then Some (totalPopulation (stats s)) else None)
            (avgWQI (stats s)).

(** *** Vocabulary of the properties *)

(** The answer to the overview request (request 0) among the events:
    the first one that arrives. *)
Fixpoint first_answer (es : list event) : option answer :=
  match es with
  | [] => None
  | Settle O a :: _ => Some a
  | _ :: r => first_answer r
  end.

(** What the overview section shows for an answer. *)
Definition overview_of (a : option answer) : overview :=
  match a with
  | None => Fetching
  | Some (Ok (Some data)) =>
      let population := Js.or_nought (member data "Total_Population") in
      Figures (Js.or_nought (member data "Total_Municipal_Corporations"))
              (if Js.truthy population then Some population else None)
              (Js.or_nought (member data "Average_WQI"))
  | Some _ =>
      ErrorText "⚠️ Unable to load public water statistics at the moment."
  end.

End Home.

(** ** The persisted session *)

Module Session.

(** The keys of the session in [localStorage]. *)
Definition token (store : gmap string string) : option string :=
  store !! "access_token".
Definition municipalityCode (store : gmap string string) : option string :=
  store !! "mc_code".
Definition municipalityName (store : gmap string string) : option string :=
  store !! "mc_name".

(** Token and municipality code are both there or both missing. *)
Definition together (store : gmap string string) : bool :=
  Bool.eqb (Js.present (token store)) (Js.present (municipalityCode store)).

(** Whether a request carries an Authorization header at all. *)
Definition authorization (rq : Http.request) : option string :=
  snd <$> find (fun h => String.eqb (fst h) "Authorization") (Http.headers rq).

End Session.

(** ** Sample data for the examples *)

Module Sample.
Import Http Browser Api.

(** The response of a successful login. *)
Definition success : Login.body :=
  Login.Body None (Some "success") (Some "abc") (Some "MC01")
             (Some "Test City").

Definition login_events : list Login.event :=
  [Login.TypeUsername "u1"; Login.TypePassword "p1"; Login.SelectMC "MC01";
   Login.Submit; Login.Settle 1 (Fulfilled (Some success))].

(** The login screen after these events, starting from an empty
    [localStorage], and the storage it leaves behind. *)
Definition after_login : Login.world :=
  Login.run (Login.load ∅) login_events.

Definition session : gmap string string := localStorage after_login.

(** The same storage with a token put under the key the screens read. *)
Definition session_with_token : gmap string string :=
  <["access_token" := "abc"]> session.

Definition unauthorized {B} : outcome B := Rejected (Some (Failure 401 None)).

Definition reading (day : string) : row :=
  list_to_map
    [("Created_At", Js.VStr day); ("Hub_ID", Js.VStr "H1");
     ("WQI", Js.VNum (Js.decimal false 71 0));
     ("Category", Js.VStr "Good"); ("Anomaly_Status", Js.VStr "Normal")].

Definition empty_body : body := Body None None None None None None ∅.

Definition trend_body : body :=
  Body None (Some {[ "H1" := Summary.Make (Some [reading "d1"]) ∅ ]})
       None None None None ∅.

Definition records_body (l : list row) : body :=
  Body None None None None (Some l) None ∅.

(** Twelve records, more than the history table shows. *)
Definition twelve : list row :=
  map reading ["d01"; "d02"; "d03"; "d04"; "d05"; "d06"; "d07"; "d08"; "d09";
               "d10"; "d11"; "d12"].

(** Monitor over the storage the login leaves: with a hub selected,
    Trend is clicked and then Anomalies, before any answer arrives.  The
    hubs request is request 0, the trend request 1, the anomalies
    request 2. *)
Definition monitor : Monitor.world := Monitor.load session.

Definition racing : list Monitor.event :=
  [Monitor.SelectHub "H1"; Monitor.Trend; Monitor.Anomalies].

Definition trend_answer : Monitor.event :=
  Monitor.Settle 1 (Fulfilled (Some trend_body)).

Definition anomalies_answer : Monitor.event :=
  Monitor.Settle 2 (Fulfilled (Some (records_body [reading "d2"]))).

(** Two fields are edited to something that is no number, then the
    prediction is requested. *)
Definition predicting : list Monitor.event :=
  [Monitor.SelectHub "H1"; Monitor.Change "pH_Min" "";
   Monitor.Change "pH_Max" "abc"; Monitor.Predict].

(** DistributionDashboard over a storage with a token: the critical
    summary is requested and answered. *)
Definition distribution : Distribution.world :=
  Distribution.load session_with_token.

Definition critical_answered : list Distribution.event :=
  [Distribution.Critical;
   Distribution.Settle 1 (Fulfilled (Some (records_body [reading "d1"])))].

Definition estimating : list Distribution.event :=
  [Distribution.SelectHub "H1"; Distribution.Change "Population" "";
   Distribution.Predict].

(** The Dashboard over a storage with a token: the hubs arrive, the
    quality trend of a hub is asked for (request 1) and fails. *)
Definition north : hub := Hub "H1" "North Reservoir".

Definition hubs_body : body :=
  Body (Some [north]) None None None None None ∅.

Definition dashboard : Dashboard.world :=
  Dashboard.run (Dashboard.load session_with_token)
    [Dashboard.Settle 0 (Fulfilled (Some hubs_body));
     Dashboard.MonitorTrends north].

Definition browsing : list Dashboard.event :=
  [Dashboard.Settle 0 (Fulfilled (Some hubs_body));
   Dashboard.MonitorTrends north; Dashboard.Settle 1 (Rejected None)].

(** A trend response whose summary has no entry at all. *)
Definition no_summary : body := Body None (Some ∅) None None None None ∅.

(** The images of a bundle that has a picture of one hub in two
    formats, and the default picture. *)
Definition assets : Assets.bundle :=
  {[ Assets.path "HUB001" "png" := "/static/media/HUB001.png";
     Assets.path "HUB001" "webp" := "/static/media/HUB001.webp";
     Assets.fallback := "/static/media/default.jpg" ]}.

End Sample.

(** * Properties *)

Import Http Browser Api.

(** ** parseFloat on a few inputs *)

Example parseFloat_decimal :
  Js.parseFloat "5.5" = S754_finite false 6192449487634432 (-50).
Proof. reflexivity. Qed.

Example parseFloat_prefix : Js.parseFloat "  12px" = Js.parseFloat "12".
Proof. reflexivity. Qed.

Example parseFloat_no_number :
  Js.parseFloat "" = Js.NaN /\ Js.parseFloat "abc" = Js.NaN
  /\ Js.parseFloat "." = Js.NaN /\ Js.parseFloat "-" = Js.NaN.
Proof. repeat split. Qed.

Example parseFloat_range :
  Js.parseFloat "1e400" = S754_infinity false
  /\ Js.parseFloat "-Infinity" = S754_infinity true
  /\ Js.parseFloat "1e-400" = Js.zero
  /\ Js.parseFloat "-0" = S754_zero true.
Proof. repeat split. Qed.

Example or_zero_cases :
  Js.or_zero Js.NaN = Js.zero
  /\ Js.or_zero (S754_zero true) = Js.zero
  /\ Js.or_zero (S754_infinity false) = S754_infinity false
  /\ Js.or_zero (Js.decimal false 55 (-1)) = Js.decimal false 55 (-1).
Proof. repeat split. Qed.

(** ** The pending list *)

Section WorldFacts.
Context {S K : Type}.
Implicit Type w : Browser.world S K.

Lemma extract_sound id (l : list (nat * K)) k r :
  extract id l = Some (k, r) -> In (id, k) l /\ incl r l.
Proof.
  revert k r.
  induction l as [|[i k0] l IH]; intros k r; simpl; [discriminate|].
  destruct (Nat.eqb_spec i id) as [->|Hne].
  - intros [= <- <-]. split; [now left|]. intros x Hx. now right.
  - destruct (extract id l) as [[k' r']|]; [|discriminate].
    intros [= <- <-]. destruct (IH _ _ eq_refl) as [Hin Hincl].
    split; [now right|]. intros x [<-|Hx]; [now left|right; auto].
Qed.

(** Waking a handler takes one entry off the pending list and leaves
    the rest of the world alone. *)
Lemma wake_sound id w k w' :
  wake id w = Some (k, w') ->
  In (id, k) (pending w) /\ incl (pending w') (pending w)
  /\ component w' = component w /\ localStorage w' = localStorage w
  /\ mounted w' = mounted w /\ visited w' = visited w /\ sent w' = sent w.
Proof.
  unfold wake.
  destruct (extract id (pending w)) as [[k0 r]|] eqn:E; [|discriminate].
  intros [= <- <-]. apply extract_sound in E as [? ?]. simpl. tauto.
Qed.

End WorldFacts.

(** One conditional section of [render]: it is there only under its
    view. *)
Ltac pick_section H E :=
  match type of H with
  | In _ (if ?c && _ then _ else _) =>
      destruct c eqn:E; [|destruct H]; cbn [andb] in H
  | _ => idtac
  end;
  match type of H with
  | In _ (if ?c then _ else _) => destruct c; [|destruct H]
  | _ => idtac
  end;
  destruct H as [<-|[]].

(** ** Monitor: what is shown and where it comes from *)

Module MonitorFacts.
Import Monitor.

(** A rendered section is the slot of the active view. *)
Lemma render_slots s sec :
  In sec (render s) -> In sec (slots s) /\ activeView s = Some (view_of sec).
Proof.
  unfold render, slots. rewrite !in_app_iff.
  intros [H|[H|[H|[H|H]]]].
  - destruct (result s); [|destruct H].
    destruct (is_view s "predict") eqn:E; [|destruct H].
    destruct H as [<-|[]].
    split; [left; now left|apply bool_decide_eq_true in E; exact E].
  - pick_section H E.
    split; [right; left; now left|apply bool_decide_eq_true in E; exact E].
  - pick_section H E. split; [do 2 right; left; now left|].
    apply bool_decide_eq_true in E; exact E.
  - pick_section H E. split; [do 3 right; left; now left|].
    apply bool_decide_eq_true in E; exact E.
  - pick_section H E. split; [do 4 right; now left|].
    apply bool_decide_eq_true in E; exact E.
Qed.

Lemma selected_snoc es e :
  selected (es ++ [e])
  = match selects e with Some v => Some v | None => selected es end.
Proof. unfold selected. now rewrite fold_left_app. Qed.

Lemma run_snoc (w : world) es e : run w (es ++ [e]) = step (run w es) e.
Proof. unfold run. now rewrite fold_left_app. Qed.

(** A settling request changes the component state only. *)
Lemma resume_frame k o (w : world) :
  activeView (component (resume k o w)) = activeView (component w)
  /\ sent (resume k o w) = sent w
  /\ pending (resume k o w) = pending w
  /\ localStorage (resume k o w) = localStorage w
  /\ visited (resume k o w) = visited w
  /\ mounted (resume k o w) = mounted w.
Proof.
  destruct k, o; simpl;
    repeat match goal with
           | |- context [match ?x with _ => _ end] => destruct x
           end;
    simpl; auto 10.
Qed.

Lemma slots_setError v s : slots (setError v s) = slots s.
Proof. now destruct s. Qed.

Lemma slots_setLoading v s : slots (setLoading v s) = slots s.
Proof. now destruct s. Qed.

Lemma slots_setHubList v s : slots (setHubList v s) = slots s.
Proof. now destruct s. Qed.

(** Setting one slot adds at most the section of that slot. *)
Lemma slots_set s sec :
  (forall d, In sec (slots (setResult d s)) ->
     In sec (slots s) \/ exists r, d = Some r /\ sec = Prediction r)
  /\ (forall l, In sec (slots (setTrend l s)) ->
        In sec (slots s) \/ sec = TrendChart l)
  /\ (forall y, In sec (slots (setYearlyTrend y s)) ->
        In sec (slots s)
        \/ sec = YearlyChart
                   (map (fun '(year, e) => (year, member e "Average_WQI")) y))
  /\ (forall l, In sec (slots (setAnomalies l s)) ->
        In sec (slots s)
        \/ sec = AnomalyTable (imap (cells anomaly_columns) l))
  /\ (forall l, In sec (slots (setRecords l s)) ->
        In sec (slots s)
        \/ sec = HistoryTable (imap (cells history_columns) (take 10 l))).
Proof.
  destruct s. unfold slots.
  cbn [Monitor.result Monitor.trend Monitor.yearlyTrend Monitor.anomalies
       Monitor.records setResult setTrend setYearlyTrend setAnomalies
       setRecords].
  repeat split; intros x; rewrite !in_app_iff.
  - destruct x; cbn [In]; [|tauto].
    intros [[<-|[]]|H]; solve [right; eauto | left; tauto].
  - destruct (nonempty x); cbn [In]; [|tauto].
    intros [H|[[<-|[]]|H]]; solve [now right | left; tauto].
  - destruct (nonempty x); cbn [In]; [|tauto].
    intros [H|[H|[[<-|[]]|H]]]; solve [now right | left; tauto].
  - destruct (nonempty x); cbn [In]; [|tauto].
    intros [H|[H|[H|[[<-|[]]|H]]]]; solve [now right | left; tauto].
  - destruct (nonempty x); cbn [In]; [|tauto].
    intros [H|[H|[H|[H|[<-|[]]]]]]; solve [now right | left; tauto].
Qed.

(** A settling request adds at most the section its handler makes from
    the fulfilled body. *)
Lemma resume_slots k o (w : world) sec :
  In sec (slots (component (resume k o w))) ->
  In sec (slots (component w))
  \/ exists d, o = Fulfilled d /\ serves k = Some (view_of sec)
               /\ delivers k d sec.
Proof.
  destruct (slots_set (component w) sec) as (Sr & St & Sy & Sa & Sh).
  destruct k as [| |h|h| |], o as [d|r]; cbn [resume];
    repeat match goal with
           | |- context [match ?x with Some _ => _ | None => _ end] =>
               destruct x eqn:?
           end;
    cbn [update component]; unfold compose;
    rewrite ?slots_setLoading, ?slots_setError, ?slots_setHubList;
    try (now left); intros H.
  - apply Sr in H as [H|(r & -> & ->)]; [now left|].
    right. exists (Some r). cbn. auto.
  - apply St in H as [H| ->]; [now left|]. right. exists d. cbn. auto.
  - apply Sy in H as [H| ->]; [now left|]. right. exists d. cbn. eauto 6.
  - apply Sa in H as [H| ->]; [now left|]. right. exists d. cbn. eauto 6.
  - apply Sh in H as [H| ->]; [now left|]. right. exists d. cbn. eauto 6.
Qed.

(** Unfold the setters and projections of a handler applied to a world
    given by its fields. *)
Ltac unfold_state :=
  cbn [component update send navigate clear compose sent pending
       Monitor.hubList Monitor.selectedHub Monitor.result Monitor.trend
       Monitor.yearlyTrend Monitor.anomalies Monitor.records Monitor.loading
       Monitor.error Monitor.activeView Monitor.formData
       setHubList setSelectedHub setResult setTrend setYearlyTrend
       setAnomalies setRecords setLoading setError setActiveView setFormData
       nonempty] in *.

(** What a click does: it sets the active view if it is a view switch,
    it fills no slot, and it sends at most one request, to the address of
    the handler it suspends. *)
Lemma user_step (w : world) e :
  (forall id o, e <> Settle id o) ->
  activeView (component (step w e))
  = match selects e with
    | Some v => Some v
    | None => activeView (component w)
    end
  /\ (forall sec, In sec (slots (component (step w e))) ->
                  In sec (slots (component w)))
  /\ ((sent (step w e) = sent w /\ pending (step w e) = pending w)
      \/ exists rq k mc hub,
           sent (step w e) = sent w ++ [rq]
           /\ pending (step w e) = pending w ++ [(length (sent w), k)]
           /\ url rq = API_BASE +:+ endpoint k mc hub).
Proof.
  intros Hns. destruct w as [[hl sh rs tr yr an rc ld er av fd] ls mt vs sn pd].
  destruct e; try (now exfalso; eapply Hns);
    cbn [step selects];
    unfold handleChange, handlePredict, fetchTrend, fetchYearlyTrend,
      fetchAnomalies, fetchRecords, handleLogout, get;
    cbv zeta; unfold_state;
    try match goal with
        | |- context [String.eqb ?a ?b] => destruct (String.eqb a b)
        end;
    unfold_state;
    (split; [reflexivity
            |split; [intros sec; unfold slots; unfold_state;
                     rewrite !in_app_iff; cbn [In]; tauto|]]);
    try (left; split; reflexivity);
    right; do 2 eexists; exists (Js.interpolate (ls !! "mc_code")), sh;
      (split; [reflexivity|split; [reflexivity|reflexivity]]).
Qed.

Lemma origin_mono es e (w w' : world) sec :
  origin es w sec -> (exists l, sent w' = sent w ++ l) ->
  origin (es ++ [e]) w' sec.
Proof.
  intros (id & d & k & mc & hub & rq & Hin & Hrq & Hurl & Hk & Hd) [l Hl].
  exists id, d, k, mc, hub, rq. repeat split; auto.
  - apply in_or_app. now left.
  - rewrite Hl. now apply lookup_app_l_Some.
Qed.

Lemma invariant_init store : invariant [] (load store).
Proof.
  unfold load, mount, mcCode, getItem, open; cbn [localStorage].
  destruct (negb (Js.present (store !! "mc_code")));
    (split; [reflexivity|split; [|intros sec []]]).
  - intros id k [].
  - intros id k [[= <- <-]|[]]. do 2 eexists. exists "". split; reflexivity.
Qed.

Lemma invariant_step es (w : world) e :
  invariant es w -> invariant (es ++ [e]) (step w e).
Proof.
  intros (Hview & Hpend & Hslots).
  assert (Hcases : (exists id o, e = Settle id o)
                   \/ forall id o, e <> Settle id o)
    by (destruct e; eauto; right; discriminate).
  destruct Hcases as [(id & o & ->)|Hns].
  - cbn [step]. destruct (wake id w) as [[k w']|] eqn:Hw.
    + apply wake_sound in Hw as (Hin & Hincl & Hc & _ & _ & _ & Hs).
      destruct (resume_frame k o w') as (Ha & Hs' & Hp' & _).
      split; [|split].
      * rewrite Ha, Hc, Hview, selected_snoc. reflexivity.
      * intros i k' Hi. rewrite Hp' in Hi. apply Hincl in Hi.
        rewrite Hs', Hs. auto.
      * intros sec Hsec.
        apply resume_slots in Hsec as [Hsec|(d & -> & Hk & Hd)].
        -- rewrite Hc in Hsec. eapply origin_mono; [eauto|].
           exists []. now rewrite Hs', Hs, app_nil_r.
        -- destruct (Hpend _ _ Hin) as (rq & mc & hub & Hrq & Hurl).
           exists id, d, k, mc, hub, rq. repeat split; auto.
           ++ apply in_or_app. right. now left.
           ++ now rewrite Hs', Hs.
    + split; [|split]; auto.
      * now rewrite selected_snoc.
      * intros sec Hsec. eapply origin_mono; [eauto|].
        exists []. now rewrite app_nil_r.
  - destruct (user_step w e Hns) as (Ha & Hsub & Hnet).
    split; [|split].
    + rewrite Ha, selected_snoc, Hview. reflexivity.
    + destruct Hnet as [[Hs Hp]|(rq & k & mc & hub & Hs & Hp & Hurl)];
        rewrite Hs, Hp; [auto|].
      intros i k' Hi. apply in_app_or in Hi as [Hi|[[= <- <-]|[]]].
      * destruct (Hpend _ _ Hi) as (rq' & mc' & hub' & Hrq & Hurl').
        exists rq', mc', hub'. split; [now apply lookup_app_l_Some|auto].
      * exists rq, mc, hub. split; [|auto].
        now rewrite list_lookup_middle.
    + intros sec Hsec. apply Hsub in Hsec.
      eapply origin_mono; [eauto|].
      destruct Hnet as [[Hs _]|(rq & _ & _ & _ & Hs & _)]; rewrite Hs;
        [exists []; now rewrite app_nil_r|eauto].
Qed.

Lemma invariant_run store es : invariant es (run (load store) es).
Proof.
  induction es as [|e es IH] using rev_ind.
  - apply invariant_init.
  - rewrite run_snoc. now apply invariant_step.
Qed.

(** Whatever is on screen belongs to the view selected last and has its
    origin in a fulfilled request of that view. *)
Lemma shown_latest store es sec :
  In sec (shown (run (load store) es)) ->
  selected es = Some (view_of sec) /\ origin es (run (load store) es) sec.
Proof.
  unfold shown. destruct (mounted _); [|intros []].
  intros H. apply render_slots in H as [Hs Hv].
  destruct (invariant_run store es) as (Hview & _ & Hslots).
  split; [now rewrite <- Hview|auto].
Qed.

End MonitorFacts.

(** ** DistributionDashboard: what is shown and where it comes from *)

Module DistributionFacts.
Import Distribution.

Lemma dist_render_slots s sec :
  In sec (render s) -> In sec (slots s) /\ activeView s = Some (view_of sec).
Proof.
  unfold render, slots. rewrite !in_app_iff.
  intros [H|[H|[H|[H|H]]]].
  - destruct (result s); [|destruct H].
    destruct (is_view s "predict") eqn:E; [|destruct H].
    destruct H as [<-|[]].
    split; [left; now left|apply bool_decide_eq_true in E; exact E].
  - pick_section H E.
    split; [right; left; now left|apply bool_decide_eq_true in E; exact E].
  - pick_section H E. split; [do 2 right; left; now left|].
    apply bool_decide_eq_true in E; exact E.
  - pick_section H E. split; [do 3 right; left; now left|].
    apply bool_decide_eq_true in E; exact E.
  - pick_section H E. split; [do 4 right; now left|].
    apply bool_decide_eq_true in E; exact E.
Qed.

Lemma dist_selected_snoc es e :
  selected (es ++ [e])
  = match selects e with Some v => Some v | None => selected es end.
Proof. unfold selected. now rewrite fold_left_app. Qed.

Lemma dist_run_snoc (w : world) es e : run w (es ++ [e]) = step (run w es) e.
Proof. unfold run. now rewrite fold_left_app. Qed.

Lemma dist_resume_frame k o (w : world) :
  activeView (component (resume k o w)) = activeView (component w)
  /\ sent (resume k o w) = sent w
  /\ pending (resume k o w) = pending w
  /\ localStorage (resume k o w) = localStorage w
  /\ visited (resume k o w) = visited w
  /\ mounted (resume k o w) = mounted w.
Proof.
  destruct k, o; simpl;
    repeat match goal with
           | |- context [match ?x with _ => _ end] => destruct x
           end;
    simpl; auto 10.
Qed.

(** A settling request leaves the form alone. *)
Lemma resume_formData k o (w : world) :
  formData (component (resume k o w)) = formData (component w).
Proof.
  destruct k, o; cbn [resume];
    repeat match goal with
           | |- context [match ?x with Some _ => _ | None => _ end] =>
               destruct x
           end;
    cbn [update component]; unfold compose; now destruct (component w).
Qed.

Lemma dist_slots_setError v s : slots (setError v s) = slots s.
Proof. now destruct s. Qed.

Lemma dist_slots_setLoading v s : slots (setLoading v s) = slots s.
Proof. now destruct s. Qed.

Lemma dist_slots_setHubList v s : slots (setHubList v s) = slots s.
Proof. now destruct s. Qed.

Lemma dist_slots_set s sec :
  (forall d, In sec (slots (setResult d s)) ->
     In sec (slots s) \/ exists r, d = Some r /\ sec = Prediction r)
  /\ (forall l, In sec (slots (setTrend l s)) ->
        In sec (slots s) \/ sec = TrendChart l)
  /\ (forall y, In sec (slots (setYearlyTrend y s)) ->
        In sec (slots s)
        \/ sec = YearlyChart
                   (map (fun '(year, e) =>
                           (year, member e "Average_Efficiency")) y))
  /\ (forall l, In sec (slots (setCritical l s)) ->
        In sec (slots s) \/ sec = CriticalTable (imap critical_cells l))
  /\ (forall l, In sec (slots (setRecords l s)) ->
        In sec (slots s) \/ sec = RecordsTable (imap record_cells l)).
Proof.
  destruct s. unfold slots.
  cbn [Distribution.result Distribution.trend Distribution.yearlyTrend
       Distribution.critical Distribution.records setResult setTrend
       setYearlyTrend setCritical setRecords].
  repeat split; intros x; rewrite !in_app_iff.
  - destruct x; cbn [In]; [|tauto].
    intros [[<-|[]]|H]; solve [right; eauto | left; tauto].
  - destruct (nonempty x); cbn [In]; [|tauto].
    intros [H|[[<-|[]]|H]]; solve [now right | left; tauto].
  - destruct (nonempty x); cbn [In]; [|tauto].
    intros [H|[H|[[<-|[]]|H]]]; solve [now right | left; tauto].
  - destruct (nonempty x); cbn [In]; [|tauto].
    intros [H|[H|[H|[[<-|[]]|H]]]]; solve [now right | left; tauto].
  - destruct (nonempty x); cbn [In]; [|tauto].
    intros [H|[H|[H|[H|[<-|[]]]]]]; solve [now right | left; tauto].
Qed.

Lemma dist_resume_slots k o (w : world) sec :
  In sec (slots (component (resume k o w))) ->
  In sec (slots (component w))
  \/ exists d, o = Fulfilled d /\ serves k = Some (view_of sec)
               /\ delivers k d sec.
Proof.
  destruct (dist_slots_set (component w) sec) as (Sr & St & Sy & Sa & Sh).
  destruct k as [| |h|h| |], o as [d|r]; cbn [resume];
    repeat match goal with
           | |- context [match ?x with Some _ => _ | None => _ end] =>
               destruct x eqn:?
           end;
    cbn [update component]; unfold compose;
    rewrite ?dist_slots_setLoading, ?dist_slots_setError,
      ?dist_slots_setHubList;
    try (now left); intros H.
  - apply Sr in H as [H|(r & -> & ->)]; [now left|].
    right. exists (Some r). cbn. auto.
  - apply St in H as [H| ->]; [now left|]. right. exists d. cbn. auto.
  - apply Sy in H as [H| ->]; [now left|]. right. exists d. cbn. eauto 6.
  - apply Sa in H as [H| ->]; [now left|]. right. exists d. cbn. eauto 6.
  - apply Sh in H as [H| ->]; [now left|]. right. exists d. cbn. eauto 6.
Qed.

Ltac unfold_state :=
  cbn [component update send navigate clear compose sent pending
       localStorage
       Distribution.hubList Distribution.selectedHub Distribution.result
       Distribution.trend Distribution.yearlyTrend Distribution.critical
       Distribution.records Distribution.loading Distribution.error
       Distribution.activeView Distribution.formData
       setHubList setSelectedHub setResult setTrend setYearlyTrend
       setCritical setRecords setLoading setError setActiveView setFormData
       nonempty] in *.

(** The two tests a handler makes before it sends: a hub is selected,
    a token is stored. *)
Ltac split_guard :=
  try match goal with
      | |- context [String.eqb ?a ?b] => destruct (String.eqb a b)
      | |- context [negb (Js.present ?t)] => destruct (negb (Js.present t))
      end.

Lemma dist_user_step (w : world) e :
  (forall id o, e <> Settle id o) ->
  activeView (component (step w e))
  = match selects e with
    | Some v => Some v
    | None => activeView (component w)
    end
  /\ (forall sec, In sec (slots (component (step w e))) ->
                  In sec (slots (component w)))
  /\ ((sent (step w e) = sent w /\ pending (step w e) = pending w)
      \/ exists rq k mc,
           sent (step w e) = sent w ++ [rq]
           /\ pending (step w e) = pending w ++ [(length (sent w), k)]
           /\ url rq = API_BASE +:+ endpoint k mc).
Proof.
  intros Hns. destruct w as [[hl sh fd rs tr yr cr rc er ld av] ls mt vs sn pd].
  destruct e; try (now exfalso; eapply Hns);
    cbn [step selects];
    unfold handleChange, handlePredict, fetchTrend, fetchYearlyTrend,
      fetchCritical, fetchRecords, handleLogout, get, mcCode, token, getItem;
    cbv zeta; unfold_state; split_guard; unfold_state;
    (split; [reflexivity
            |split; [intros sec; unfold slots; unfold_state;
                     rewrite !in_app_iff; cbn [In]; tauto|]]);
    try (left; split; reflexivity);
    right; do 2 eexists; exists (Js.interpolate (ls !! "mc_code"));
      (split; [reflexivity|split; [reflexivity|reflexivity]]).
Qed.

Lemma dist_origin_mono es e (w w' : world) sec :
  origin es w sec -> (exists l, sent w' = sent w ++ l) ->
  origin (es ++ [e]) w' sec.
Proof.
  intros (id & d & k & mc & rq & Hin & Hrq & Hurl & Hk & Hd) [l Hl].
  exists id, d, k, mc, rq. repeat split; auto.
  - apply in_or_app. now left.
  - rewrite Hl. now apply lookup_app_l_Some.
Qed.

(** The effects of the mount: only the hubs effect sends. *)
Lemma redirect_frame (w : world) :
  component (redirect_effect w) = component w
  /\ localStorage (redirect_effect w) = localStorage w
  /\ sent (redirect_effect w) = sent w
  /\ pending (redirect_effect w) = pending w.
Proof. unfold redirect_effect. now destruct (_ || _). Qed.

Lemma protect_frame (w : world) :
  component (protect_effect w) = component w
  /\ localStorage (protect_effect w) = localStorage w
  /\ sent (protect_effect w) = sent w
  /\ pending (protect_effect w) = pending w.
Proof. unfold protect_effect. now destruct (negb _). Qed.

Lemma hubs_shape (w : world) :
  component (hubs_effect w) = component w
  /\ localStorage (hubs_effect w) = localStorage w
  /\ ((sent (hubs_effect w) = sent w /\ pending (hubs_effect w) = pending w)
      \/ exists rq,
           sent (hubs_effect w) = sent w ++ [rq]
           /\ pending (hubs_effect w)
              = pending w ++ [(length (sent w), AwaitHubs)]
           /\ url rq
              = API_BASE +:+ endpoint AwaitHubs (Js.interpolate (mcCode w))
           /\ data rq = Empty).
Proof.
  unfold hubs_effect. destruct (negb _).
  - repeat split; auto.
  - repeat split; auto. right. eexists. repeat split.
Qed.

Lemma dist_invariant_init store : invariant [] (load store).
Proof.
  unfold load, mount.
  set (w0 := open initial store).
  destruct (redirect_frame w0) as (C1 & L1 & S1 & P1).
  destruct (hubs_shape (redirect_effect w0)) as (C2 & L2 & N2).
  destruct (protect_frame (hubs_effect (redirect_effect w0)))
    as (C3 & L3 & S3 & P3).
  split; [|split].
  - now rewrite C3, C2, C1.
  - intros id k. rewrite P3, S3.
    destruct N2 as [[-> ->]|(rq & -> & -> & Hurl & _)]; rewrite ?S1, P1;
      cbn [sent pending w0 open app In length]; [tauto|].
    intros [[= <- <-]|[]]. eauto.
  - rewrite C3, C2, C1. intros sec [].
Qed.

Lemma dist_invariant_step es (w : world) e :
  invariant es w -> invariant (es ++ [e]) (step w e).
Proof.
  intros (Hview & Hpend & Hslots).
  assert (Hcases : (exists id o, e = Settle id o)
                   \/ forall id o, e <> Settle id o)
    by (destruct e; eauto; right; discriminate).
  destruct Hcases as [(id & o & ->)|Hns].
  - cbn [step]. destruct (wake id w) as [[k w']|] eqn:Hw.
    + apply wake_sound in Hw as (Hin & Hincl & Hc & _ & _ & _ & Hs).
      destruct (dist_resume_frame k o w') as (Ha & Hs' & Hp' & _).
      split; [|split].
      * rewrite Ha, Hc, Hview, dist_selected_snoc. reflexivity.
      * intros i k' Hi. rewrite Hp' in Hi. apply Hincl in Hi.
        rewrite Hs', Hs. auto.
      * intros sec Hsec.
        apply dist_resume_slots in Hsec as [Hsec|(d & -> & Hk & Hd)].
        -- rewrite Hc in Hsec. eapply dist_origin_mono; [eauto|].
           exists []. now rewrite Hs', Hs, app_nil_r.
        -- destruct (Hpend _ _ Hin) as (rq & mc & Hrq & Hurl).
           exists id, d, k, mc, rq. repeat split; auto.
           ++ apply in_or_app. right. now left.
           ++ now rewrite Hs', Hs.
    + split; [|split]; auto.
      * now rewrite dist_selected_snoc.
      * intros sec Hsec. eapply dist_origin_mono; [eauto|].
        exists []. now rewrite app_nil_r.
  - destruct (dist_user_step w e Hns) as (Ha & Hsub & Hnet).
    split; [|split].
    + rewrite Ha, dist_selected_snoc, Hview. reflexivity.
    + destruct Hnet as [[Hs Hp]|(rq & k & mc & Hs & Hp & Hurl)];
        rewrite Hs, Hp; [auto|].
      intros i k' Hi. apply in_app_or in Hi as [Hi|[[= <- <-]|[]]].
      * destruct (Hpend _ _ Hi) as (rq' & mc' & Hrq & Hurl').
        exists rq', mc'. split; [now apply lookup_app_l_Some|auto].
      * exists rq, mc. split; [|auto].
        now rewrite list_lookup_middle.
    + intros sec Hsec. apply Hsub in Hsec.
      eapply dist_origin_mono; [eauto|].
      destruct Hnet as [[Hs _]|(rq & _ & _ & Hs & _)]; rewrite Hs;
        [exists []; now rewrite app_nil_r|eauto].
Qed.

Lemma dist_invariant_run store es : invariant es (run (load store) es).
Proof.
  induction es as [|e es IH] using rev_ind.
  - apply dist_invariant_init.
  - rewrite dist_run_snoc. now apply dist_invariant_step.
Qed.

Lemma dist_shown_latest store es sec :
  In sec (shown (run (load store) es)) ->
  selected es = Some (view_of sec) /\ origin es (run (load store) es) sec.
Proof.
  unfold shown. destruct (mounted _); [|intros []].
  intros H. apply dist_render_slots in H as [Hs Hv].
  destruct (dist_invariant_run store es) as (Hview & _ & Hslots).
  split; [now rewrite <- Hview|auto].
Qed.

End DistributionFacts.

(** ** C1: which view is on screen *)

(** C1 (as amended): on Monitor and on DistributionDashboard, for every
    sequence of events (clicks and settling requests, in any order) the
    only result section on screen is the one of the view selected last,
    and what it shows was made from a fulfilled response to a request
    sent to that same view's endpoint.  No sequence number is involved:
    the sections are gated by [activeView], which only a click changes.
    And no response is dropped: whatever has been requested since, a
    fulfilled response to a pending request is stored in the slot of
    the view that asked for it (or, if its body cannot be read, sets
    that handler's message); it leaves [activeView] alone, so what it
    stored stays hidden while another view is active. *)
Theorem shown_section_belongs_to_latest_view :
  (forall store es sec,
      In sec (Monitor.shown (Monitor.run (Monitor.load store) es)) ->
      Monitor.selected es = Some (Monitor.view_of sec)
      /\ Monitor.origin es (Monitor.run (Monitor.load store) es) sec)
  /\ (forall store es sec,
      let w := Distribution.run (Distribution.load store) es in
      In sec (Distribution.shown w) ->
      Distribution.selected es = Some (Distribution.view_of sec)
      /\ Distribution.origin es w sec)
  /\ (forall (w : Monitor.world) id k w0 d,
        wake id w = Some (k, w0) ->
        let w' := Monitor.step w (Monitor.Settle id (Fulfilled d)) in
        match k with
        | Monitor.AwaitHubs => True
        | Monitor.AwaitPredict => Monitor.result (component w') = d
        | Monitor.AwaitTrend hub =>
            match Monitor.trend_of hub d with
            | Some l => Monitor.trend (component w') = l
            | None => Monitor.error (component w') = "Trend data unavailable."
            end
        | Monitor.AwaitYearly hub =>
            match Monitor.yearly_of hub d with
            | Some y => Monitor.yearlyTrend (component w') = y
            | None =>
                Monitor.error (component w') = "Yearly trend unavailable."
            end
        | Monitor.AwaitAnomalies =>
            match Monitor.records_of d with
            | Some l => Monitor.anomalies (component w') = l
            | None => Monitor.error (component w') = "No anomalies found."
            end
        | Monitor.AwaitRecords =>
            match Monitor.records_of d with
            | Some l => Monitor.records (component w') = l
            | None => Monitor.error (component w') = "No records found."
            end
        end
        /\ Monitor.activeView (component w')
           = Monitor.activeView (component w)
        /\ forall sec,
             In sec (Monitor.shown w') ->
             Monitor.activeView (component w)
             = Some (Monitor.view_of sec))
  /\ (forall (w : Distribution.world) id k w0 d,
        wake id w = Some (k, w0) ->
        let w' :=
          Distribution.step w (Distribution.Settle id (Fulfilled d)) in
        match k with
        | Distribution.AwaitHubs => True
        | Distribution.AwaitPredict =>
            Distribution.result (component w') = d
        | Distribution.AwaitTrend hub =>
            match Distribution.trend_of hub d with
            | Some l => Distribution.trend (component w') = l
            | None =>
                Distribution.error (component w') = "Trend data unavailable."
            end
        | Distribution.AwaitYearly hub =>
            match Distribution.yearly_of hub d with
            | Some y => Distribution.yearlyTrend (component w') = y
            | None =>
                Distribution.error (component w')
                = "Yearly trend unavailable."
            end
        | Distribution.AwaitCritical =>
            match Distribution.critical_of d with
            | Some l => Distribution.critical (component w') = l
            | None =>
                Distribution.error (component w')
                = "No critical events found."
            end
        | Distribution.AwaitRecords =>
            match Distribution.latest_of d with
            | Some l => Distribution.records (component w') = l
            | None =>
                Distribution.error (component w')
                = "No recent data available."
            end
        end
        /\ Distribution.activeView (component w')
           = Distribution.activeView (component w)
        /\ forall sec,
             In sec (Distribution.shown w') ->
             Distribution.activeView (component w)
             = Some (Distribution.view_of sec)).
Proof.
  split; [apply MonitorFacts.shown_latest|].
  split; [apply DistributionFacts.dist_shown_latest|].
  split.
  - intros w id k w0 d Hw w'.
    assert (Hw' : w' = Monitor.resume k (Fulfilled d) w0)
      by (subst w'; cbn [Monitor.step]; now rewrite Hw).
    apply wake_sound in Hw as (_ & _ & Hc & _).
    destruct (MonitorFacts.resume_frame k (Fulfilled d) w0)
      as (Hv & _ & _ & _ & _ & _).
    rewrite <- Hw' in Hv. rewrite Hc in Hv.
    split; [|split; [exact Hv|]].
    + rewrite Hw'. destruct k; cbn [Monitor.resume]; try exact I;
        try reflexivity;
        match goal with
        | |- context [match ?x with _ => _ end] => destruct x
        end; reflexivity.
    + intros sec. unfold Monitor.shown.
      destruct (mounted w'); [|intros []].
      intros H. apply MonitorFacts.render_slots in H as [_ H].
      now rewrite <- Hv.
  - intros w id k w0 d Hw w'.
    assert (Hw' : w' = Distribution.resume k (Fulfilled d) w0)
      by (subst w'; cbn [Distribution.step]; now rewrite Hw).
    apply wake_sound in Hw as (_ & _ & Hc & _).
    destruct (DistributionFacts.dist_resume_frame k (Fulfilled d) w0)
      as (Hv & _ & _ & _ & _ & _).
    rewrite <- Hw' in Hv. rewrite Hc in Hv.
    split; [|split; [exact Hv|]].
    + rewrite Hw'. destruct k; cbn [Distribution.resume]; try exact I;
        try reflexivity;
        match goal with
        | |- context [match ?x with _ => _ end] => destruct x
        end; reflexivity.
    + intros sec. unfold Distribution.shown.
      destruct (mounted w'); [|intros []].
      intros H. apply DistributionFacts.dist_render_slots in H as [_ H].
      now rewrite <- Hv.
Qed.

Lemma shown_section_belongs_to_latest_view_witness :
  (let es := Sample.racing ++ [Sample.trend_answer; Monitor.Trend] in
   In (Monitor.TrendChart [Sample.reading "d1"])
      (Monitor.shown (Monitor.run (Monitor.load Sample.session) es))
   /\ Monitor.selected es = Some "trend")
  /\ (let es := Sample.critical_answered in
      let w := Distribution.run
                 (Distribution.load Sample.session_with_token) es in
      In (Distribution.CriticalTable
            [Distribution.critical_cells 0 (Sample.reading "d1")])
         (Distribution.shown w)
      /\ Distribution.selected es = Some "critical")
  /\ (let w := Monitor.run Sample.monitor Sample.racing in
      let w' :=
        Monitor.step w (Monitor.Settle 1 (Fulfilled (Some Sample.trend_body)))
      in
      Monitor.stale w 1 = true
      /\ Monitor.trend (component w') = [Sample.reading "d1"]
      /\ Monitor.activeView (component w') = Some "anomalies")
  /\ (let w :=
        Distribution.run Sample.distribution
          [Distribution.SelectHub "H1"; Distribution.Trend;
           Distribution.Critical] in
      let w' :=
        Distribution.step w
          (Distribution.Settle 1 (Fulfilled (Some Sample.trend_body))) in
      Distribution.stale w 1 = true
      /\ Distribution.trend (component w') = [Sample.reading "d1"]
      /\ Distribution.activeView (component w') = Some "critical").
Proof.
  destruct shown_section_belongs_to_latest_view as (Hm & Hd & Hsm & Hsd).
  split; [|split; [|split]]; cbv zeta.
  - assert (H : In (Monitor.TrendChart [Sample.reading "d1"])
                  (Monitor.shown
                     (Monitor.run (Monitor.load Sample.session)
                        (Sample.racing
                         ++ [Sample.trend_answer; Monitor.Trend]))))
      by (vm_compute; left; reflexivity).
    split; [exact H|]. exact (proj1 (Hm _ _ _ H)).
  - assert (H : In (Distribution.CriticalTable
                      [Distribution.critical_cells 0 (Sample.reading "d1")])
                  (Distribution.shown
                     (Distribution.run
                        (Distribution.load Sample.session_with_token)
                        Sample.critical_answered)))
      by (vm_compute; left; reflexivity).
    split; [exact H|]. exact (proj1 (Hd _ _ _ H)).
  - assert (Hw : exists w0,
               wake 1 (Monitor.run Sample.monitor Sample.racing)
               = Some (Monitor.AwaitTrend "H1", w0))
      by (eexists; vm_compute; reflexivity).
    destruct Hw as [w0 Hw].
    destruct (Hsm _ 1 _ w0 (Some Sample.trend_body) Hw) as (Hst & Hv & _).
    assert (Ht : Monitor.trend_of "H1" (Some Sample.trend_body)
                 = Some [Sample.reading "d1"])
      by (vm_compute; reflexivity).
    rewrite Ht in Hst.
    assert (Ha : Monitor.activeView
                   (component (Monitor.run Sample.monitor Sample.racing))
                 = Some "anomalies")
      by (vm_compute; reflexivity).
    rewrite Ha in Hv.
    split; [vm_compute; reflexivity|]. split; [exact Hst|exact Hv].
  - assert (Hw : exists w0,
               wake 1 (Distribution.run Sample.distribution
                         [Distribution.SelectHub "H1"; Distribution.Trend;
                          Distribution.Critical])
               = Some (Distribution.AwaitTrend "H1", w0))
      by (eexists; vm_compute; reflexivity).
    destruct Hw as [w0 Hw].
    destruct (Hsd _ 1 _ w0 (Some Sample.trend_body) Hw) as (Hst & Hv & _).
    assert (Ht : Distribution.trend_of "H1" (Some Sample.trend_body)
                 = Some [Sample.reading "d1"])
      by (vm_compute; reflexivity).
    rewrite Ht in Hst.
    assert (Ha : Distribution.activeView
                   (component
                      (Distribution.run Sample.distribution
                         [Distribution.SelectHub "H1"; Distribution.Trend;
                          Distribution.Critical]))
                 = Some "critical")
      by (vm_compute; reflexivity).
    rewrite Ha in Hv.
    split; [vm_compute; reflexivity|]. split; [exact Hst|exact Hv].
Defined.

(** C1 (as stated) fails: a response is applied whatever has been
    requested since.  On Monitor, with a hub selected, Trend is clicked
    and then Anomalies; the trend response arrives afterwards.  Its
    request is stale, yet its records are stored (they stay hidden while
    Anomalies is active), and clicking Trend again puts them on screen
    while the new trend request is still pending.  A late failure is not
    dropped either: its message shows in the banner under the newer
    view. *)
Lemma late_response_is_applied :
  let w := Monitor.run Sample.monitor Sample.racing in
  let late := Monitor.step w Sample.trend_answer in
  let failed := Monitor.step w (Monitor.Settle 1 (Rejected None)) in
  Monitor.feasible Sample.monitor
    (Sample.racing ++ [Sample.trend_answer; Monitor.Trend]) = true
  /\ Monitor.stale w 1 = true
  /\ Monitor.trend (component w) = []
  /\ Monitor.trend (component late) = [Sample.reading "d1"]
  /\ Monitor.shown late = []
  /\ Monitor.shown (Monitor.step late Monitor.Trend)
     = [Monitor.TrendChart [Sample.reading "d1"]]
  /\ pending (Monitor.step late Monitor.Trend)
     = [(0, Monitor.AwaitHubs); (2, Monitor.AwaitAnomalies);
        (3, Monitor.AwaitTrend "H1")]
  /\ Monitor.activeView (component failed) = Some "anomalies"
  /\ Monitor.banner (component failed) = Some "Trend data unavailable.".
Proof. cbv zeta. repeat split; vm_compute; reflexivity. Qed.

(** ** C2 and C3: what a successful login stores *)

(** C2 (the code at the stated input): the login of u1 with
    password p1 for MC01, answered with status success, token abc,
    mc_code MC01 and mc_name Test City, navigates to the dashboard and
    stores the municipality code, the municipality name and a [user]
    object, but not the token: no key of [localStorage] holds it.  The
    Dashboard mounted next finds no [access_token] and redirects to the
    login screen without fetching anything. *)
Theorem login_success_stores_no_token :
  Login.feasible (Login.load ∅) Sample.login_events = true
  /\ visited Sample.after_login = ["/dashboard"]
  /\ Session.municipalityCode Sample.session = Some "MC01"
  /\ Session.municipalityName Sample.session = Some "Test City"
  /\ Session.token Sample.session = None
  /\ (map_to_list Sample.session).*1 = ["mc_code"; "mc_name"; "user"]
  /\ Sample.session !! "user"
     = Some (Login.stringify
               [("username", Some "u1"); ("mc_code", Some "MC01");
                ("mc_name", Some "Test City")])
  /\ ("abc" ∉ ((map_to_list Sample.session).*2))
  /\ visited (Dashboard.load Sample.session) = ["/login"]
  /\ sent (Dashboard.load Sample.session) = [].
Proof.
  repeat split; try (vm_compute; reflexivity).
  vm_compute. intros H.
  repeat (apply elem_of_cons in H as [H|H]; [discriminate|]).
  now apply elem_of_nil in H.
Qed.

(** C3 (the code at a failing input): the empty storage keeps token and
    municipality code together, and so does the storage after a logout;
    the storage after the successful login of C2 holds the municipality
    code without a token. *)
Theorem login_success_separates_token_and_code :
  Session.together ∅ = true
  /\ Session.together Sample.session = false
  /\ Js.present (Session.municipalityCode Sample.session) = true
  /\ Js.present (Session.token Sample.session) = false
  /\ Session.together
       (localStorage (Monitor.step Sample.monitor Monitor.Logout)) = true.
Proof. repeat split; vm_compute; reflexivity. Qed.

(** Logout, and the 401 branch of the Dashboard which calls it, clear
    every key at once. *)
Lemma handleLogout_clears {S K} (w : Browser.world S K) :
  localStorage (handleLogout w) = ∅
  /\ Session.together (localStorage (handleLogout w)) = true
  /\ visited (handleLogout w) = visited w ++ ["/login"].
Proof. repeat split. Qed.

(** ** C4: a 401 response *)

(** On the Dashboard a 401 answer to either fetch clears the storage
    and redirects to the login screen. *)
Lemma Dashboard_unauthorized_logs_out (w : Dashboard.world) k f :
  status f = 401%Z ->
  let w' := Dashboard.resume k (Rejected (Some f)) w in
  localStorage w' = ∅ /\ visited w' = visited w ++ ["/login"].
Proof.
  intros Hf. destruct k; cbn; unfold unauthorized; rewrite Hf; cbn; auto.
Qed.

(** C4 (the code at a failing input): on Monitor, over the storage the
    login leaves, a 401 answer to the anomalies fetch only sets an error
    message; the storage is untouched and nothing navigates.  On
    DistributionDashboard, over a storage with a token, a 401 answer to
    the trend fetch does the same, and the next fetch is sent with the
    very same token.  The Dashboard, given the same answer, clears the
    storage and redirects. *)
Theorem unauthorized_response_keeps_session :
  (let es := [Monitor.SelectHub "H1"; Monitor.Anomalies;
              Monitor.Settle 1 Sample.unauthorized] in
   let w := Monitor.run Sample.monitor es in
   Monitor.feasible Sample.monitor es = true
   /\ localStorage w = Sample.session
   /\ visited w = []
   /\ mounted w = true
   /\ Monitor.banner (component w) = Some "No anomalies found.")
  /\ (let es := [Distribution.SelectHub "H1"; Distribution.Trend;
                 Distribution.Settle 1 Sample.unauthorized] in
      let w := Distribution.run Sample.distribution es in
      let w' := Distribution.step w Distribution.Yearly in
      Distribution.feasible Sample.distribution (es ++ [Distribution.Yearly])
      = true
      /\ localStorage w = Sample.session_with_token
      /\ visited w = []
      /\ Distribution.banner (component w) = Some "Trend data unavailable."
      /\ map Session.authorization (sent w')
         = [Some "Bearer abc"; Some "Bearer abc"; Some "Bearer abc"])
  /\ (let w := Dashboard.run (Dashboard.load Sample.session_with_token)
                 [Dashboard.Settle 0 Sample.unauthorized] in
      localStorage w = ∅ /\ visited w = ["/login"]).
Proof. cbv zeta. repeat split; vm_compute; reflexivity. Qed.

(** ** C5: mounting without a token *)

(** C5 (the code at a failing input): over the storage the login leaves,
    which has a municipality code and no token, DistributionDashboard
    redirects to the login screen (twice, once from its own effect and
    once from its wrapper) and still sends the hubs request; Monitor
    does not redirect at all and sends its hubs request; the Dashboard
    redirects and sends nothing. *)
Theorem mount_without_token_still_fetches :
  Session.token Sample.session = None
  /\ visited (Distribution.load Sample.session) = ["/login"; "/login"]
  /\ sent (Distribution.load Sample.session)
     = [Request GET "http://127.0.0.1:8000/api/mc/MC01/hubs"
                [("Authorization", "Bearer null")] Empty]
  /\ visited (Monitor.load Sample.session) = []
  /\ sent (Monitor.load Sample.session)
     = [Request GET "http://127.0.0.1:8000/api/mc/MC01/hubs" [] Empty]
  /\ visited (Dashboard.load Sample.session) = ["/login"]
  /\ sent (Dashboard.load Sample.session) = [].
Proof. repeat split; vm_compute; reflexivity. Qed.

(** With no municipality code in the storage every screen redirects and
    sends nothing. *)
Lemma mount_without_code_sends_nothing store :
  Js.present (Session.municipalityCode store) = false ->
  (sent (Dashboard.load store) = []
   /\ In "/login" (visited (Dashboard.load store)))
  /\ (sent (Monitor.load store) = []
      /\ In "/login" (visited (Monitor.load store)))
  /\ (sent (Distribution.load store) = []
      /\ In "/login" (visited (Distribution.load store))).
Proof.
  unfold Session.municipalityCode. intros H.
  unfold Dashboard.load, Dashboard.mount, Monitor.load, Monitor.mount,
    Distribution.load, Distribution.mount, Distribution.redirect_effect,
    Distribution.hubs_effect, Distribution.protect_effect, Monitor.mcCode,
    Distribution.mcCode, Distribution.token, getItem, open.
  cbn [localStorage navigate]. rewrite H, orb_true_r.
  cbn [negb navigate localStorage]. rewrite H.
  cbn [negb navigate localStorage sent visited app].
  destruct (negb _); cbn; auto 10.
Qed.

(** ** C6: the Authorization header *)

(** C6 (the code at a failing input): over the storage the login leaves,
    which has no token, DistributionDashboard sends its hubs request
    with the header [Authorization: Bearer null]; over a storage that
    has the token abc, Monitor sends the same request with no
    Authorization header, while the Dashboard sends it with
    [Bearer abc]. *)
Theorem authorization_header_disagrees_with_token :
  Session.token Sample.session = None
  /\ map Session.authorization (sent (Distribution.load Sample.session))
     = [Some "Bearer null"]
  /\ Session.token Sample.session_with_token = Some "abc"
  /\ map url (sent (Monitor.load Sample.session_with_token))
     = ["http://127.0.0.1:8000/api/mc/MC01/hubs"]
  /\ map Session.authorization
       (sent (Monitor.load Sample.session_with_token)) = [None]
  /\ map url (sent (Dashboard.load Sample.session_with_token))
     = ["http://127.0.0.1:8000/api/mc/MC01/hubs"]
  /\ map Session.authorization
       (sent (Dashboard.load Sample.session_with_token))
     = [Some "Bearer abc"].
Proof. repeat split; vm_compute; reflexivity. Qed.

(** ** C7: predicting without a hub *)

(** C7: on Monitor and on DistributionDashboard, [handlePredict] with
    no hub selected sets the validation message and sends nothing. *)
Theorem predict_without_hub_stays_local :
  forall (m : Monitor.world) (d : Distribution.world),
    Monitor.selectedHub (component m) = "" ->
    Distribution.selectedHub (component d) = "" ->
    (Monitor.error (component (Monitor.handlePredict m))
     = "Please select a Hub before prediction."
     /\ Monitor.banner (component (Monitor.handlePredict m))
        = Some "Please select a Hub before prediction."
     /\ sent (Monitor.handlePredict m) = sent m
     /\ pending (Monitor.handlePredict m) = pending m)
    /\ (Distribution.error (component (Distribution.handlePredict d))
        = "Please select a Hub before prediction."
        /\ Distribution.banner (component (Distribution.handlePredict d))
           = Some "Please select a Hub before prediction."
        /\ sent (Distribution.handlePredict d) = sent d
        /\ pending (Distribution.handlePredict d) = pending d).
Proof.
  intros [[] ? ? ? ? ?] [[] ? ? ? ? ?].
  cbn [component Monitor.selectedHub Distribution.selectedHub].
  intros -> ->. split; repeat split.
Qed.

Lemma predict_without_hub_stays_local_witness :
  let m := Sample.monitor in
  let d := Sample.distribution in
  (Monitor.selectedHub (component m) = ""
   /\ Distribution.selectedHub (component d) = "")
  /\ (Monitor.banner (component (Monitor.handlePredict m))
      = Some "Please select a Hub before prediction."
      /\ sent (Monitor.handlePredict m) = sent m)
  /\ (Distribution.banner (component (Distribution.handlePredict d))
      = Some "Please select a Hub before prediction."
      /\ sent (Distribution.handlePredict d) = sent d).
Proof.
  cbv zeta.
  assert (Hm : Monitor.selectedHub (component Sample.monitor) = "")
    by (vm_compute; reflexivity).
  assert (Hd : Distribution.selectedHub (component Sample.distribution) = "")
    by (vm_compute; reflexivity).
  destruct (predict_without_hub_stays_local _ _ Hm Hd)
    as [(_ & Hbm & Hsm & _) (_ & Hbd & Hsd & _)].
  repeat split; assumption.
Defined.

(** ** C8: what a view switch clears *)

Lemma Monitor_switch_clears (w : Monitor.world) e v :
  Monitor.selects e = Some v ->
  forall v', In v' (Monitor.held (component (Monitor.step w e))) -> v' = v.
Proof.
  destruct w as [[hl sh rs tr yr an rc ld er av fd] ls mt vs sn pd].
  destruct e; cbn [Monitor.selects]; intros [= <-];
    cbn [Monitor.step];
    unfold Monitor.handlePredict, Monitor.fetchTrend,
      Monitor.fetchYearlyTrend, Monitor.fetchAnomalies, Monitor.fetchRecords;
    cbv zeta; MonitorFacts.unfold_state;
    match goal with
    | |- context [String.eqb ?a ?b] => destruct (String.eqb a b)
    end;
    MonitorFacts.unfold_state; unfold Monitor.held, Monitor.slots;
    MonitorFacts.unfold_state; cbn [app map In];
    try match goal with
        | |- context [Monitor.nonempty ?l] => destruct (Monitor.nonempty l)
        end;
    cbn [app map In Monitor.view_of]; intros v' H;
    first [destruct H as [<-|[]]; reflexivity | destruct H].
Qed.

Lemma Distribution_switch_clears (w : Distribution.world) e v :
  Distribution.selects e = Some v ->
  forall v', In v' (Distribution.held (component (Distribution.step w e))) ->
             v' = v.
Proof.
  destruct w as [[hl sh fd rs tr yr cr rc er ld av] ls mt vs sn pd].
  destruct e; cbn [Distribution.selects]; intros [= <-];
    cbn [Distribution.step];
    unfold Distribution.handlePredict, Distribution.fetchTrend,
      Distribution.fetchYearlyTrend, Distribution.fetchCritical,
      Distribution.fetchRecords, getItem;
    cbv zeta; DistributionFacts.unfold_state;
    DistributionFacts.split_guard;
    DistributionFacts.unfold_state;
    unfold Distribution.held, Distribution.slots;
    DistributionFacts.unfold_state; cbn [app map In];
    try match goal with
        | |- context [Distribution.nonempty ?l] =>
            destruct (Distribution.nonempty l)
        end;
    cbn [app map In Distribution.view_of]; intros v' H;
    first [destruct H as [<-|[]]; reflexivity | destruct H].
Qed.

(** C8 (as amended): on Monitor and on DistributionDashboard, the
    handler of every view-switch action clears, in the same synchronous
    step that issues its request, the cached payload of every view other
    than the one it selects: right after the action no other view holds
    data, and the request the action has issued, if any, is still
    pending. *)
Theorem view_switch_clears_other_views :
  (forall (w : Monitor.world) e v v',
      let w' := Monitor.step w e in
      Monitor.selects e = Some v ->
      In v' (Monitor.held (component w')) ->
      v' = v
      /\ (sent w' = sent w
          \/ exists rq k, sent w' = sent w ++ [rq]
                          /\ In (length (sent w), k) (pending w')))
  /\ (forall (w : Distribution.world) e v v',
      let w' := Distribution.step w e in
      Distribution.selects e = Some v ->
      In v' (Distribution.held (component w')) ->
      v' = v
      /\ (sent w' = sent w
          \/ exists rq k, sent w' = sent w ++ [rq]
                          /\ In (length (sent w), k) (pending w'))).
Proof.
  split; intros w e v v' w' Hsel Hheld; subst w'.
  - split; [eapply Monitor_switch_clears; eauto|].
    destruct (MonitorFacts.user_step w e)
      as (_ & _ & [[Hs _]|(rq & k & _ & _ & Hs & Hp & _)]).
    + intros id o ->. discriminate.
    + now left.
    + right. exists rq, k. split; [exact Hs|]. rewrite Hp.
      apply in_or_app. right. now left.
  - split; [eapply Distribution_switch_clears; eauto|].
    destruct (DistributionFacts.dist_user_step w e)
      as (_ & _ & [[Hs _]|(rq & k & _ & Hs & Hp & _)]).
    + intros id o ->. discriminate.
    + now left.
    + right. exists rq, k. split; [exact Hs|]. rewrite Hp.
      apply in_or_app. right. now left.
Qed.

Lemma view_switch_clears_other_views_witness :
  (let w := Monitor.run Sample.monitor
              (Sample.racing
               ++ [Sample.trend_answer; Sample.anomalies_answer]) in
   let w' := Monitor.step w Monitor.Trend in
   Monitor.held (component w) = ["trend"; "anomalies"]
   /\ In "trend" (Monitor.held (component w'))
   /\ ("trend" = "trend"
       /\ (sent w' = sent w
           \/ exists rq k, sent w' = sent w ++ [rq]
                           /\ In (length (sent w), k) (pending w'))))
  /\ (let w := Distribution.run Sample.distribution Sample.critical_answered in
      let w' := Distribution.step w Distribution.Critical in
      In "critical" (Distribution.held (component w'))
      /\ ("critical" = "critical"
          /\ (sent w' = sent w
              \/ exists rq k, sent w' = sent w ++ [rq]
                              /\ In (length (sent w), k) (pending w')))).
Proof.
  destruct view_switch_clears_other_views as [Hm Hd].
  cbv zeta. split; [split; [|split]|split].
  - vm_compute; reflexivity.
  - vm_compute; left; reflexivity.
  - apply (Hm _ Monitor.Trend "trend" "trend");
      [reflexivity|vm_compute; left; reflexivity].
  - vm_compute; left; reflexivity.
  - apply (Hd _ Distribution.Critical "critical" "critical");
      [reflexivity|vm_compute; left; reflexivity].
Defined.

(** C8 (as stated) fails: more than one view can hold data.  On Monitor,
    Trend and then Anomalies are clicked before the trend response
    arrives; once both requests are fulfilled the trend slot and the
    anomalies slot hold data at the same time. *)
Lemma two_views_hold_data :
  let es := Sample.racing ++ [Sample.trend_answer; Sample.anomalies_answer] in
  let w := Monitor.run Sample.monitor es in
  Monitor.feasible Sample.monitor es = true
  /\ Monitor.held (component w) = ["trend"; "anomalies"]
  /\ Monitor.trend (component w) = [Sample.reading "d1"]
  /\ Monitor.anomalies (component w) = [Sample.reading "d2"].
Proof. cbv zeta. repeat split; vm_compute; reflexivity. Qed.

(** ** C9: the history table *)

(** C9: when the quality-records request is fulfilled with a list of
    records, the history table of Monitor, whenever it is on screen,
    shows the first ten of them at most, in the order received: row [i]
    is made from record [i].  It is on screen as soon as the list is not
    empty and History is the active view. *)
Theorem history_shows_first_ten_records :
  forall (w : Monitor.world) (b : body) (l : list row),
    Records b = Some l ->
    let w' := Monitor.resume Monitor.AwaitRecords (Fulfilled (Some b)) w in
    let row_of := Monitor.cells Monitor.history_columns in
    (forall rows, In (Monitor.HistoryTable rows) (Monitor.shown w') ->
       rows = imap row_of (take 10 l)
       /\ length rows = Nat.min 10 (length l)
       /\ forall i row, rows !! i = Some row ->
            (i < 10)%nat /\ exists r, l !! i = Some r /\ row = row_of i r)
    /\ (mounted w = true ->
        Monitor.activeView (component w) = Some "records" ->
        l <> [] ->
        In (Monitor.HistoryTable (imap row_of (take 10 l)))
           (Monitor.shown w')).
Proof.
  intros w b l Hb w' row_of.
  assert (Hrec : Monitor.records (component w') = l).
  { subst w'. cbn [Monitor.resume]. unfold Monitor.records_of.
    cbn [mbind option_bind]. rewrite Hb. cbn [or_empty update component].
    now destruct (component w). }
  assert (Hview : Monitor.activeView (component w')
                  = Monitor.activeView (component w))
    by apply MonitorFacts.resume_frame.
  assert (Hm : mounted w' = mounted w) by apply MonitorFacts.resume_frame.
  split.
  - unfold Monitor.shown. destruct (mounted w'); [|intros rows []].
    intros rows Hin. unfold Monitor.render in Hin.
    rewrite !in_app_iff in Hin.
    assert (Hrows : rows = imap row_of (take 10 l)).
    { destruct Hin as [H|[H|[H|[H|H]]]].
      - destruct (Monitor.result _); [|destruct H].
        destruct (Monitor.is_view _ _); [|destruct H].
        destruct H as [[=]|[]].
      - destruct (_ && _); [|destruct H]. destruct H as [[=]|[]].
      - destruct (_ && _); [|destruct H]. destruct H as [[=]|[]].
      - destruct (_ && _); [|destruct H]. destruct H as [[=]|[]].
      - destruct (_ && _); [|destruct H]. destruct H as [[= <-]|[]].
        now rewrite Hb. }
    subst rows. split; [reflexivity|split].
    + now rewrite length_imap, length_take.
    + intros i row Hi. rewrite list_lookup_imap in Hi.
      destruct (take 10 l !! i) as [r|] eqn:Hr; [|discriminate].
      injection Hi as <-. apply lookup_take_Some in Hr as [Hr Hlt].
      split; [exact Hlt|eauto].
  - intros Hmounted Hactive Hne. unfold Monitor.shown.
    rewrite Hm, Hmounted. unfold Monitor.render. rewrite !in_app_iff.
    do 4 right. unfold Monitor.is_view. rewrite Hview, Hactive, Hrec.
    rewrite bool_decide_eq_true_2 by reflexivity.
    destruct l; [congruence|]. now left.
Qed.

Lemma history_shows_first_ten_records_witness :
  let w := World (Monitor.setActiveView (Some "records") Monitor.initial)
                 Sample.session true [] [] [] in
  let w' := Monitor.resume Monitor.AwaitRecords
              (Fulfilled (Some (Sample.records_body Sample.twelve))) w in
  let row_of := Monitor.cells Monitor.history_columns in
  length Sample.twelve = 12%nat
  /\ In (Monitor.HistoryTable (imap row_of (take 10 Sample.twelve)))
        (Monitor.shown w')
  /\ length (imap row_of (take 10 Sample.twelve)) = 10%nat.
Proof.
  cbv zeta. split; [reflexivity|].
  destruct (history_shows_first_ten_records
              (World (Monitor.setActiveView (Some "records") Monitor.initial)
                     Sample.session true [] [] [])
              (Sample.records_body Sample.twelve) Sample.twelve eq_refl)
    as [Hsound Hshown].
  assert (Hin := Hshown eq_refl eq_refl ltac:(discriminate)).
  split; [exact Hin|].
  destruct (Hsound _ Hin) as (_ & Hlen & _). exact Hlen.
Defined.

(** ** C10: the measurements of a prediction payload *)

Lemma or_zero_not_nan x : Js.is_nan (Js.or_zero x) = false.
Proof. unfold Js.or_zero, Js.truthy. now destruct x. Qed.

Lemma or_zero_of_nan x : Js.is_nan x = true -> Js.or_zero x = Js.zero.
Proof. now destruct x. Qed.

(** The two members a payload has besides the measurements. *)
Lemma base_members (mc : Js.value) (hub : string) k v :
  (<["MC_Code" := mc]> (<["Hub_ID" := Js.VStr hub]> ∅)
   : gmap string Js.value) !! k = Some v ->
  k = "MC_Code" \/ k = "Hub_ID".
Proof.
  intros H. apply lookup_insert_Some in H as [[<- _]|[_ H]]; [now left|].
  apply lookup_insert_Some in H as [[<- _]|[_ H]]; [now right|].
  now rewrite lookup_empty in H.
Qed.

Lemma Monitor_payload_numeric mc hub form :
  Js.measurements_numeric (Monitor.payload mc hub form).
Proof.
  intros k v H. unfold Monitor.payload in H.
  apply lookup_union_Some_raw in H as [H|[_ H]].
  - apply lookup_fmap_Some in H as (x & <- & _). right; right.
    unfold Monitor.coerce, Js.numeric. now rewrite or_zero_not_nan.
  - apply base_members in H. tauto.
Qed.

Lemma Distribution_payload_numeric mc hub (form : gmap string Js.value) :
  (forall k v, form !! k = Some v -> Js.numeric v = true) ->
  Js.measurements_numeric (Distribution.payload mc hub form).
Proof.
  intros Hform k v H. unfold Distribution.payload in H.
  apply lookup_union_Some_raw in H as [H|[_ H]].
  - right; right. eauto.
  - apply base_members in H. tauto.
Qed.

(** A request a step of Monitor adds is well formed. *)
Lemma Monitor_step_sent (w : Monitor.world) e rq :
  In rq (sent (Monitor.step w e)) -> In rq (sent w) \/ well_formed rq.
Proof.
  destruct e; cbn [Monitor.step];
    try (unfold Monitor.handleChange, Monitor.fetchTrend,
           Monitor.fetchYearlyTrend, Monitor.fetchAnomalies,
           Monitor.fetchRecords, handleLogout, Monitor.get; cbv zeta;
         try match goal with
             | |- context [String.eqb ?a ?b] => destruct (String.eqb a b)
             end;
         cbn [sent update send navigate clear];
         rewrite ?in_app_iff; cbn [In];
         intros H; first [now left | destruct H as [H|[<-|[]]]; [now left|]];
         right; intros p; discriminate).
  - (* Predict *)
    unfold Monitor.handlePredict; cbv zeta.
    destruct (String.eqb _ _); cbn [sent update send]; [now left|].
    rewrite in_app_iff; cbn [In]. intros [H|[<-|[]]]; [now left|].
    right. intros p [= <-]. apply Monitor_payload_numeric.
  - (* Settle *)
    destruct (wake id w) as [[k w']|] eqn:Hw; [|now left].
    apply wake_sound in Hw as (_ & _ & _ & _ & _ & _ & Hs).
    destruct (MonitorFacts.resume_frame k o w') as (_ & Hs' & _).
    rewrite Hs', Hs. now left.
Qed.

Lemma Monitor_sent_well_formed store es rq :
  In rq (sent (Monitor.run (Monitor.load store) es)) -> well_formed rq.
Proof.
  revert rq. induction es as [|e es IH] using rev_ind; intros rq.
  - unfold Monitor.run, Monitor.load, Monitor.mount, Monitor.get.
    cbn [fold_left].
    destruct (negb _); cbn [sent navigate send open app In]; [tauto|].
    intros [<-|[]] p. discriminate.
  - rewrite MonitorFacts.run_snoc. intros H.
    apply Monitor_step_sent in H as [H|H]; auto.
Qed.

(** A step of DistributionDashboard keeps the form numeric, and a
    request it adds is well formed. *)
Lemma Distribution_step_sent (w : Distribution.world) e :
  (forall k v, Distribution.formData (component w) !! k = Some v ->
               Js.numeric v = true) ->
  (forall k v,
      Distribution.formData (component (Distribution.step w e)) !! k = Some v ->
      Js.numeric v = true)
  /\ forall rq, In rq (sent (Distribution.step w e)) ->
                In rq (sent w) \/ well_formed rq.
Proof.
  intros Hform.
  destruct w as [[hl sh fd rs tr yr cr rc er ld av] ls mt vs sn pd].
  cbn [component Distribution.formData] in Hform.
  destruct e; cbn [Distribution.step];
    try (unfold Distribution.fetchTrend,
           Distribution.fetchYearlyTrend, Distribution.fetchCritical,
           Distribution.fetchRecords, handleLogout, Distribution.get, getItem;
         cbv zeta; DistributionFacts.unfold_state;
         DistributionFacts.split_guard;
         DistributionFacts.unfold_state; (split; [exact Hform|]); intros rq;
         rewrite ?in_app_iff; cbn [In];
         intros H; first [now left | destruct H as [H|[<-|[]]]; [now left|]];
         right; intros p; discriminate).
  - (* Change *)
    unfold Distribution.handleChange; DistributionFacts.unfold_state.
    split; [|now left].
    intros k v H. apply lookup_insert_Some in H as [[_ <-]|[_ H]]; [|eauto].
    unfold Js.numeric. now rewrite or_zero_not_nan.
  - (* Predict *)
    unfold Distribution.handlePredict; cbv zeta;
      DistributionFacts.unfold_state.
    destruct (String.eqb _ _); DistributionFacts.unfold_state;
      (split; [exact Hform|]); intros rq; [now left|].
    rewrite in_app_iff; cbn [In]. intros [H|[<-|[]]]; [now left|].
    right. intros p [= <-]. now apply Distribution_payload_numeric.
  - (* Settle *)
    destruct (wake id _) as [[k w']|] eqn:Hw; [|split; [exact Hform|now left]].
    apply wake_sound in Hw as (_ & _ & Hc & _ & _ & _ & Hs).
    destruct (DistributionFacts.dist_resume_frame k o w') as (_ & Hs' & _).
    split; [|intros rq; rewrite Hs', Hs; now left].
    rewrite DistributionFacts.resume_formData, Hc. exact Hform.
Qed.

Lemma Distribution_initial_numeric k v :
  Distribution.formData Distribution.initial !! k = Some v ->
  Js.numeric v = true.
Proof.
  cbn [Distribution.initial Distribution.formData list_to_map foldr].
  intros H. cbn [uncurry] in H.
  repeat (apply lookup_insert_Some in H as [[_ <-]|[_ H]]; [reflexivity|]).
  now rewrite lookup_empty in H.
Qed.

Lemma Distribution_run_numeric store es :
  let w := Distribution.run (Distribution.load store) es in
  (forall k v, Distribution.formData (component w) !! k = Some v ->
               Js.numeric v = true)
  /\ forall rq, In rq (sent w) -> well_formed rq.
Proof.
  cbv zeta. induction es as [|e es [IHf IHs]] using rev_ind.
  - unfold Distribution.run, Distribution.load, Distribution.mount.
    cbn [fold_left].
    set (w0 := open Distribution.initial store).
    destruct (DistributionFacts.redirect_frame w0) as (C1 & _ & S1 & _).
    destruct (DistributionFacts.hubs_shape (Distribution.redirect_effect w0))
      as (C2 & _ & N2).
    destruct (DistributionFacts.protect_frame
                (Distribution.hubs_effect (Distribution.redirect_effect w0)))
      as (C3 & _ & S3 & _).
    rewrite C3, C2, C1, S3. split; [apply Distribution_initial_numeric|].
    intros rq. destruct N2 as [[-> _]|(rq' & -> & _ & _ & Hdata)];
      rewrite S1; cbn [w0 open sent app In]; [tauto|].
    intros [<-|[]] p. rewrite Hdata. discriminate.
  - rewrite DistributionFacts.dist_run_snoc.
    destruct (Distribution_step_sent _ e IHf) as [Hf Hs].
    split; [exact Hf|]. intros rq H. apply Hs in H as [H|H]; auto.
Qed.

(** C10: every prediction payload that Monitor or DistributionDashboard
    sends, in any run, has numeric measurements: each member besides the
    municipality code and the hub id is a number other than NaN.  Monitor
    coerces each field with [parseFloat(v) || 0] when it builds the
    payload, DistributionDashboard when the field is edited; either way
    an input whose [parseFloat] is NaN, the empty input among them,
    becomes 0. *)
Theorem prediction_payload_is_numeric :
  (forall store es rq p,
      In rq (sent (Monitor.run (Monitor.load store) es)) ->
      data rq = Json p -> Js.measurements_numeric p)
  /\ (forall store es rq p,
      In rq (sent (Distribution.run (Distribution.load store) es)) ->
      data rq = Json p -> Js.measurements_numeric p)
  /\ (forall (w : Monitor.world),
      Monitor.selectedHub (component w) <> "" ->
      sent (Monitor.handlePredict w)
      = sent w
        ++ [Request POST (API_BASE +:+ "/api/predict-quality") []
              (Json (Monitor.payload (Monitor.mcCode w)
                       (Monitor.selectedHub (component w))
                       (Monitor.formData (component w))))])
  /\ (forall mc hub form k v,
      form !! k = Some v ->
      Monitor.payload mc hub form !! k = Some (Monitor.coerce v)
      /\ (Js.is_nan (Js.parseFloat_value v) = true ->
          Monitor.coerce v = Js.VNum Js.zero))
  /\ (forall (w : Distribution.world) name value,
      Js.is_nan (Js.parseFloat value) = true ->
      Distribution.formData
        (component (Distribution.handleChange name value w)) !! name
      = Some (Js.VNum Js.zero))
  /\ Js.parseFloat "" = Js.NaN.
Proof.
  split; [|split; [|split; [|split; [|split]]]].
  - intros store es rq p Hin Hp.
    exact (Monitor_sent_well_formed store es rq Hin p Hp).
  - intros store es rq p Hin Hp.
    exact (proj2 (Distribution_run_numeric store es) rq Hin p Hp).
  - intros [[hl sh rs tr yr an rc ld er av fd] ls mt vs sn pd] Hhub.
    cbn [component Monitor.selectedHub] in Hhub.
    unfold Monitor.handlePredict; cbv zeta; MonitorFacts.unfold_state.
    destruct (String.eqb_spec sh ""); [contradiction|reflexivity].
  - intros mc hub form k v Hk. split.
    + unfold Monitor.payload. apply lookup_union_Some_raw. left.
      rewrite lookup_fmap, Hk. reflexivity.
    + intros Hnan. unfold Monitor.coerce. now rewrite or_zero_of_nan.
  - intros [[hl sh fd rs tr yr cr rc er ld av] ls mt vs sn pd] name value Hnan.
    unfold Distribution.handleChange; DistributionFacts.unfold_state.
    rewrite lookup_insert_eq. now rewrite or_zero_of_nan.
  - reflexivity.
Qed.

Lemma prediction_payload_is_numeric_witness :
  (let w := Monitor.run Sample.monitor Sample.predicting in
   let p := Monitor.payload (Some "MC01") "H1"
              (Monitor.formData (component w)) in
   let rq := Request POST (API_BASE +:+ "/api/predict-quality") [] (Json p) in
   (In rq (sent w) /\ data rq = Json p)
   /\ Js.measurements_numeric p
   /\ p !! "pH_Min" = Some (Js.VNum Js.zero)
   /\ p !! "pH_Max" = Some (Js.VNum Js.zero)
   /\ p !! "BOD_Min" = Some (Js.VNum (Js.decimal false 12 0)))
  /\ (let w := Distribution.run Sample.distribution Sample.estimating in
      let p := Distribution.payload (Some "MC01") "H1"
                 (Distribution.formData (component w)) in
      let rq := Request POST (API_BASE +:+ "/api/predict-distribution")
                        [("Authorization", "Bearer abc")] (Json p) in
      (In rq (sent w) /\ data rq = Json p)
      /\ Js.measurements_numeric p
      /\ p !! "Population" = Some (Js.VNum Js.zero))
  /\ (let form : gmap string Js.value := {[ "pH_Min" := Js.VStr "" ]} in
      (form !! "pH_Min" = Some (Js.VStr "")
       /\ Js.is_nan (Js.parseFloat_value (Js.VStr "")) = true)
      /\ Monitor.payload None "H1" form !! "pH_Min" = Some (Js.VNum Js.zero))
  /\ (Js.is_nan (Js.parseFloat "abc") = true
      /\ Distribution.formData
           (component
              (Distribution.handleChange "Population" "abc"
                 Sample.distribution))
         !! "Population" = Some (Js.VNum Js.zero)).
Proof.
  cbv zeta.
  destruct prediction_payload_is_numeric as (Hm & Hd & _ & Hc & Hz & _).
  split; [|split; [|split]].
  - assert (Hin : In (Request POST (API_BASE +:+ "/api/predict-quality") []
                        (Json (Monitor.payload (Some "MC01") "H1"
                                 (Monitor.formData
                                    (component
                                       (Monitor.run Sample.monitor
                                          Sample.predicting))))))
                     (sent (Monitor.run Sample.monitor Sample.predicting)))
      by (vm_compute; right; left; reflexivity).
    split; [split; [exact Hin|reflexivity]|].
    split; [exact (Hm _ _ _ _ Hin eq_refl)|].
    repeat split; vm_compute; reflexivity.
  - assert (Hin : In (Request POST
                        (API_BASE +:+ "/api/predict-distribution")
                        [("Authorization", "Bearer abc")]
                        (Json (Distribution.payload (Some "MC01") "H1"
                                 (Distribution.formData
                                    (component
                                       (Distribution.run Sample.distribution
                                          Sample.estimating))))))
                     (sent (Distribution.run Sample.distribution
                              Sample.estimating)))
      by (vm_compute; right; left; reflexivity).
    split; [split; [exact Hin|reflexivity]|].
    split; [exact (Hd _ _ _ _ Hin eq_refl)|].
    vm_compute; reflexivity.
  - assert (Hk : ({[ "pH_Min" := Js.VStr "" ]} : gmap string Js.value)
                   !! "pH_Min" = Some (Js.VStr ""))
      by (vm_compute; reflexivity).
    assert (Hn : Js.is_nan (Js.parseFloat_value (Js.VStr "")) = true)
      by reflexivity.
    split; [split; assumption|].
    destruct (Hc None "H1" _ _ _ Hk) as [Hp Hzero].
    rewrite Hp, (Hzero Hn). reflexivity.
  - assert (Hn : Js.is_nan (Js.parseFloat "abc") = true) by reflexivity.
    split; [exact Hn|]. exact (Hz _ "Population" "abc" Hn).
Defined.

(** An input that overflows stays a number: [parseFloat] gives Infinity,
    which [|| 0] keeps. *)
Example overflowing_input_stays_infinite :
  Monitor.coerce (Js.VStr "1e400") = Js.VNum (S754_infinity false)
  /\ Js.numeric (Monitor.coerce (Js.VStr "1e400")) = true.
Proof. split; reflexivity. Qed.

(** * Further properties of the screens *)

(** ** Shared facts *)

Lemma detail_or_nonempty r fallback :
  fallback <> "" -> detail_or r fallback <> "".
Proof.
  intros H. destruct r as [[st [d|]]|]; cbn; try exact H.
  destruct (String.eqb_spec d ""); assumption.
Qed.

Lemma present_Some (o : option string) :
  Js.present o = true -> exists t, o = Some t /\ t <> "".
Proof.
  destruct o as [t|]; cbn; [|discriminate].
  destruct (String.eqb_spec t ""); [discriminate|]. eauto.
Qed.

Section PendingFacts.
Context {S K : Type}.
Implicit Type w : Browser.world S K.

(** The request just sent is the one its own number wakes. *)
Lemma extract_fresh id (k : K) (l : list (nat * K)) :
  (forall i k', In (i, k') l -> i <> id) ->
  extract id (l ++ [(id, k)]) = Some (k, l).
Proof.
  induction l as [|[i k0] l IH]; intros H; cbn [app extract].
  - now rewrite Nat.eqb_refl.
  - destruct (Nat.eqb_spec i id) as [->|_].
    + now destruct (H id k0 (or_introl eq_refl)).
    + rewrite IH; [reflexivity|]. intros j k' Hj. apply (H j k'). now right.
Qed.

Lemma wake_fresh w rq (k : K) :
  (forall i k', In (i, k') (pending w) -> (i < length (sent w))%nat) ->
  wake (length (sent w)) (send rq k w)
  = Some (k, World (component w) (localStorage w) (mounted w) (visited w)
                   (sent w ++ [rq]) (pending w)).
Proof.
  intros H. unfold wake, send. cbn [pending].
  rewrite extract_fresh; [reflexivity|].
  intros i k' Hi Heq. apply H in Hi. lia.
Qed.

(** Waking a handler lowers the count of the pending handlers of a
    kind by one if it is of that kind, and not at all otherwise. *)
Lemma extract_count (p : K -> bool) id (l : list (nat * K)) k r :
  extract id l = Some (k, r) ->
  length (List.filter (fun e => p (snd e)) l)
  = ((if p k then 1 else 0)
     + length (List.filter (fun e => p (snd e)) r))%nat.
Proof.
  revert k r. induction l as [|[i k0] l IH]; intros k r; cbn [extract];
    [discriminate|].
  destruct (Nat.eqb_spec i id) as [->|_].
  - intros [= <- <-]. cbn [List.filter snd]. now destruct (p k0).
  - destruct (extract id l) as [[k' r']|]; [|discriminate].
    intros [= <- <-]. cbn [List.filter snd].
    specialize (IH _ _ eq_refl).
    destruct (p k0), (p k'); cbn [length] in *; lia.
Qed.

End PendingFacts.

(** ** Login: what a response changes *)

Module LoginFacts.
Import Login.

Lemma login_run_snoc (w : world) es e :
  run w (es ++ [e]) = step (run w es) e.
Proof. unfold run. now rewrite fold_left_app. Qed.

Lemma login_feasible_snoc es : forall (w : world) e,
  feasible w (es ++ [e]) = feasible w es && enabled (run w es) e.
Proof.
  induction es as [|e' es IH]; intros w e; cbn [feasible app].
  - cbn. now rewrite andb_true_r.
  - rewrite IH. now rewrite andb_assoc.
Qed.

(** A settling request sends nothing. *)
Lemma login_resume_sent k o (w : world) :
  sent (resume k o w) = sent w /\ pending (resume k o w) = pending w.
Proof.
  destruct k, o as [[b|]|r]; cbn; try tauto.
  - destruct (Municipals b); cbn; tauto.
  - destruct (bool_decide _); cbn; tauto.
Qed.

(** Unless it answers a login with status success, a settling request
    leaves the storage and the route alone. *)
Lemma login_resume_session k o (w : world) :
  (forall u b, k = AwaitLogin u -> o = Fulfilled (Some b) ->
               status b <> Some "success") ->
  localStorage (resume k o w) = localStorage w
  /\ visited (resume k o w) = visited w
  /\ mounted (resume k o w) = mounted w.
Proof.
  intros H. destruct k as [|u], o as [[b|]|r]; cbn; try tauto.
  - destruct (Municipals b); cbn; tauto.
  - case_bool_decide as Hs; cbn; [|tauto].
    now destruct (H u b eq_refl eq_refl).
Qed.

(** Every pending login was posted to the login address, and the
    storage differs from the initial one, or the dashboard has been
    navigated to, only if one of them was answered with status
    success. *)
Lemma session_inv store es :
  let w := run (load store) es in
  (forall id u, In (id, AwaitLogin u) (pending w) ->
     exists rq, sent w !! id = Some rq /\ method rq = POST
                /\ url rq = API_BASE +:+ "/api/login")
  /\ ((localStorage w <> store \/ In "/dashboard" (visited w)) ->
      exists id b rq,
        In (Settle id (Fulfilled (Some b))) es
        /\ status b = Some "success"
        /\ sent w !! id = Some rq /\ method rq = POST
        /\ url rq = API_BASE +:+ "/api/login").
Proof.
  induction es as [|e es IH] using rev_ind; cbv zeta.
  - cbn. split.
    + intros id u [[=]|[]].
    + intros [H|[]]. now destruct H.
  - rewrite login_run_snoc.
    cbv zeta in IH. destruct IH as [IHp IHs].
    set (w := run (load store) es) in *.
    assert (Hold : forall w' : world,
      (exists l, sent w' = sent w ++ l) ->
      localStorage w' = localStorage w ->
      (forall r, In r (visited w') -> r = "/dashboard" -> In r (visited w)) ->
      (localStorage w' <> store \/ In "/dashboard" (visited w')) ->
      exists id b rq,
        In (Settle id (Fulfilled (Some b))) (es ++ [e])
        /\ status b = Some "success"
        /\ sent w' !! id = Some rq /\ method rq = POST
        /\ url rq = API_BASE +:+ "/api/login").
    { intros w' [l Hl] Hst Hv Hc.
      destruct IHs as (id & b & rq & Hin & Hb & Hrq & Hm & Hu).
      - destruct Hc as [Hc|Hc]; [left; congruence|right; now apply Hv].
      - exists id, b, rq. repeat split; auto.
        + apply in_or_app; now left.
        + rewrite Hl. now apply lookup_app_l_Some. }
    assert (Hsame : exists l, sent w = sent w ++ l)
      by (exists []; now rewrite app_nil_r).
    destruct e as [v|v|v| | |id o]; cbn [step].
    + split; [exact IHp|]. apply Hold; cbn; auto.
    + split; [exact IHp|]. apply Hold; cbn; auto.
    + split; [exact IHp|]. apply Hold; cbn; auto.
    + (* Submit *)
      split.
      * intros id u. unfold handleLogin. cbn [pending send update sent].
        rewrite in_app_iff. intros [H|[[= <- <-]|[]]].
        -- destruct (IHp _ _ H) as (rq & Hrq & Hm & Hu).
           exists rq. split; [now apply lookup_app_l_Some|auto].
        -- eexists. split; [apply list_lookup_middle; reflexivity|].
           split; reflexivity.
      * apply Hold; cbn; eauto.
    + (* BackHome *)
      split; [exact IHp|]. apply Hold; cbn; auto.
      intros r Hr ->. apply in_app_iff in Hr as [Hr|[[=]|[]]]. exact Hr.
    + (* Settle *)
      destruct (wake id w) as [[k w0]|] eqn:Hw.
      2:{ split; [exact IHp|]. apply Hold; auto. }
      apply wake_sound in Hw as (Hin & Hincl & Hc & Hl & Hmt & Hv & Hs).
      destruct (login_resume_sent k o w0) as [Hrs Hrp].
      split.
      * intros id' u'. rewrite Hrp, Hrs, Hs. intros H. apply (IHp id' u').
        now apply Hincl.
      * assert (Hquiet :
          (forall u b, k = AwaitLogin u -> o = Fulfilled (Some b) ->
                       status b <> Some "success") ->
          (localStorage (resume k o w0) <> store
           \/ In "/dashboard" (visited (resume k o w0))) ->
          exists id0 b rq,
            In (Settle id0 (Fulfilled (Some b))) (es ++ [Settle id o])
            /\ status b = Some "success"
            /\ sent (resume k o w0) !! id0 = Some rq
            /\ method rq = POST /\ url rq = API_BASE +:+ "/api/login").
        { intros Hk.
          destruct (login_resume_session k o w0 Hk) as (Hl' & Hv' & _).
          apply Hold.
          - exists []. now rewrite app_nil_r, Hrs, Hs.
          - now rewrite Hl', Hl.
          - intros r'. now rewrite Hv', Hv. }
        destruct k as [|u]; [apply Hquiet; discriminate|].
        destruct o as [[b|]|r];
          [|apply Hquiet; discriminate|apply Hquiet; discriminate].
        destruct (decide (status b = Some "success")) as [Hb|Hb].
        -- intros _. destruct (IHp _ _ Hin) as (rq & Hrq & Hm & Hu).
           exists id, b, rq. repeat split; auto.
           ++ apply in_or_app. right. now left.
           ++ now rewrite Hrs, Hs.
        -- apply Hquiet. intros ? ? _ [= <-]. exact Hb.
Qed.

End LoginFacts.

(** X1: a login that is not answered with status success (another
    status, a null body, a rejection with or without a response) leaves
    the storage, the route and the requests as they are; it ends the
    loading state and sets an error message that is never empty. *)
Theorem failed_login_changes_only_the_message :
  forall (w : Login.world) u o,
    (forall b, o = Fulfilled (Some b) -> Login.status b <> Some "success") ->
    let w' := Login.resume (Login.AwaitLogin u) o w in
    localStorage w' = localStorage w
    /\ visited w' = visited w
    /\ mounted w' = mounted w
    /\ sent w' = sent w
    /\ Login.loading (component w') = false
    /\ Login.error (component w') <> "".
Proof.
  intros w u o H w'.
  destruct (LoginFacts.login_resume_session (Login.AwaitLogin u) o w)
    as (Hl & Hv & Hm).
  { intros u' b _ ->. now apply H. }
  destruct (LoginFacts.login_resume_sent (Login.AwaitLogin u) o w)
    as [Hs _].
  repeat (split; [assumption|]). subst w'.
  destruct o as [[b|]|r]; cbn.
  - case_bool_decide as Hs'; [now destruct (H b eq_refl)|].
    cbn. split; [reflexivity|discriminate].
  - split; [reflexivity|discriminate].
  - split; [reflexivity|]. apply detail_or_nonempty. discriminate.
Qed.

Lemma failed_login_changes_only_the_message_witness :
  let w := Login.run (Login.load ∅) [Login.TypeUsername "u1"; Login.Submit] in
  let w' :=
    Login.resume (Login.AwaitLogin "u1")
      (Rejected (Some (Failure 403 (Some "Account locked")))) w in
  localStorage w' = localStorage w
  /\ Login.loading (component w') = false
  /\ Login.error (component w') <> "".
Proof.
  cbv zeta.
  destruct (failed_login_changes_only_the_message
              (Login.run (Login.load ∅)
                 [Login.TypeUsername "u1"; Login.Submit])
              "u1" (Rejected (Some (Failure 403 (Some "Account locked")))))
    as (Hl & _ & _ & _ & Hd & He).
  - intros b Hb. discriminate Hb.
  - repeat split; assumption.
Defined.

(** X2: in any run of the login screen the storage is written, and
    the dashboard navigated to, only after a response with status
    success to a request the screen posted to the login address. *)
Theorem session_is_written_only_after_success :
  forall store es,
    let w := Login.run (Login.load store) es in
    localStorage w <> store \/ In "/dashboard" (visited w) ->
    exists id b rq,
      In (Login.Settle id (Fulfilled (Some b))) es
      /\ Login.status b = Some "success"
      /\ sent w !! id = Some rq
      /\ method rq = POST
      /\ url rq = API_BASE +:+ "/api/login".
Proof.
  intros store es w H.
  destruct (LoginFacts.session_inv store es) as [_ Hs].
  exact (Hs H).
Qed.

Lemma session_is_written_only_after_success_witness :
  exists id b rq,
    In (Login.Settle id (Fulfilled (Some b))) Sample.login_events
    /\ Login.status b = Some "success"
    /\ sent (Login.run (Login.load ∅) Sample.login_events) !! id = Some rq
    /\ method rq = POST
    /\ url rq = API_BASE +:+ "/api/login".
Proof.
  apply (session_is_written_only_after_success ∅ Sample.login_events).
  right. vm_compute. now left.
Defined.

(** X3: what a successful login stores is what the screens read back.
    The municipality code and name are stored as strings (a member the
    response lacks as the string undefined), the token key is left as it
    was, and the route is the dashboard.  Monitor, mounted over the
    storage, requests the hubs of the stored code; the Dashboard,
    unless a token was in the storage before, redirects to the login
    screen and requests nothing. *)
Theorem stored_code_is_what_the_screens_request :
  forall (w : Login.world) u b,
    Login.status b = Some "success" ->
    let w' := Login.resume (Login.AwaitLogin u) (Fulfilled (Some b)) w in
    let code := Login.String_of (Login.mc_code b) in
    Session.municipalityCode (localStorage w') = Some code
    /\ Session.municipalityName (localStorage w')
       = Some (Login.String_of (Login.mc_name b))
    /\ Session.token (localStorage w') = Session.token (localStorage w)
    /\ visited w' = visited w ++ ["/dashboard"]
    /\ (code <> "" ->
        sent (Monitor.load (localStorage w'))
        = [Monitor.get ("/api/mc/" +:+ code +:+ "/hubs")])
    /\ (Js.present (Session.token (localStorage w)) = false ->
        sent (Dashboard.load (localStorage w')) = []
        /\ visited (Dashboard.load (localStorage w')) = ["/login"]).
Proof.
  intros w u b Hb w' code.
  assert (Hst : localStorage w'
                = <["user" := Login.stringify
                                [("username", Some u);
                                 ("mc_code", Login.mc_code b);
                                 ("mc_name", Login.mc_name b)]]>
                    (<["mc_name" := Login.String_of (Login.mc_name b)]>
                       (<["mc_code" := code]> (localStorage w)))).
  { subst w'. cbn. rewrite bool_decide_true by exact Hb. reflexivity. }
  assert (Hv : visited w' = visited w ++ ["/dashboard"]).
  { subst w'. cbn. rewrite bool_decide_true by exact Hb. reflexivity. }
  assert (Hcode : localStorage w' !! "mc_code" = Some code).
  { rewrite Hst. rewrite !lookup_insert_ne by discriminate.
    apply lookup_insert_eq. }
  assert (Htok : localStorage w' !! "access_token"
                 = localStorage w !! "access_token").
  { rewrite Hst. now rewrite !lookup_insert_ne by discriminate. }
  unfold Session.municipalityCode, Session.municipalityName, Session.token.
  split; [exact Hcode|]. split.
  { rewrite Hst. rewrite lookup_insert_ne by discriminate.
    apply lookup_insert_eq. }
  split; [exact Htok|]. split; [exact Hv|]. split.
  - intros Hne. unfold Monitor.load, Monitor.mount, Monitor.mcCode, getItem.
    cbn [open localStorage]. rewrite Hcode. cbn [Js.present Js.interpolate].
    destruct (String.eqb_spec code ""); [contradiction|]. reflexivity.
  - intros Hno. unfold Dashboard.load, Dashboard.mount, getItem.
    cbn [open localStorage]. rewrite Htok, Hno. split; reflexivity.
Qed.

Lemma stored_code_is_what_the_screens_request_witness :
  let b := Login.Body None (Some "success") None None (Some "Test City") in
  let w' :=
    Login.resume (Login.AwaitLogin "u1") (Fulfilled (Some b))
      (Login.load ∅) in
  Session.municipalityCode (localStorage w') = Some "undefined"
  /\ sent (Monitor.load (localStorage w'))
     = [Monitor.get ("/api/mc/" +:+ "undefined" +:+ "/hubs")]
  /\ sent (Dashboard.load (localStorage w')) = [].
Proof.
  cbv zeta.
  destruct (stored_code_is_what_the_screens_request (Login.load ∅) "u1"
              (Login.Body None (Some "success") None None (Some "Test City"))
              eq_refl)
    as (Hc & _ & _ & _ & Hm & Hd).
  split; [exact Hc|]. split.
  - apply Hm. discriminate.
  - apply Hd. reflexivity.
Defined.

(** X4: with the submit button disabled while loading, at most one
    login request awaits its response, and the screen is loading
    exactly while one does. *)
Theorem one_login_in_flight :
  forall store es,
    Login.feasible (Login.load store) es = true ->
    let w := Login.run (Login.load store) es in
    Login.in_flight w = if Login.loading (component w) then 1 else 0.
Proof.
  intros store es. cbv zeta.
  induction es as [|e es IH] using rev_ind; intros Hf; [reflexivity|].
  rewrite LoginFacts.login_feasible_snoc in Hf.
  apply andb_true_iff in Hf as [Hf He]. specialize (IH Hf).
  rewrite LoginFacts.login_run_snoc.
  destruct (Login.run (Login.load store) es)
    as [[un pw ml mc er ld] ls mt vs sn pd].
  unfold Login.in_flight in *.
  cbn [component pending Login.loading] in IH.
  destruct e as [v|v|v| | |id o]; cbn [Login.step]; try exact IH.
  - (* Submit *)
    cbn in He. apply andb_true_iff in He as [_ He].
    destruct ld; [discriminate|].
    unfold Login.handleLogin. cbv zeta.
    cbn [update component compose send pending Login.loading
         Login.setLoading Login.setError].
    rewrite List.filter_app, length_app, IH. reflexivity.
  - (* Settle *)
    unfold wake. cbn [pending].
    destruct (extract id pd) as [[k rest]|] eqn:Hx;
      [|cbn [component pending Login.loading]; exact IH].
    apply (extract_count Login.awaits_login) in Hx. rewrite Hx in IH.
    destruct k as [|u], o as [[b|]|r];
      cbn [Login.resume Login.awaits_login] in *;
      try destruct (Login.Municipals b);
      try destruct (bool_decide _);
      cbn [update component pending navigate setItem Login.loading
           Login.setLoading Login.setError Login.setMcList];
      try exact IH; destruct ld; lia.
Qed.

Lemma one_login_in_flight_witness :
  Login.in_flight
    (Login.run (Login.load ∅)
       [Login.TypeUsername "u1"; Login.TypePassword "p1";
        Login.SelectMC "MC01"; Login.Submit])
  = if Login.loading
         (component
            (Login.run (Login.load ∅)
               [Login.TypeUsername "u1"; Login.TypePassword "p1";
                Login.SelectMC "MC01"; Login.Submit]))
    then 1 else 0.
Proof.
  apply (one_login_in_flight ∅).
  vm_compute. reflexivity.
Defined.

(** *** The list of corporations *)

Module LoginListFacts.
Import LoginFacts.
Import Login.

Lemma login_run_cons (w : world) e es : run w (e :: es) = run (step w e) es.
Proof. reflexivity. Qed.

(** A login response leaves the list of corporations alone. *)
Lemma login_resume_list u o (w : world) :
  mcList (component (resume (AwaitLogin u) o w)) = mcList (component w).
Proof.
  destruct o as [[b|]|r]; cbn; try reflexivity.
  now destruct (bool_decide _).
Qed.

(** Once the list request has been answered the list stays. *)
Lemma list_stays es : forall w : world,
  (forall i k, In (i, k) (pending w) -> awaits_login k = true) ->
  mcList (component (run w es)) = mcList (component w).
Proof.
  induction es as [|e es IH]; intros w Hp; [reflexivity|].
  rewrite login_run_cons.
  destruct e as [v|v|v| | |id o]; cbn [step].
  - now rewrite IH.
  - now rewrite IH.
  - now rewrite IH.
  - (* Submit *)
    rewrite IH; [reflexivity|].
    intros i k. unfold handleLogin. cbn [pending send update].
    rewrite in_app_iff. intros [H|[[= _ <-]|[]]]; [eauto|reflexivity].
  - now rewrite IH.
  - (* Settle *)
    destruct (wake id w) as [[k w0]|] eqn:Hw; [|now apply IH].
    apply wake_sound in Hw as (Hin & Hincl & Hc & _).
    destruct k as [|u]; [now specialize (Hp _ _ Hin)|].
    rewrite IH, login_resume_list, Hc; [reflexivity|].
    intros i k Hi. destruct (login_resume_sent (AwaitLogin u) o w0)
      as [_ Hrp].
    rewrite Hrp in Hi. eauto.
Qed.

(** Until then the first answer to it decides the list. *)
Lemma list_awaited es : forall (w : world) rest,
  pending w = (0, AwaitMunicipals) :: rest ->
  (forall i k, In (i, k) rest -> awaits_login k = true /\ i <> 0) ->
  sent w <> [] ->
  mcList (component (run w es))
  = offered (list_answer es) (mcList (component w)).
Proof.
  induction es as [|e es IH]; intros w rest Hp Hr Hs; [reflexivity|].
  rewrite login_run_cons.
  destruct e as [v|v|v| | |id o]; cbn [step list_answer].
  - now rewrite (IH (update (setUsername v) w) rest Hp Hr Hs).
  - now rewrite (IH (update (setPassword v) w) rest Hp Hr Hs).
  - now rewrite (IH (update (setSelectedMC v) w) rest Hp Hr Hs).
  - (* Submit *)
    rewrite (IH _ (rest ++ [(length (sent w), AwaitLogin
                                                (username (component w)))])).
    + destruct (list_answer es) as [[[b|]|r]|]; reflexivity.
    + unfold handleLogin. cbn [pending send update]. now rewrite Hp.
    + intros i k. rewrite in_app_iff. intros [H|[[= <- <-]|[]]]; [eauto|].
      split; [reflexivity|]. destruct (sent w); [contradiction|discriminate].
    + unfold handleLogin. cbn [sent send update]. now destruct (sent w).
  - now rewrite (IH (navigate "/" w) rest Hp Hr Hs).
  - (* Settle *)
    unfold wake. rewrite Hp. cbn [extract].
    destruct id as [|id]; cbn [Nat.eqb list_answer].
    + rewrite list_stays;
        [destruct o as [[b|]|r]; cbn; try destruct (Municipals b);
         reflexivity|].
      intros i k Hi.
      assert (Hi' : In (i, k) rest)
        by (destruct o as [[b|]|r]; cbn in Hi;
            try destruct (Municipals b); exact Hi).
      now destruct (Hr _ _ Hi').
    + destruct (extract (S id) rest) as [[k rest']|] eqn:Hx.
      2:{ now rewrite (IH w rest Hp Hr Hs). }
      apply extract_sound in Hx as [Hin Hincl].
      destruct k as [|u]; [now destruct (Hr _ _ Hin)|].
      destruct (login_resume_sent (AwaitLogin u) o
                  (World (component w) (localStorage w) (mounted w)
                         (visited w) (sent w)
                         ((0, AwaitMunicipals) :: rest')))
        as [Hrs Hrp].
      rewrite (IH _ rest').
      * now rewrite login_resume_list.
      * exact Hrp.
      * intros i k Hi. apply Hr. now apply Hincl.
      * now rewrite Hrs.
Qed.

End LoginListFacts.

(** X23: the corporations the login form offers are those of the
    first answer to the municipal-list request: the list of a fulfilled
    response that carries one, and none otherwise.  Typing, submitting,
    login responses and later answers do not change them. *)
Theorem offered_corporations_follow_the_first_answer :
  forall store es,
    Login.mcList (component (Login.run (Login.load store) es))
    = Login.offered (Login.list_answer es) [].
Proof.
  intros store es.
  rewrite (LoginListFacts.list_awaited es (Login.load store) []);
    [reflexivity|reflexivity|intros i k []|discriminate].
Qed.

(** ** Dashboard: the token, a 401, an error and the trend panel *)

Module DashboardFacts.
Import Dashboard.

Lemma dash_run_snoc (w : world) es e :
  run w (es ++ [e]) = step (run w es) e.
Proof. unfold run. now rewrite fold_left_app. Qed.

Lemma dash_run_cons (w : world) e es : run w (e :: es) = run (step w e) es.
Proof. reflexivity. Qed.

Lemma dash_feasible_snoc es : forall (w : world) e,
  feasible w (es ++ [e]) = feasible w es && enabled (run w es) e.
Proof.
  induction es as [|e' es IH]; intros w e; cbn [feasible app].
  - cbn. now rewrite andb_true_r.
  - rewrite IH. now rewrite andb_assoc.
Qed.

(** A settling request sends nothing, and it leaves the storage as it
    is or empties it. *)
Lemma dash_resume_frame k o (w : world) :
  sent (resume k o w) = sent w
  /\ pending (resume k o w) = pending w
  /\ (localStorage (resume k o w) = localStorage w
      \/ localStorage (resume k o w) = ∅).
Proof.
  destruct k, o as [[b|]|r]; cbn; try (destruct (unauthorized r)); cbn;
    auto.
Qed.

(** What a click sends: nothing without a token, else one GET with the
    bearer token of the storage. *)
Lemma dash_click (w : world) h type :
  (Js.present (getItem "access_token" w) = false
   /\ sent (fetchTrend h type w) = sent w)
  \/ (exists t path,
        getItem "access_token" w = Some t /\ t <> ""
        /\ sent (fetchTrend h type w)
           = sent w ++ [Request GET (API_BASE +:+ path)
                          [("Authorization", "Bearer " +:+ t)] Empty]).
Proof.
  unfold fetchTrend. cbv zeta.
  destruct (Js.present (getItem "access_token" w)) eqn:Ht; cbn [negb].
  - right. destruct (present_Some _ Ht) as (t & Hs & Hne).
    exists t. eexists. split; [exact Hs|]. split; [exact Hne|].
    cbn [sent send update]. unfold axiosAuth.
    unfold getItem in Ht, Hs. unfold getItem.
    cbn [localStorage update]. rewrite Ht, Hs. reflexivity.
  - left. split; reflexivity.
Qed.

Lemma dash_step_storage (w : world) e :
  localStorage (step w e) = localStorage w \/ localStorage (step w e) = ∅.
Proof.
  destruct e as [h|h| | | |id o]; cbn [step]; auto.
  - unfold fetchTrend; cbv zeta. destruct (negb _); left; reflexivity.
  - unfold fetchTrend; cbv zeta. destruct (negb _); left; reflexivity.
  - destruct (wake id w) as [[k w0]|] eqn:Hw; [|now left].
    apply wake_sound in Hw as (_ & _ & _ & Hl & _).
    rewrite <- Hl. apply dash_resume_frame.
Qed.

(** Without a token in the storage a step sends nothing. *)
Lemma dash_step_silent (w : world) e :
  Js.present (getItem "access_token" w) = false ->
  sent (step w e) = sent w
  /\ Js.present (getItem "access_token" (step w e)) = false.
Proof.
  intros Ht. split.
  - destruct e as [h|h| | | |id o]; cbn [step]; try reflexivity.
    + destruct (dash_click w h "quality") as [[_ H]|(t & p & Hs & Hne & _)];
        [exact H|].
      rewrite Hs in Ht. cbn in Ht.
      destruct (String.eqb_spec t ""); [contradiction|discriminate].
    + destruct (dash_click w h "distribution")
        as [[_ H]|(t & p & Hs & Hne & _)]; [exact H|].
      rewrite Hs in Ht. cbn in Ht.
      destruct (String.eqb_spec t ""); [contradiction|discriminate].
    + destruct (wake id w) as [[k w0]|] eqn:Hw; [|reflexivity].
      apply wake_sound in Hw as (_ & _ & _ & _ & _ & _ & Hs).
      destruct (dash_resume_frame k o w0) as (Hs' & _). congruence.
  - unfold getItem in *.
    destruct (dash_step_storage w e) as [-> | ->]; [exact Ht|reflexivity].
Qed.

Lemma dash_run_silent es : forall w : world,
  Js.present (getItem "access_token" w) = false ->
  sent (run w es) = sent w.
Proof.
  induction es as [|e es IH]; intros w Ht; [reflexivity|].
  rewrite dash_run_cons.
  destruct (dash_step_silent w e Ht) as [Hs Ht'].
  rewrite IH by exact Ht'. exact Hs.
Qed.

Lemma dash_run_empty es : forall w : world,
  localStorage w = ∅ -> localStorage (run w es) = ∅.
Proof.
  induction es as [|e es IH]; intros w Hl; [exact Hl|].
  rewrite dash_run_cons. apply IH.
  destruct (dash_step_storage w e) as [H|H]; congruence.
Qed.

(** An error message, once set, stays. *)
Lemma dash_step_error (w : world) e :
  error (component w) <> "" -> error (component (step w e)) <> "".
Proof.
  intros He.
  destruct e as [h|h| | | |id o]; cbn [step]; try exact He.
  - unfold fetchTrend; cbv zeta. destruct (negb _); exact He.
  - unfold fetchTrend; cbv zeta. destruct (negb _); exact He.
  - destruct (wake id w) as [[k w0]|] eqn:Hw; [|exact He].
    apply wake_sound in Hw as (_ & _ & Hc & _). rewrite <- Hc in He.
    destruct k, o as [[b|]|r]; cbn; try (destruct (unauthorized r)); cbn;
      first [exact He | discriminate].
Qed.

Lemma dash_run_error es : forall w : world,
  error (component w) <> "" -> error (component (run w es)) <> "".
Proof.
  induction es as [|e es IH]; intros w He; [exact He|].
  rewrite dash_run_cons. apply IH. now apply dash_step_error.
Qed.

Lemma asked_snoc es e :
  asked (es ++ [e])
  = match asks e with Some a => Some a | None => asked es end.
Proof. unfold asked. now rewrite fold_left_app. Qed.

Lemma asked_type es h type :
  asked es = Some (h, type) -> type = "quality" \/ type = "distribution".
Proof.
  induction es as [|e es IH] using rev_ind; [discriminate|].
  rewrite asked_snoc. destruct e; cbn [asks]; try exact IH.
  - intros [= _ <-]. now left.
  - intros [= _ <-]. now right.
Qed.

Lemma follows_init store : follows [] (load store).
Proof.
  unfold follows, tracks, load, mount, getItem. cbn [open localStorage].
  destruct (Js.present (store !! "access_token")) eqn:Ht; cbn [negb orb].
  - destruct (negb _); cbn.
    + repeat split; try discriminate. intros [H|[id []]]. now destruct H.
    + repeat split; auto. intros [H|[id [[=]|[]]]]. now destruct H.
  - cbn. repeat split; try discriminate. intros [H|[id []]]. now destruct H.
Qed.

Lemma follows_step es (w : world) e :
  follows es w -> enabled w e = true -> follows (es ++ [e]) (step w e).
Proof.
  destruct w as [[hs er ld tt td sh lt] ls mt vs sn pd].
  unfold follows. rewrite asked_snoc. intros H Hen.
  unfold tracks in H.
  cbn [component mounted pending selectedHub trendType trendData] in H.
  destruct H as (Htok & Hsh & Htt & Htd).
  assert (Hclick : forall h type,
    mt = true ->
    tracks (Some (h, type))
      (fetchTrend h type
         (World (State hs er ld tt td sh lt) ls mt vs sn pd))).
  { intros h type Hm. specialize (Htok Hm).
    unfold tracks, fetchTrend, getItem in *. cbv zeta.
    cbn [localStorage update] in *. rewrite Htok. cbn.
    repeat split; auto; discriminate. }
  destruct e as [h|h| | | |id o]; cbn [asks step].
  - apply Hclick. cbn in Hen. now destruct mt.
  - apply Hclick. cbn in Hen. now destruct mt.
  - unfold tracks; cbn; repeat split; auto; discriminate.
  - unfold tracks; cbn; repeat split; auto; discriminate.
  - unfold tracks; cbn; repeat split; auto; discriminate.
  - unfold tracks, wake. cbn [pending].
    destruct (extract id pd) as [[k rest]|] eqn:Hx;
      [|cbn; repeat split; auto].
    apply extract_sound in Hx as [Hin Hincl].
    assert (Hrest : (exists i, In (i, AwaitTrend) rest) ->
                    exists i, In (i, AwaitTrend) pd).
    { intros [i Hi]. exists i. now apply Hincl. }
    destruct k, o as [[b|]|r]; cbn [resume];
      try destruct (unauthorized r);
      cbn [handleLogout navigate clear update component mounted pending
           localStorage selectedHub trendType trendData setHubs setError
           setLoading setTrendData setLoadingTrend];
      (split; [first [exact Htok | discriminate]|]);
      (split; [exact Hsh|]); (split; [exact Htt|]);
      intros [H|H]; apply Htd; eauto.
Qed.

Lemma follows_run store es :
  feasible (load store) es = true -> follows es (run (load store) es).
Proof.
  induction es as [|e es IH] using rev_ind; intros Hf.
  - apply follows_init.
  - rewrite dash_feasible_snoc in Hf.
    apply andb_true_iff in Hf as [Hf He].
    rewrite dash_run_snoc. apply follows_step; auto.
Qed.

End DashboardFacts.

(** X5: every request the Dashboard ever sends is a GET without a body
    that carries, as bearer token, the non-empty token the storage held
    when the screen was mounted. *)
Theorem Dashboard_requests_carry_the_token :
  forall store es rq,
    In rq (sent (Dashboard.run (Dashboard.load store) es)) ->
    exists t,
      Session.token store = Some t /\ t <> ""
      /\ headers rq = [("Authorization", "Bearer " +:+ t)]
      /\ method rq = GET /\ data rq = Empty.
Proof.
  intros store es.
  enough (H : (localStorage (Dashboard.run (Dashboard.load store) es) = store
               \/ localStorage (Dashboard.run (Dashboard.load store) es) = ∅)
              /\ forall rq,
                   In rq (sent (Dashboard.run (Dashboard.load store) es)) ->
                   exists t,
                     Session.token store = Some t /\ t <> ""
                     /\ headers rq = [("Authorization", "Bearer " +:+ t)]
                     /\ method rq = GET /\ data rq = Empty)
    by apply H.
  induction es as [|e es [IHl IHs]] using rev_ind.
  - split; [left|].
    + unfold Dashboard.load, Dashboard.mount. cbn [Dashboard.run fold_left].
      destruct (_ || _); reflexivity.
    + intros rq. unfold Dashboard.load, Dashboard.mount, getItem.
      cbn [Dashboard.run fold_left open localStorage].
      destruct (Js.present (store !! "access_token")) eqn:Ht;
        cbn [negb orb]; [|intros []].
      destruct (negb _); cbn [sent navigate send app In]; [intros []|].
      intros [<-|[]]. destruct (present_Some _ Ht) as (t & Hs & Hne).
      exists t. unfold Session.token, Dashboard.axiosAuth.
      rewrite Ht, Hs. auto.
  - rewrite DashboardFacts.dash_run_snoc.
    set (w := Dashboard.run (Dashboard.load store) es) in *.
    split.
    + destruct (DashboardFacts.dash_step_storage w e) as [H|H];
        [rewrite H; exact IHl|now right].
    + assert (Hclick : forall h type rq,
                In rq (sent (Dashboard.fetchTrend h type w)) ->
                exists t,
                  Session.token store = Some t /\ t <> ""
                  /\ headers rq = [("Authorization", "Bearer " +:+ t)]
                  /\ method rq = GET /\ data rq = Empty).
      { intros h type rq.
        destruct (DashboardFacts.dash_click w h type)
          as [[_ ->]|(t & p & Hs & Hne & ->)]; [apply IHs|].
        rewrite in_app_iff. intros [H|[<-|[]]]; [now apply IHs|].
        exists t. unfold Session.token. unfold getItem in Hs.
        destruct IHl as [Hl|Hl]; rewrite Hl in Hs; [auto|].
        rewrite lookup_empty in Hs. discriminate. }
      destruct e as [h|h| | | |id o]; cbn [Dashboard.step];
        try exact IHs; try apply Hclick.
      destruct (wake id w) as [[k w0]|] eqn:Hw; [|exact IHs].
      apply wake_sound in Hw as (_ & _ & _ & _ & _ & _ & Hs).
      destruct (DashboardFacts.dash_resume_frame k o w0) as (Hs' & _).
      rewrite Hs', Hs. exact IHs.
Qed.

Lemma Dashboard_requests_carry_the_token_witness :
  exists t,
    Session.token Sample.session_with_token = Some t /\ t <> ""
    /\ headers (Request GET "http://127.0.0.1:8000/api/mc/MC01/hubs"
                  [("Authorization", "Bearer abc")] Empty)
       = [("Authorization", "Bearer " +:+ t)]
    /\ method (Request GET "http://127.0.0.1:8000/api/mc/MC01/hubs"
                 [("Authorization", "Bearer abc")] Empty) = GET
    /\ data (Request GET "http://127.0.0.1:8000/api/mc/MC01/hubs"
               [("Authorization", "Bearer abc")] Empty) = Empty.
Proof.
  apply (Dashboard_requests_carry_the_token Sample.session_with_token []).
  vm_compute. now left.
Defined.

(** X6: on the Dashboard a 401 answer to a pending request empties the
    storage and redirects to the login screen, and from then on,
    whatever events follow, the screen sends no request and the storage
    stays empty. *)
Theorem Dashboard_sends_nothing_after_unauthorized :
  forall (w : Dashboard.world) id k w0 f es,
    wake id w = Some (k, w0) ->
    status f = 401%Z ->
    let w' := Dashboard.step w (Dashboard.Settle id (Rejected (Some f))) in
    localStorage w' = ∅
    /\ visited w' = visited w ++ ["/login"]
    /\ mounted w' = false
    /\ sent (Dashboard.run w' es) = sent w
    /\ localStorage (Dashboard.run w' es) = ∅.
Proof.
  intros w id k w0 f es Hw Hf w'.
  assert (H : localStorage w' = ∅ /\ visited w' = visited w ++ ["/login"]
              /\ mounted w' = false /\ sent w' = sent w).
  { subst w'. cbn [Dashboard.step]. rewrite Hw.
    apply wake_sound in Hw as (_ & _ & _ & _ & _ & Hv & Hs).
    rewrite <- Hv, <- Hs.
    destruct k; cbn; unfold unauthorized; rewrite Hf; cbn; auto. }
  destruct H as (Hl & Hv & Hm & Hs).
  repeat (split; [assumption|]). split.
  - rewrite DashboardFacts.dash_run_silent; [exact Hs|].
    unfold getItem. rewrite Hl. reflexivity.
  - now apply DashboardFacts.dash_run_empty.
Qed.

Lemma Dashboard_sends_nothing_after_unauthorized_witness :
  let w := Dashboard.load Sample.session_with_token in
  let es := [Dashboard.MonitorTrends Sample.north] in
  let w' := Dashboard.step w (Dashboard.Settle 0 Sample.unauthorized) in
  localStorage w' = ∅
  /\ sent (Dashboard.run w' es) = sent w.
Proof.
  cbv zeta.
  assert (H : exists w0,
             wake 0 (Dashboard.load Sample.session_with_token)
             = Some (Dashboard.AwaitHubs, w0))
    by (eexists; vm_compute; reflexivity).
  destruct H as [w0 H].
  destruct (Dashboard_sends_nothing_after_unauthorized
              (Dashboard.load Sample.session_with_token) 0
              Dashboard.AwaitHubs w0 (Failure 401 None)
              [Dashboard.MonitorTrends Sample.north] H eq_refl)
    as (Hl & _ & _ & Hs & _).
  split; assumption.
Defined.

(** X7: once a trend request of the Dashboard ends in anything but a
    fulfilled response with a body, the page shows the spinner or the
    error message in place of the hubs and the trend panel, and keeps
    doing so whatever events follow: nothing resets the error. *)
Theorem failed_trend_hides_the_hubs_for_good :
  forall (w : Dashboard.world) id w0 o es assets name hubs trend,
    wake id w = Some (Dashboard.AwaitTrend, w0) ->
    (forall b, o <> Fulfilled (Some b)) ->
    Dashboard.render assets name
      (component (Dashboard.run (Dashboard.step w (Dashboard.Settle id o)) es))
    <> Dashboard.Content hubs trend.
Proof.
  intros w id w0 o es assets name hubs trend Hw Ho.
  assert (He : Dashboard.error
                 (component (Dashboard.step w (Dashboard.Settle id o)))
               <> "").
  { cbn [Dashboard.step]. rewrite Hw.
    destruct o as [[b|]|r]; [now destruct (Ho b)| |]; cbn;
      try (destruct (unauthorized r)); cbn; discriminate. }
  apply (DashboardFacts.dash_run_error es) in He.
  unfold Dashboard.render. destruct (Dashboard.loading _); [discriminate|].
  destruct (String.eqb_spec
              (Dashboard.error
                 (component
                    (Dashboard.run
                       (Dashboard.step w (Dashboard.Settle id o)) es))) "");
    [contradiction|discriminate].
Qed.

Lemma failed_trend_hides_the_hubs_for_good_witness :
  Dashboard.feasible (Dashboard.load Sample.session_with_token)
    Sample.browsing = true
  /\ Dashboard.render Sample.assets (Some "Test City")
       (component
          (Dashboard.run
             (Dashboard.step Sample.dashboard
                (Dashboard.Settle 1 (Rejected None)))
             [Dashboard.DistributionTrends Sample.north]))
     <> Dashboard.Content (Dashboard.Cards []) None.
Proof.
  split; [vm_compute; reflexivity|].
  assert (H : exists w0,
             wake 1 Sample.dashboard = Some (Dashboard.AwaitTrend, w0))
    by (eexists; vm_compute; reflexivity).
  destruct H as [w0 H].
  apply (failed_trend_hides_the_hubs_for_good Sample.dashboard 1 w0
           (Rejected None) [Dashboard.DistributionTrends Sample.north]
           Sample.assets (Some "Test City") (Dashboard.Cards []) None H).
  intros b Hb. discriminate Hb.
Defined.

(** X8: after events the page lets through, a trend panel on the
    Dashboard is titled after the hub and the trend type of the click
    that came last, and carries the note exactly for a distribution
    trend. *)
Theorem trend_panel_is_titled_after_the_last_click :
  forall store es assets name hubs p,
    Dashboard.feasible (Dashboard.load store) es = true ->
    Dashboard.render assets name
      (component (Dashboard.run (Dashboard.load store) es))
    = Dashboard.Content hubs (Some p) ->
    exists h type,
      Dashboard.asked es = Some (h, type)
      /\ Dashboard.heading p
         = (if String.eqb type "quality"
            then "💧 Water Quality Trend – " +:+ Hub_Name h
            else "⚙️ Distribution Efficiency Trend – "
                 +:+ Js.interpolate name)
      /\ Dashboard.note p = negb (String.eqb type "quality").
Proof.
  intros store es assets name hubs p Hf Hr.
  destruct (DashboardFacts.follows_run store es Hf) as (_ & Hsh & Htt & Htd).
  destruct (component (Dashboard.run (Dashboard.load store) es))
    as [hs er ld tt td sh lt].
  cbn [Dashboard.selectedHub Dashboard.trendType Dashboard.trendData] in *.
  unfold Dashboard.render in Hr.
  cbn [Dashboard.loading Dashboard.error Dashboard.trendData] in Hr.
  destruct ld; [discriminate|]. destruct (negb _); [discriminate|].
  injection Hr as _ Hp. destruct td as [data|]; [|discriminate].
  injection Hp as <-.
  destruct (Dashboard.asked es) as [[h type]|] eqn:Ha.
  2:{ exfalso. apply Htd; [left; discriminate|reflexivity]. }
  exists h, type. split; [reflexivity|].
  cbn in Hsh, Htt. subst sh tt.
  unfold Dashboard.render_panel.
  cbn [Dashboard.heading Dashboard.note Dashboard.trendType
       Dashboard.selectedHub].
  destruct (DashboardFacts.asked_type es h type Ha) as [-> | ->].
  - rewrite bool_decide_true by reflexivity.
    rewrite bool_decide_false by discriminate. split; reflexivity.
  - rewrite bool_decide_false by discriminate.
    rewrite bool_decide_true by reflexivity. split; reflexivity.
Qed.

Lemma trend_panel_is_titled_after_the_last_click_witness :
  exists h type,
    Dashboard.asked
      [Dashboard.Settle 0 (Fulfilled (Some Sample.hubs_body));
       Dashboard.MonitorTrends Sample.north;
       Dashboard.Settle 1 (Fulfilled (Some Sample.trend_body))]
    = Some (h, type).
Proof.
  assert (Hf : Dashboard.feasible (Dashboard.load Sample.session_with_token)
                 [Dashboard.Settle 0 (Fulfilled (Some Sample.hubs_body));
                  Dashboard.MonitorTrends Sample.north;
                  Dashboard.Settle 1 (Fulfilled (Some Sample.trend_body))]
               = true) by (vm_compute; reflexivity).
  assert (Hr : exists hubs p,
             Dashboard.render Sample.assets (Some "Test City")
               (component
                  (Dashboard.run
                     (Dashboard.load Sample.session_with_token)
                     [Dashboard.Settle 0 (Fulfilled (Some Sample.hubs_body));
                      Dashboard.MonitorTrends Sample.north;
                      Dashboard.Settle 1
                        (Fulfilled (Some Sample.trend_body))]))
             = Dashboard.Content hubs (Some p))
    by (do 2 eexists; vm_compute; reflexivity).
  destruct Hr as (hubs & p & Hr).
  destruct (trend_panel_is_titled_after_the_last_click _ _ _ _ _ _ Hf Hr)
    as (h & type & Ha & _).
  exists h, type. exact Ha.
Defined.

(** ** The two copies of the Dashboard *)

Module LegacyFacts.
Import Dashboard.

Lemma legacy_run_snoc (w : world) es e :
  DashboardLegacy.run w (es ++ [e])
  = DashboardLegacy.step (DashboardLegacy.run w es) e.
Proof. unfold DashboardLegacy.run. now rewrite fold_left_app. Qed.

Lemma unauthorized_false r :
  (forall f, r = Some f -> status f <> 401%Z) -> unauthorized r = false.
Proof.
  intros H. destruct r as [f|]; [|reflexivity]. cbn.
  apply Z.eqb_neq. now apply H.
Qed.

(** The two copies stay in agreement over a step the page lets
    through, as long as the token is in the storage while the screen is
    mounted and the step is no 401 response. *)
Lemma agree_step (w l : world) e :
  DashboardLegacy.agree w l ->
  (mounted w = true -> Js.present (getItem "access_token" w) = true) ->
  enabled w e = true ->
  (forall id f, e = Settle id (Rejected (Some f)) -> status f <> 401%Z) ->
  DashboardLegacy.agree (step w e) (DashboardLegacy.step l e)
  /\ (mounted (step w e) = true ->
      Js.present (getItem "access_token" (step w e)) = true).
Proof.
  destruct w as [[hs er ld tt td sh lt] ls mt vs sn pd].
  destruct l as [[hs' er' ld' tt' td' sh' lt'] ls' mt' vs' sn' pd'].
  unfold DashboardLegacy.agree. cbn [component localStorage mounted visited
    sent pending hubs error loading trendType trendData selectedHub
    loadingTrend].
  intros (-> & -> & -> & -> & -> & -> & Htd & -> & -> & -> & -> & Hsn) Htok.
  assert (Hlen : length sn' = length sn).
  { rewrite <- (length_map url sn'), Hsn. apply length_map. }
  assert (Hclick : forall h type,
    mt = true ->
    DashboardLegacy.agree
      (fetchTrend h type (World (State hs er ld tt td sh lt) ls mt vs sn pd))
      (DashboardLegacy.fetchTrend h type
         (World (State hs er ld tt td' sh lt) ls mt vs sn' pd))
    /\ (mounted (fetchTrend h type
                   (World (State hs er ld tt td sh lt) ls mt vs sn pd))
        = true ->
        Js.present
          (getItem "access_token"
             (fetchTrend h type
                (World (State hs er ld tt td sh lt) ls mt vs sn pd)))
        = true)).
  { intros h type Hm. specialize (Htok Hm).
    unfold fetchTrend, DashboardLegacy.fetchTrend, DashboardLegacy.agree,
      DashboardLegacy.get, getItem in *.
    cbv zeta. cbn [localStorage update] in *. rewrite Htok.
    cbn [negb send update component compose localStorage mounted visited
         sent pending hubs error loading trendType trendData selectedHub
         loadingTrend setLoadingTrend setSelectedHub setTrendType
         setTrendData url].
    rewrite !map_app, Hsn, Hlen. cbn [map url]. auto 20. }
  intros Hen Hauth.
  destruct e as [h|h| | | |id o]; cbn [step DashboardLegacy.step].
  - apply Hclick. cbn in Hen. now destruct mt.
  - apply Hclick. cbn in Hen. now destruct mt.
  - unfold DashboardLegacy.agree. cbn. split; [auto 20|discriminate].
  - unfold DashboardLegacy.agree. cbn. split; [auto 20|discriminate].
  - unfold DashboardLegacy.agree. cbn. split; [auto 20|discriminate].
  - unfold wake. cbn [pending].
    destruct (extract id pd) as [[k rest]|];
      [|unfold DashboardLegacy.agree; cbn; auto 20].
    cbn [component localStorage mounted visited sent].
    destruct k, o as [[b|]|r];
      cbn [resume DashboardLegacy.resume];
      try (rewrite (unauthorized_false r)
             by (intros f ->; now apply (Hauth id)));
      unfold DashboardLegacy.agree, getItem in *; cbn in *; auto 20.
Qed.

End LegacyFacts.

(** X9: over a storage that holds a token, and as long as no response
    is a 401, the earlier copy of the Dashboard goes through the same
    states as the Dashboard under the same events: same hubs, error,
    loading flags, selected hub and trend type, same route and pending
    requests, and requests to the same addresses (without the header);
    it holds trend data only if the Dashboard holds the same. *)
Theorem earlier_Dashboard_agrees_while_authorized :
  forall store es,
    Js.present (Session.token store) = true ->
    Dashboard.feasible (Dashboard.load store) es = true ->
    Dashboard.authorized es ->
    DashboardLegacy.agree
      (Dashboard.run (Dashboard.load store) es)
      (DashboardLegacy.run (DashboardLegacy.load store) es).
Proof.
  intros store es Ht.
  enough (H : Dashboard.feasible (Dashboard.load store) es = true ->
              Dashboard.authorized es ->
              DashboardLegacy.agree
                (Dashboard.run (Dashboard.load store) es)
                (DashboardLegacy.run (DashboardLegacy.load store) es)
              /\ (mounted (Dashboard.run (Dashboard.load store) es) = true ->
                  Js.present
                    (getItem "access_token"
                       (Dashboard.run (Dashboard.load store) es)) = true))
    by (intros Hf Ha; apply (H Hf Ha)).
  induction es as [|e es IH] using rev_ind; intros Hf Ha.
  - unfold Dashboard.load, Dashboard.mount, DashboardLegacy.load,
      DashboardLegacy.mount, DashboardLegacy.get, getItem,
      DashboardLegacy.agree, Session.token in *.
    cbn [Dashboard.run DashboardLegacy.run fold_left open localStorage].
    rewrite Ht. cbn [negb orb].
    destruct (negb (Js.present (store !! "mc_code"))); cbn; auto 20.
  - rewrite DashboardFacts.dash_feasible_snoc in Hf.
    apply andb_true_iff in Hf as [Hf He].
    assert (Ha' : Dashboard.authorized es).
    { intros id f Hin. apply (Ha id f). apply in_or_app. now left. }
    destruct (IH Hf Ha') as [Hag Htok].
    rewrite DashboardFacts.dash_run_snoc, LegacyFacts.legacy_run_snoc.
    apply LegacyFacts.agree_step; auto.
    intros id f ->. apply (Ha id f). apply in_or_app. right. now left.
Qed.

Lemma earlier_Dashboard_agrees_while_authorized_witness :
  DashboardLegacy.agree
    (Dashboard.run (Dashboard.load Sample.session_with_token)
       Sample.browsing)
    (DashboardLegacy.run (DashboardLegacy.load Sample.session_with_token)
       Sample.browsing).
Proof.
  apply earlier_Dashboard_agrees_while_authorized.
  - vm_compute. reflexivity.
  - vm_compute. reflexivity.
  - intros id f H. vm_compute in H.
    repeat (destruct H as [H|H]; [discriminate H|]). destruct H.
Defined.

(** ** Screens without a municipality code *)

Lemma Dashboard_idle (w : Dashboard.world) es :
  mounted w = false -> pending w = [] ->
  Dashboard.feasible w es = true -> Dashboard.run w es = w.
Proof.
  intros Hm Hp. induction es as [|e es IH]; [reflexivity|].
  cbn [Dashboard.feasible]. intros Hf.
  apply andb_true_iff in Hf as [He Hf].
  assert (Hs : Dashboard.step w e = w).
  { destruct e; cbn in He; rewrite ?Hm in He; try discriminate He.
    cbn [Dashboard.step]. unfold wake. now rewrite Hp. }
  rewrite DashboardFacts.dash_run_cons, Hs. rewrite Hs in Hf. auto.
Qed.

Lemma Monitor_idle (w : Monitor.world) es :
  mounted w = false -> pending w = [] ->
  Monitor.feasible w es = true -> Monitor.run w es = w.
Proof.
  intros Hm Hp. induction es as [|e es IH]; [reflexivity|].
  cbn [Monitor.feasible]. intros Hf.
  apply andb_true_iff in Hf as [He Hf].
  assert (Hs : Monitor.step w e = w).
  { destruct e; cbn in He; rewrite ?Hm in He; try discriminate He.
    cbn [Monitor.step]. unfold wake. now rewrite Hp. }
  change (Monitor.run w (e :: es)) with (Monitor.run (Monitor.step w e) es).
  rewrite Hs. rewrite Hs in Hf. auto.
Qed.

Lemma Distribution_idle (w : Distribution.world) es :
  mounted w = false -> pending w = [] ->
  Distribution.feasible w es = true -> Distribution.run w es = w.
Proof.
  intros Hm Hp. induction es as [|e es IH]; [reflexivity|].
  cbn [Distribution.feasible]. intros Hf.
  apply andb_true_iff in Hf as [He Hf].
  assert (Hs : Distribution.step w e = w).
  { destruct e; cbn in He; rewrite ?Hm in He; try discriminate He.
    cbn [Distribution.step]. unfold wake. now rewrite Hp. }
  change (Distribution.run w (e :: es))
    with (Distribution.run (Distribution.step w e) es).
  rewrite Hs. rewrite Hs in Hf. auto.
Qed.

(** X10: over a storage without a municipality code the Dashboard,
    Monitor and DistributionDashboard leave for the login screen on
    mount, and no sequence of events the page lets through makes any of
    them send a request. *)
Theorem screens_without_a_code_request_nothing :
  forall store,
    Js.present (Session.municipalityCode store) = false ->
    (forall es,
        Dashboard.feasible (Dashboard.load store) es = true ->
        sent (Dashboard.run (Dashboard.load store) es) = []
        /\ mounted (Dashboard.run (Dashboard.load store) es) = false)
    /\ (forall es,
          Monitor.feasible (Monitor.load store) es = true ->
          sent (Monitor.run (Monitor.load store) es) = []
          /\ mounted (Monitor.run (Monitor.load store) es) = false)
    /\ (forall es,
          Distribution.feasible (Distribution.load store) es = true ->
          sent (Distribution.run (Distribution.load store) es) = []
          /\ mounted (Distribution.run (Distribution.load store) es)
             = false).
Proof.
  unfold Session.municipalityCode. intros store H.
  assert (Hd : mounted (Dashboard.load store) = false
               /\ pending (Dashboard.load store) = []
               /\ sent (Dashboard.load store) = []).
  { unfold Dashboard.load, Dashboard.mount, getItem.
    cbn [open localStorage]. rewrite H, orb_true_r. repeat split. }
  assert (Hm : mounted (Monitor.load store) = false
               /\ pending (Monitor.load store) = []
               /\ sent (Monitor.load store) = []).
  { unfold Monitor.load, Monitor.mount, Monitor.mcCode, getItem.
    cbn [open localStorage]. rewrite H. repeat split. }
  assert (Hx : mounted (Distribution.load store) = false
               /\ pending (Distribution.load store) = []
               /\ sent (Distribution.load store) = []).
  { unfold Distribution.load, Distribution.mount,
      Distribution.redirect_effect, Distribution.hubs_effect,
      Distribution.protect_effect, Distribution.mcCode, Distribution.token,
      getItem.
    cbn [open localStorage]. rewrite H, orb_true_r.
    cbn [negb navigate open localStorage]. rewrite H.
    cbn [negb navigate open localStorage].
    destruct (negb _); repeat split. }
  destruct Hd as (Hd1 & Hd2 & Hd3), Hm as (Hm1 & Hm2 & Hm3),
    Hx as (Hx1 & Hx2 & Hx3).
  split; [|split]; intros es Hf.
  - rewrite (Dashboard_idle _ es Hd1 Hd2 Hf). auto.
  - rewrite (Monitor_idle _ es Hm1 Hm2 Hf). auto.
  - rewrite (Distribution_idle _ es Hx1 Hx2 Hf). auto.
Qed.

Lemma screens_without_a_code_request_nothing_witness :
  sent (Monitor.run (Monitor.load ∅)
          [Monitor.Settle 0 (Fulfilled None)]) = []
  /\ mounted (Monitor.run (Monitor.load ∅)
                [Monitor.Settle 0 (Fulfilled None)]) = false.
Proof.
  assert (H : Js.present (Session.municipalityCode ∅) = false)
    by (vm_compute; reflexivity).
  destruct (screens_without_a_code_request_nothing ∅ H) as (_ & Hm & _).
  apply Hm. vm_compute. reflexivity.
Defined.

(** ** Monitor and DistributionDashboard: what is requested *)

Module MonitorMore.
Import Monitor.

Lemma monitor_feasible_snoc es : forall (w : world) e,
  feasible w (es ++ [e]) = feasible w es && enabled (run w es) e.
Proof.
  induction es as [|e' es IH]; intros w e; cbn [feasible app].
  - cbn. now rewrite andb_true_r.
  - rewrite IH. now rewrite andb_assoc.
Qed.

(** In a world reached from a fresh screen every pending request has
    been sent. *)
Lemma pending_sent store es i k :
  In (i, k) (pending (run (load store) es)) ->
  (i < length (sent (run (load store) es)))%nat.
Proof.
  intros H.
  destruct (MonitorFacts.invariant_run store es) as (_ & Hp & _).
  destruct (Hp i k H) as (rq & _ & _ & Hrq & _).
  now apply lookup_lt_Some in Hrq.
Qed.

(** A request a step adds has no header. *)
Lemma step_headers (w : world) e rq :
  In rq (sent (step w e)) -> In rq (sent w) \/ headers rq = [].
Proof.
  destruct e; cbn [step];
    try (unfold handleChange, handlePredict, fetchTrend, fetchYearlyTrend,
           fetchAnomalies, fetchRecords, handleLogout, get; cbv zeta;
         try match goal with
             | |- context [String.eqb ?a ?b] => destruct (String.eqb a b)
             end;
         cbn [sent update send navigate clear];
         rewrite ?in_app_iff; cbn [In];
         intros H; first [now left | destruct H as [H|[<-|[]]]; [now left|]];
         right; reflexivity).
  destruct (wake id w) as [[k w']|] eqn:Hw; [|now left].
  apply wake_sound in Hw as (_ & _ & _ & _ & _ & _ & Hs).
  destruct (MonitorFacts.resume_frame k o w') as (_ & Hs' & _).
  rewrite Hs', Hs. now left.
Qed.

(** The default of a field is a number that the coercion of the
    payload keeps. *)
Lemma default_survives name v :
  formData initial !! name = Some v -> coerce v = v.
Proof.
  intros H. unfold initial in H. cbn [formData] in H.
  apply elem_of_list_to_map_2 in H.
  repeat (apply elem_of_cons in H as [[= -> ->]|H];
          [vm_compute; reflexivity|]).
  now apply elem_of_nil in H.
Qed.

(** A field no event has edited holds its default. *)
Lemma unedited_field store es name :
  (forall text, ~ In (Change name text) es) ->
  formData (component (run (load store) es)) !! name
  = formData initial !! name.
Proof.
  induction es as [|e es IH] using rev_ind; intros Hn.
  - unfold load, mount. cbn [run fold_left].
    now destruct (negb _).
  - rewrite MonitorFacts.run_snoc. rewrite <- IH.
    2:{ intros text Hin. apply (Hn text). apply in_or_app. now left. }
    destruct (run (load store) es)
      as [[hl sh rs tr yr an rc ld er av fd] ls mt vs sn pd].
    destruct e as [v|n v| | | | | | | | |id o]; cbn [step];
      unfold handleChange, handlePredict, fetchTrend, fetchYearlyTrend,
        fetchAnomalies, fetchRecords, handleLogout;
      cbv zeta;
      try (cbn [update component compose send navigate clear
                selectedHub formData setActiveView setRecords setAnomalies
                setYearlyTrend setTrend setResult setError setLoading
                setSelectedHub setFormData];
           try match goal with
               | |- context [String.eqb ?a ?b] => destruct (String.eqb a b)
               end;
           reflexivity).
    + (* Change *)
      cbn [update component formData setFormData].
      apply lookup_insert_ne. intros ->. apply (Hn v).
      apply in_or_app. right. now left.
    + (* Settle *)
      unfold wake. cbn [pending].
      destruct (extract id pd) as [[k rest]|]; [|reflexivity].
      destruct k, o; cbn [resume];
        repeat match goal with
               | |- context [match ?x with _ => _ end] =>
                   match x with
                   | trend_of _ _ => destruct x
                   | yearly_of _ _ => destruct x
                   | records_of _ => destruct x
                   end
               end;
        reflexivity.
Qed.

End MonitorMore.

Module DistributionMore.
Import Distribution.

(** What a step of DistributionDashboard does to the storage and to the
    requests: the storage stays or is emptied, and a request it adds
    carries the bearer header made from the token in the storage. *)
Lemma dist_step_bearer (w : world) e :
  (localStorage (step w e) = localStorage w
   \/ localStorage (step w e) = ∅)
  /\ forall rq, In rq (sent (step w e)) ->
       In rq (sent w)
       \/ headers rq
          = [("Authorization",
              "Bearer " +:+ Js.interpolate (localStorage w !! "access_token"))].
Proof.
  destruct e as [v|n v| | | | | | | | |id o]; cbn [step];
    try (unfold handleChange, handlePredict, fetchTrend, fetchYearlyTrend,
           fetchCritical, fetchRecords, handleLogout, get, axiosAuth, token,
           getItem;
         cbv zeta;
         cbn [update component compose localStorage];
         try match goal with
             | |- context [String.eqb ?a ?b] => destruct (String.eqb a b)
             end;
         try match goal with
             | |- context [negb ?a] => destruct (negb a)
             end;
         cbn [sent update send navigate clear localStorage];
         (split; [auto|]); intros rq; rewrite ?in_app_iff; cbn [In];
         intros H; first [now left | destruct H as [H|[<-|[]]]; [now left|]];
         right; reflexivity).
  destruct (wake id w) as [[k w']|] eqn:Hw; [|split; auto].
  apply wake_sound in Hw as (_ & _ & _ & Hl & _ & _ & Hs).
  destruct (DistributionFacts.dist_resume_frame k o w')
    as (_ & Hs' & _ & Hl' & _).
  rewrite Hs', Hs, Hl', Hl. split; auto.
Qed.

Lemma bearer_of_storage (store : gmap string string) :
  exists t,
    "Bearer " +:+ Js.interpolate (store !! "access_token") = "Bearer " +:+ t
    /\ (Session.token store = Some t \/ t = "null").
Proof.
  unfold Session.token. destruct (store !! "access_token") as [t|].
  - exists t. auto.
  - exists "null". auto.
Qed.

End DistributionMore.

(** X11: with no hub selected, the trend, yearly, anomalies and
    history fetches of Monitor and the trend and yearly fetches of
    DistributionDashboard switch the view, ask for a hub and send
    nothing; the critical summary of DistributionDashboard, which needs
    no hub, is requested all the same. *)
Theorem fetch_without_hub_sends_nothing :
  forall (m : Monitor.world) (d : Distribution.world) e e',
    Monitor.selectedHub (component m) = "" ->
    Distribution.selectedHub (component d) = "" ->
    In e [Monitor.Trend; Monitor.Yearly; Monitor.Anomalies;
          Monitor.History] ->
    In e' [Distribution.Trend; Distribution.Yearly] ->
    (sent (Monitor.step m e) = sent m
     /\ pending (Monitor.step m e) = pending m
     /\ Monitor.activeView (component (Monitor.step m e))
        = Monitor.selects e
     /\ Monitor.banner (component (Monitor.step m e))
        = Some "Select a hub first.")
    /\ (sent (Distribution.step d e') = sent d
        /\ pending (Distribution.step d e') = pending d
        /\ Distribution.activeView (component (Distribution.step d e'))
           = Distribution.selects e'
        /\ Distribution.banner (component (Distribution.step d e'))
           = Some "Select a hub first.")
    /\ sent (Distribution.step d Distribution.Critical)
       = sent d
         ++ [Distribution.get d
               ("/api/mc/" +:+ Js.interpolate (Distribution.mcCode d)
                +:+ "/critical-summary")].
Proof.
  intros [[] ? ? ? ? ?] [[] ? ? ? ? ?] e e'.
  cbn [component Monitor.selectedHub Distribution.selectedHub].
  intros -> -> He He'. split; [|split].
  - destruct He as [<-|[<-|[<-|[<-|[]]]]]; repeat split.
  - destruct He' as [<-|[<-|[]]]; repeat split.
  - reflexivity.
Qed.

Lemma fetch_without_hub_sends_nothing_witness :
  (sent (Monitor.step Sample.monitor Monitor.Anomalies) = sent Sample.monitor
   /\ Monitor.banner (component (Monitor.step Sample.monitor Monitor.Anomalies))
      = Some "Select a hub first.")
  /\ (sent (Distribution.step Sample.distribution Distribution.Yearly)
      = sent Sample.distribution
      /\ Distribution.banner
           (component (Distribution.step Sample.distribution
                         Distribution.Yearly))
         = Some "Select a hub first.").
Proof.
  assert (Hm : Monitor.selectedHub (component Sample.monitor) = "")
    by (vm_compute; reflexivity).
  assert (Hd : Distribution.selectedHub (component Sample.distribution) = "")
    by (vm_compute; reflexivity).
  destruct (fetch_without_hub_sends_nothing Sample.monitor
              Sample.distribution Monitor.Anomalies Distribution.Yearly
              Hm Hd)
    as ((Hs & _ & _ & Hb) & (Hs' & _ & _ & Hb') & _).
  - right. right. now left.
  - right. now left.
  - repeat split; assumption.
Defined.

(** X12: on Monitor, a response that is fulfilled but leaves nothing
    to show (a null body for a prediction; a trend or yearly summary
    without an entry for the hub, or with an empty one; an empty list of
    anomalies or records) right after the click that asked for it
    leaves the screen without any section and without any message. *)
Theorem Monitor_empty_answer_shows_nothing :
  forall store es e d,
    let w := Monitor.run (Monitor.load store) es in
    mounted w = true ->
    Monitor.selectedHub (component w) <> "" ->
    Monitor.answers_nothing e (Monitor.selectedHub (component w)) d ->
    let w' :=
      Monitor.run w [e; Monitor.Settle (length (sent w)) (Fulfilled d)] in
    Monitor.shown w' = [] /\ Monitor.banner (component w') = None.
Proof.
  intros store es e d w Hm Hh Hd w'.
  pose proof (MonitorMore.pending_sent store es) as Hp. fold w in Hp.
  subst w'. clearbody w.
  destruct w as [[hl sh rs tr yr an rc ld er av fd] ls mt vs sn pd].
  cbn [component mounted sent pending Monitor.selectedHub] in *. subst mt.
  assert (Hne : String.eqb sh "" = false)
    by (destruct (String.eqb_spec sh ""); [contradiction|reflexivity]).
  destruct e; try (now destruct Hd); cbn [Monitor.answers_nothing] in Hd;
    cbn [Monitor.run fold_left Monitor.step];
    unfold Monitor.handlePredict, Monitor.fetchTrend,
      Monitor.fetchYearlyTrend, Monitor.fetchAnomalies, Monitor.fetchRecords;
    cbv zeta; cbn [update component compose Monitor.selectedHub
                   Monitor.setActiveView Monitor.setRecords
                   Monitor.setAnomalies Monitor.setYearlyTrend
                   Monitor.setTrend Monitor.setResult Monitor.setError
                   Monitor.setLoading
                   Monitor.hubList Monitor.result Monitor.trend
                   Monitor.yearlyTrend Monitor.anomalies Monitor.records
                   Monitor.loading Monitor.error Monitor.activeView
                   Monitor.formData localStorage mounted visited sent
                   pending];
    rewrite Hne;
    match goal with
    | |- context [wake _ (send ?rq ?k ?w0)] =>
        change (length sn) with (length (sent w0));
        rewrite (wake_fresh w0 rq k) by exact Hp
    end;
    cbn [Monitor.resume]; try rewrite Hd; try subst d;
    split; reflexivity.
Qed.

Lemma Monitor_empty_answer_shows_nothing_witness :
  let w := Monitor.run (Monitor.load Sample.session)
             [Monitor.SelectHub "H1"] in
  let w' :=
    Monitor.run w
      [Monitor.Trend;
       Monitor.Settle (length (sent w)) (Fulfilled (Some Sample.no_summary))]
  in
  Monitor.shown w' = [] /\ Monitor.banner (component w') = None.
Proof.
  apply (Monitor_empty_answer_shows_nothing Sample.session
           [Monitor.SelectHub "H1"] Monitor.Trend (Some Sample.no_summary)).
  - vm_compute. reflexivity.
  - vm_compute. discriminate.
  - vm_compute. reflexivity.
Defined.

(** X13: with the predict button of Monitor disabled while loading, at
    most one prediction request awaits its response, and the screen is
    loading exactly while one does. *)
Theorem one_prediction_in_flight :
  forall store es,
    Monitor.feasible (Monitor.load store) es = true ->
    let w := Monitor.run (Monitor.load store) es in
    Monitor.in_flight w = if Monitor.loading (component w) then 1 else 0.
Proof.
  intros store es. cbv zeta.
  induction es as [|e es IH] using rev_ind; intros Hf.
  - unfold Monitor.load, Monitor.mount. cbn [Monitor.run fold_left].
    destruct (negb _); reflexivity.
  - rewrite MonitorMore.monitor_feasible_snoc in Hf.
    apply andb_true_iff in Hf as [Hf He]. specialize (IH Hf).
    rewrite MonitorFacts.run_snoc.
    destruct (Monitor.run (Monitor.load store) es)
      as [[hl sh rs tr yr an rc ld er av fd] ls mt vs sn pd].
    unfold Monitor.in_flight in *.
    cbn [component pending Monitor.loading] in IH.
    destruct e as [v|n v| | | | | | | | |id o]; cbn [Monitor.step];
      unfold Monitor.handleChange, Monitor.handlePredict, Monitor.fetchTrend,
        Monitor.fetchYearlyTrend, Monitor.fetchAnomalies,
        Monitor.fetchRecords, handleLogout;
      cbv zeta;
      try (cbn [update component compose send navigate clear pending
                Monitor.selectedHub Monitor.loading
                Monitor.setActiveView Monitor.setRecords Monitor.setAnomalies
                Monitor.setYearlyTrend Monitor.setTrend Monitor.setResult
                Monitor.setError Monitor.setLoading Monitor.setSelectedHub
                Monitor.setFormData];
           try match goal with
               | |- context [String.eqb ?a ?b] => destruct (String.eqb a b)
               end;
           cbn [update component send pending Monitor.loading
                Monitor.setError Monitor.setLoading];
           rewrite ?List.filter_app, ?length_app;
           cbn [List.filter snd Monitor.awaits_prediction length];
           rewrite ?Nat.add_0_r; try exact IH).
    + (* Predict *)
      cbn in He. apply andb_true_iff in He as [_ He].
      destruct ld; [discriminate|]. rewrite IH. reflexivity.
    + (* Settle *)
      unfold wake. cbn [pending].
      destruct (extract id pd) as [[k rest]|] eqn:Hx;
        [|cbn [component pending Monitor.loading]; exact IH].
      apply (extract_count Monitor.awaits_prediction) in Hx.
      rewrite Hx in IH.
      destruct k, o; cbn [Monitor.resume Monitor.awaits_prediction] in *;
        repeat match goal with
               | |- context [match ?x with _ => _ end] =>
                   match x with
                   | Monitor.trend_of _ _ => destruct x
                   | Monitor.yearly_of _ _ => destruct x
                   | Monitor.records_of _ => destruct x
                   end
               end;
        cbn [update component compose pending Monitor.loading
             Monitor.setLoading Monitor.setResult Monitor.setError
             Monitor.setHubList Monitor.setTrend Monitor.setYearlyTrend
             Monitor.setAnomalies Monitor.setRecords];
        try exact IH; destruct ld; lia.
Qed.

Lemma one_prediction_in_flight_witness :
  Monitor.in_flight (Monitor.run (Monitor.load Sample.session)
                       Sample.predicting)
  = if Monitor.loading
         (component (Monitor.run (Monitor.load Sample.session)
                       Sample.predicting))
    then 1 else 0.
Proof.
  apply (one_prediction_in_flight Sample.session Sample.predicting).
  vm_compute. reflexivity.
Defined.

(** X14: no request Monitor ever sends carries a header of the code's
    own, so none carries an Authorization header. *)
Theorem Monitor_sends_no_header :
  forall store es rq,
    In rq (sent (Monitor.run (Monitor.load store) es)) ->
    headers rq = [] /\ Session.authorization rq = None.
Proof.
  intros store es rq H.
  enough (Hh : headers rq = [])
    by (split; [exact Hh|unfold Session.authorization; now rewrite Hh]).
  revert rq H. induction es as [|e es IH] using rev_ind; intros rq.
  - unfold Monitor.run, Monitor.load, Monitor.mount, Monitor.get.
    cbn [fold_left].
    destruct (negb _); cbn [sent navigate send open app In]; [tauto|].
    now intros [<-|[]].
  - rewrite MonitorFacts.run_snoc. intros H.
    apply MonitorMore.step_headers in H as [H|H]; auto.
Qed.

Lemma Monitor_sends_no_header_witness :
  headers (Request GET "http://127.0.0.1:8000/api/mc/MC01/hubs" [] Empty)
  = []
  /\ Session.authorization
       (Request GET "http://127.0.0.1:8000/api/mc/MC01/hubs" [] Empty)
     = None.
Proof.
  apply (Monitor_sends_no_header Sample.session_with_token []).
  vm_compute. now left.
Defined.

(** X15: every request DistributionDashboard ever sends carries
    exactly one header, an Authorization header that starts with
    Bearer; what follows is the token the storage held when the screen
    was mounted, or the word null. *)
Theorem Distribution_always_sends_a_bearer_header :
  forall store es rq,
    In rq (sent (Distribution.run (Distribution.load store) es)) ->
    exists t,
      headers rq = [("Authorization", "Bearer " +:+ t)]
      /\ (Session.token store = Some t \/ t = "null").
Proof.
  intros store es.
  enough (H : (localStorage (Distribution.run (Distribution.load store) es)
               = store
               \/ localStorage (Distribution.run (Distribution.load store) es)
                  = ∅)
              /\ forall rq,
                   In rq (sent (Distribution.run (Distribution.load store) es))
                   -> exists t,
                        headers rq = [("Authorization", "Bearer " +:+ t)]
                        /\ (Session.token store = Some t \/ t = "null"))
    by apply H.
  induction es as [|e es [IHl IHs]] using rev_ind.
  - cbn [Distribution.run fold_left].
    unfold Distribution.load, Distribution.mount.
    destruct (DistributionFacts.protect_frame
                (Distribution.hubs_effect
                   (Distribution.redirect_effect
                      (open Distribution.initial store))))
      as (_ & -> & -> & _).
    destruct (DistributionFacts.redirect_frame
                (open Distribution.initial store)) as (_ & Hl & Hs & _).
    unfold Distribution.hubs_effect, Distribution.get, Distribution.axiosAuth,
      Distribution.token, getItem.
    destruct (negb _); cbn [localStorage sent navigate send];
      rewrite Hl, Hs; cbn [open localStorage sent app In];
      (split; [now left|]); intros rq; [intros []|].
    intros [<-|[]]. cbn [headers].
    destruct (DistributionMore.bearer_of_storage store) as (t & -> & Ht).
    eauto.
  - rewrite DistributionFacts.dist_run_snoc.
    set (w := Distribution.run (Distribution.load store) es) in *.
    destruct (DistributionMore.dist_step_bearer w e) as [Hl Hs].
    split.
    + destruct Hl as [-> |Hl]; [exact IHl|now right].
    + intros rq Hrq. apply Hs in Hrq as [Hrq| ->]; [now apply IHs|].
      destruct IHl as [-> | ->].
      * destruct (DistributionMore.bearer_of_storage store)
          as (t & -> & Ht).
        eauto.
      * exists "null". rewrite lookup_empty. auto.
Qed.

Lemma Distribution_always_sends_a_bearer_header_witness :
  exists t,
    headers (Request GET "http://127.0.0.1:8000/api/mc/MC01/hubs"
               [("Authorization", "Bearer null")] Empty)
    = [("Authorization", "Bearer " +:+ t)]
    /\ (Session.token Sample.session = Some t \/ t = "null").
Proof.
  apply (Distribution_always_sends_a_bearer_header Sample.session []).
  vm_compute. now left.
Defined.

(** X16: a text typed into a field reaches the prediction payload as
    the number [parseFloat(text) || 0] on both screens, Monitor coercing
    it when the prediction is requested and DistributionDashboard when
    it is typed. *)
Theorem typed_value_reaches_the_payload :
  forall (m : Monitor.world) (d : Distribution.world) name value,
    Monitor.selectedHub (component m) <> "" ->
    Distribution.selectedHub (component d) <> "" ->
    (exists rq p,
        sent (Monitor.run m [Monitor.Change name value; Monitor.Predict])
        = sent m ++ [rq]
        /\ data rq = Json p
        /\ p !! name = Some (Js.VNum (Js.or_zero (Js.parseFloat value))))
    /\ (exists rq p,
          sent (Distribution.run d
                  [Distribution.Change name value; Distribution.Predict])
          = sent d ++ [rq]
          /\ data rq = Json p
          /\ p !! name = Some (Js.VNum (Js.or_zero (Js.parseFloat value)))).
Proof.
  intros [[hl sh rs tr yr an rc ld er av fd] ls mt vs sn pd]
         [[hl' sh' fd' rs' tr' yr' cr' rc' er' ld' av'] ls' mt' vs' sn' pd']
         name value.
  cbn [component Monitor.selectedHub Distribution.selectedHub].
  intros Hm Hd.
  assert (Hne : String.eqb sh "" = false)
    by (destruct (String.eqb_spec sh ""); [contradiction|reflexivity]).
  assert (Hne' : String.eqb sh' "" = false)
    by (destruct (String.eqb_spec sh' ""); [contradiction|reflexivity]).
  split.
  - cbn [Monitor.run fold_left Monitor.step].
    unfold Monitor.handleChange, Monitor.handlePredict. cbv zeta.
    cbn [update component compose Monitor.selectedHub Monitor.formData
         Monitor.setActiveView Monitor.setRecords Monitor.setAnomalies
         Monitor.setYearlyTrend Monitor.setTrend Monitor.setResult
         Monitor.setError Monitor.setFormData].
    rewrite Hne. cbn [sent send update].
    do 2 eexists. split; [reflexivity|]. split; [reflexivity|].
    unfold Monitor.payload. apply lookup_union_Some_l.
    rewrite lookup_fmap, lookup_insert_eq. reflexivity.
  - cbn [Distribution.run fold_left Distribution.step].
    unfold Distribution.handleChange, Distribution.handlePredict. cbv zeta.
    cbn [update component compose Distribution.selectedHub
         Distribution.formData
         Distribution.setActiveView Distribution.setRecords
         Distribution.setCritical
         Distribution.setYearlyTrend Distribution.setTrend
         Distribution.setResult
         Distribution.setError Distribution.setFormData].
    rewrite Hne'. cbn [sent send update].
    do 2 eexists. split; [reflexivity|]. split; [reflexivity|].
    unfold Distribution.payload. apply lookup_union_Some_l.
    apply lookup_insert_eq.
Qed.

Lemma typed_value_reaches_the_payload_witness :
  let m := Monitor.run Sample.monitor [Monitor.SelectHub "H1"] in
  let d := Distribution.run Sample.distribution
             [Distribution.SelectHub "H1"] in
  (exists rq p,
      sent (Monitor.run m [Monitor.Change "pH_Min" "6.5pH"; Monitor.Predict])
      = sent m ++ [rq]
      /\ data rq = Json p
      /\ p !! "pH_Min" = Some (Js.VNum (Js.or_zero (Js.parseFloat "6.5pH"))))
  /\ (exists rq p,
        sent (Distribution.run d
                [Distribution.Change "pH_Min" "6.5pH"; Distribution.Predict])
        = sent d ++ [rq]
        /\ data rq = Json p
        /\ p !! "pH_Min"
           = Some (Js.VNum (Js.or_zero (Js.parseFloat "6.5pH")))).
Proof.
  cbv zeta.
  apply (typed_value_reaches_the_payload
           (Monitor.run Sample.monitor [Monitor.SelectHub "H1"])
           (Distribution.run Sample.distribution
              [Distribution.SelectHub "H1"]) "pH_Min" "6.5pH").
  - vm_compute. discriminate.
  - vm_compute. discriminate.
Defined.

(** X17: a field of Monitor that no event has edited reaches the
    prediction payload with its default: the coercion of the payload
    changes none of the fourteen defaults. *)
Theorem unedited_fields_are_sent_as_they_are :
  forall store es name v,
    Monitor.formData Monitor.initial !! name = Some v ->
    (forall text, ~ In (Monitor.Change name text) es) ->
    let w := Monitor.run (Monitor.load store) es in
    Monitor.selectedHub (component w) <> "" ->
    exists rq p,
      sent (Monitor.step w Monitor.Predict) = sent w ++ [rq]
      /\ data rq = Json p
      /\ p !! name = Some v.
Proof.
  intros store es name v Hv Hn w Hh.
  pose proof (MonitorMore.unedited_field store es name Hn) as Hf.
  fold w in Hf. clearbody w.
  destruct w as [[hl sh rs tr yr an rc ld er av fd] ls mt vs sn pd].
  cbn [component Monitor.selectedHub Monitor.formData] in *.
  assert (Hne : String.eqb sh "" = false)
    by (destruct (String.eqb_spec sh ""); [contradiction|reflexivity]).
  cbn [Monitor.step]. unfold Monitor.handlePredict. cbv zeta.
  cbn [update component compose Monitor.selectedHub Monitor.formData
       Monitor.setActiveView Monitor.setRecords Monitor.setAnomalies
       Monitor.setYearlyTrend Monitor.setTrend Monitor.setResult
       Monitor.setError].
  rewrite Hne. cbn [sent send update].
  do 2 eexists. split; [reflexivity|]. split; [reflexivity|].
  unfold Monitor.payload. apply lookup_union_Some_l.
  rewrite lookup_fmap, Hf, Hv. cbn [fmap option_fmap option_map].
  f_equal. exact (MonitorMore.default_survives name v Hv).
Qed.

Lemma unedited_fields_are_sent_as_they_are_witness :
  exists rq p,
    sent (Monitor.step (Monitor.run (Monitor.load Sample.session)
                          Sample.predicting) Monitor.Predict)
    = sent (Monitor.run (Monitor.load Sample.session) Sample.predicting)
      ++ [rq]
    /\ data rq = Json p
    /\ p !! "BOD_Min" = Some (Monitor.literal 12 0).
Proof.
  apply (unedited_fields_are_sent_as_they_are Sample.session
           Sample.predicting "BOD_Min" (Monitor.literal 12 0)).
  - vm_compute. reflexivity.
  - intros text H. vm_compute in H.
    repeat (destruct H as [H|H]; [discriminate H|]). exact H.
  - vm_compute. discriminate.
Defined.

(** ** The colours of the cards *)

Lemma prefix_app (sub rest : string) : String.prefix sub (sub +:+ rest) = true.
Proof.
  induction sub as [|c sub IH]; simpl; [now destruct rest|].
  destruct (ascii_dec c c); [exact IH|congruence].
Qed.

Lemma includes_prefix (sub s : string) :
  String.prefix sub s = true -> Js.includes sub s = true.
Proof. intros H. destruct s; cbn [Js.includes]; now rewrite H. Qed.

(** A string includes what it is built around. *)
Lemma includes_app (sub a b : string) :
  Js.includes sub (a +:+ sub +:+ b) = true.
Proof.
  induction a as [|c a IH].
  - apply includes_prefix. exact (prefix_app sub b).
  - change (Js.includes sub (String c (a +:+ sub +:+ b)) = true).
    cbn [Js.includes]. rewrite IH. apply orb_true_r.
Qed.

(** X18: on Monitor two categories get the same colour, other than
    the grey of an unknown category, only if they are the same category
    up to the case of their letters. *)
Theorem colour_tells_the_category :
  forall s t c,
    Monitor.getWQIColor (Js.VStr s) = Some c ->
    Monitor.getWQIColor (Js.VStr t) = Some c ->
    c <> "#636e72" ->
    Js.toLowerCase s = Js.toLowerCase t.
Proof.
  intros s t c. unfold Monitor.getWQIColor. cbv zeta.
  repeat match goal with
         | |- context [String.eqb ?a ?b] => destruct (String.eqb_spec a b)
         end;
    intros H1 H2 Hc; injection H1 as <-;
    first [congruence | discriminate H2].
Qed.

Lemma colour_tells_the_category_witness :
  Js.toLowerCase "Very Poor" = Js.toLowerCase "VERY POOR".
Proof.
  apply (colour_tells_the_category "Very Poor" "VERY POOR" "#d63031").
  - reflexivity.
  - reflexivity.
  - discriminate.
Defined.

(** X19: on DistributionDashboard a status that contains the word
    Critical anywhere is shown in red, whatever else it contains; the
    status card is flagged as an anomaly exactly when the colour is
    red; and the colour fails to compute exactly when the class does. *)
Theorem critical_status_is_red_and_flagged :
  (forall a b,
      Distribution.getStatusColor (Js.VStr (a +:+ "Critical" +:+ b))
      = Some "#d63031")
  /\ (forall status,
        Distribution.getStatusColor status = Some "#d63031"
        <-> Distribution.status_class status = Some "trend-value anomaly")
  /\ (forall status,
        Distribution.getStatusColor status = None
        <-> Distribution.status_class status = None).
Proof.
  split; [|split].
  - intros a b. unfold Distribution.getStatusColor.
    now rewrite includes_app.
  - intros [| | | |s]; cbn; try (split; discriminate).
    destruct (Js.includes "Critical" s); [tauto|].
    destruct (Js.includes "Stable" s); split; discriminate.
  - intros [| | | |s]; cbn; split; try discriminate; reflexivity.
Qed.

(** ** Hub images *)

Module AssetsFacts.
Import Assets.

Lemma first_format_found assets hub pre ext post image :
  (forall e, In e pre -> assets !! path hub e = None) ->
  assets !! path hub ext = Some image ->
  first_format assets hub (pre ++ ext :: post) = Some image.
Proof.
  intros Hpre Hext. induction pre as [|e pre IH]; cbn [app first_format].
  - now rewrite Hext.
  - rewrite (Hpre e) by now left. apply IH. intros e' He'. apply Hpre.
    now right.
Qed.

Lemma first_format_None assets hub exts :
  first_format assets hub exts = None
  <-> forall e, In e exts -> assets !! path hub e = None.
Proof.
  induction exts as [|e exts IH]; cbn [first_format].
  - split; [intros _ e []|reflexivity].
  - destruct (assets !! path hub e) as [image|] eqn:He.
    + split; [discriminate|]. intros H.
      rewrite (H e) in He by now left. discriminate.
    + rewrite IH. split.
      * intros H e' [<-|He']; auto.
      * intros H e' He'. apply H. now right.
Qed.

Lemma first_format_Some assets hub exts image :
  first_format assets hub exts = Some image ->
  exists e, In e exts /\ assets !! path hub e = Some image.
Proof.
  induction exts as [|e exts IH]; cbn [first_format]; [discriminate|].
  destruct (assets !! path hub e) as [image'|] eqn:He.
  - intros [= <-]. exists e. split; [now left|exact He].
  - intros H. destruct (IH H) as (e' & He' & Hi). exists e'.
    split; [now right|exact Hi].
Qed.

End AssetsFacts.

(** X20: [getHubImage] returns the image of the first format, in the
    order jpg, jpeg, png, webp, avif, that the bundle holds for the hub,
    whatever later formats and the default image are. *)
Theorem hub_image_is_the_first_format_found :
  forall assets hub pre ext post image,
    Assets.extensions = pre ++ ext :: post ->
    (forall e, In e pre -> assets !! Assets.path hub e = None) ->
    assets !! Assets.path hub ext = Some image ->
    Assets.getHubImage assets hub = image.
Proof.
  intros assets hub pre ext post image Hexts Hpre Hext.
  unfold Assets.getHubImage. rewrite Hexts.
  now rewrite (AssetsFacts.first_format_found _ _ _ _ _ _ Hpre Hext).
Qed.

Lemma hub_image_is_the_first_format_found_witness :
  Assets.getHubImage Sample.assets "HUB001" = "/static/media/HUB001.png".
Proof.
  apply (hub_image_is_the_first_format_found _ "HUB001" ["jpg"; "jpeg"] "png"
           ["webp"; "avif"]).
  - reflexivity.
  - intros e [<-|[<-|[]]]; vm_compute; reflexivity.
  - vm_compute. reflexivity.
Defined.

(** X21: in a bundle whose images are all non-empty, [getHubImage]
    returns the empty string exactly when the bundle holds no image of
    the hub in any of the five formats and no default image; a hub
    without an image of its own gets the default image; and a result
    that is not empty is an image of the bundle. *)
Theorem hub_image_is_empty_only_without_any_image :
  forall assets hub,
    (forall p, assets !! p <> Some "") ->
    (Assets.getHubImage assets hub = ""
     <-> (forall ext, In ext Assets.extensions ->
                      assets !! Assets.path hub ext = None)
         /\ assets !! Assets.fallback = None)
    /\ ((forall ext, In ext Assets.extensions ->
                     assets !! Assets.path hub ext = None) ->
        forall image, assets !! Assets.fallback = Some image ->
                      Assets.getHubImage assets hub = image)
    /\ (Assets.getHubImage assets hub <> "" ->
        exists p, assets !! p = Some (Assets.getHubImage assets hub)).
Proof.
  intros assets hub Hne. unfold Assets.getHubImage.
  destruct (Assets.first_format assets hub Assets.extensions) as [image|]
    eqn:Hf.
  - destruct (AssetsFacts.first_format_Some _ _ _ _ Hf) as (e & He & Hi).
    split; [|split].
    + split.
      * intros ->. now destruct (Hne (Assets.path hub e)).
      * intros [H _]. rewrite (H e He) in Hi. discriminate.
    + intros H. rewrite (H e He) in Hi. discriminate.
    + intros _. eauto.
  - pose proof (proj1 (AssetsFacts.first_format_None _ _ _) Hf) as Hn.
    destruct (assets !! Assets.fallback) as [image|] eqn:Hd.
    + split; [|split].
      * split; [intros ->; now destruct (Hne Assets.fallback)|].
        intros [_ H]. discriminate.
      * now intros _ image' [= <-].
      * intros _. eauto.
    + split; [|split].
      * split; [intros _; split; [exact Hn|reflexivity]|reflexivity].
      * intros _ image. discriminate.
      * intros H. now destruct H.
Qed.

Lemma hub_image_is_empty_only_without_any_image_witness :
  Assets.getHubImage
    {[ Assets.path "HUB001" "png" := "/static/media/HUB001.png" ]} "HUB002"
  = "".
Proof.
  destruct (hub_image_is_empty_only_without_any_image
              {[ Assets.path "HUB001" "png" := "/static/media/HUB001.png" ]}
              "HUB002") as [[_ H] _].
  - intros p H. apply lookup_singleton_Some in H as [_ H]. discriminate H.
  - apply H. split.
    + intros ext [<-|[<-|[<-|[<-|[<-|[]]]]]]; vm_compute; reflexivity.
    + vm_compute. reflexivity.
Defined.

(** ** Home *)

Module HomeFacts.
Import Home.

Lemma home_run_cons (w : world) e es : run w (e :: es) = run (step w e) es.
Proof. reflexivity. Qed.

(** Once the overview request has been answered nothing changes the
    state, the requests or the storage any more. *)
Lemma answered_stays es : forall w : world,
  pending w = [] ->
  component (run w es) = component w /\ sent (run w es) = sent w
  /\ localStorage (run w es) = localStorage w.
Proof.
  induction es as [|e es IH]; intros w Hp; [auto|].
  rewrite home_run_cons.
  destruct e as [| | | |id a]; cbn [step];
    try (match goal with
         | |- context [navigate ?r w] =>
             destruct (IH (navigate r w) Hp) as (-> & -> & ->)
         end; now repeat split).
  unfold wake. rewrite Hp. cbn [extract]. now apply IH.
Qed.

(** Until then the state is the one before, and the first answer
    decides what it becomes. *)
Lemma awaiting_run es : forall w : world,
  pending w = [(0, AwaitOverview)] ->
  sent (run w es) = sent w
  /\ localStorage (run w es) = localStorage w
  /\ component (run w es)
     = match first_answer es with
       | Some a =>
           component
             (resume AwaitOverview a
                (World (component w) (localStorage w) (mounted w)
                       (visited w) (sent w) []))
       | None => component w
       end.
Proof.
  induction es as [|e es IH]; intros w Hp; [auto|].
  rewrite home_run_cons.
  destruct e as [| | | |id a]; cbn [step first_answer];
    try (match goal with
         | |- context [navigate ?r w] =>
             destruct (IH (navigate r w) Hp) as (-> & -> & ->)
         end;
         repeat split; now destruct (first_answer es) as [[[d|]| |]|]).
  unfold wake. rewrite Hp. cbn [extract].
  destruct id as [|id]; cbn [Nat.eqb].
  - destruct (answered_stays es
                (resume AwaitOverview a
                   (World (component w) (localStorage w) (mounted w)
                          (visited w) (sent w) [])))
      as (-> & -> & ->); [now destruct a as [[d|]| |]|].
    destruct a as [[d|]| |]; auto.
  - now apply IH.
Qed.

End HomeFacts.

(** X22: whatever events reach the landing page, it shows the loading
    text until the overview request is answered, and from then on what
    the first answer says: the three figures of a response with a body
    (a missing or falsy figure as 0, the population as a dash when it is
    falsy), the error message for anything else.  It sends that one
    request only, without a header, and never writes the storage. *)
Theorem Home_shows_the_first_answer :
  forall store es,
    let w := Home.run (Home.load store) es in
    Home.render (component w) = Home.overview_of (Home.first_answer es)
    /\ sent w
       = [Request GET "http://127.0.0.1:8000/api/public-overall-stats" []
                  Empty]
    /\ localStorage w = store.
Proof.
  intros store es.
  destruct (HomeFacts.awaiting_run es (Home.load store) eq_refl)
    as (Hs & Hl & Hc).
  cbv zeta. rewrite Hs, Hl, Hc. split; [|split; reflexivity].
  destruct (Home.first_answer es) as [[[d|]| |]|]; try reflexivity.
Qed.
